(** * wireguard-go on DragonFly BSD: the TUN transport and the UDP bind coordinator

    A shallow embedding of [tun/tun_dragonfly.go] (package [tun]) and of
    [conn.go] (package [main]), and the properties of their specification.

    - Go [int], [uint16], [uint32] values are [Z]; the arithmetic the code
      performs on an [int] wraps at 64 bits ([int_sub], [int_add]).
    - A byte is a [Z] in [0, 256); a [[]byte] is a [list byte].
    - A Go [error] is [option error]: [None] is [nil].
    - System and library calls are answered by a [Kernel]: every answer may
      depend on the whole history of calls issued so far, so the model covers
      any deterministic environment.  The history is the observable trace of
      a run: "the descriptor was closed" is a statement about it. *)

From Stdlib Require Import ZArith List String Lia Bool DecimalString.
From stdpp Require Import base gmap strings list.
Import ListNotations.
Open Scope Z_scope.

(** ** Go values *)

Definition byte := Z.

(** Go errors, one constructor per place the code builds one. *)
Inductive error : Type :=
| Errno (e : Z)                        (* a syscall.Errno *)
| ErrNameTooLong                       (* errors.New("interface name too long") *)
| ErrAlreadyExists (name : string)     (* "interface %s already exists" *)
| ErrSetPID (e : Z)                    (* "failed to set tun device PID: %s" *)
| ErrIoctl (e : Z)                     (* fmt.Errorf("error %s", errno.Error()) *)
| ErrRename (old new : string) (e : Z) (* "failed to rename %s to %s: %s" *)
| ErrSetMTU (name : string)            (* "failed to set MTU on %s" *)
| ErrDeviceClosed                      (* errors.New("tun device closed") *)
| ErrLib (msg : string).               (* an error made by a library (os, net, rwcancel, a Bind) *)

(** 64-bit two's complement wrap-around of Go's [int]. *)
Definition wrap64 (z : Z) : Z := (z + 2 ^ 63) mod 2 ^ 64 - 2 ^ 63.
Definition int_sub (a b : Z) : Z := wrap64 (a - b).
Definition int_add (a b : Z) : Z := wrap64 (a + b).
Definition is_int (z : Z) : Prop := - 2 ^ 63 <= z < 2 ^ 63.

(** Package net: [net.Interface] with the fields the code reads, and
    [net.FlagUp], the first of the [1 << iota] flags. *)
Module net.

Record Interface : Type := mkInterface {
  Index : Z;
  MTU : Z;
  Name : string;
  Flags : Z
}.

Definition FlagUp : Z := 1.

End net.

(** An [os.File]: an open file is its descriptor. *)
Record File : Type := mkFile { Fd : Z }.

(** An [rwcancel.RWCancel], made by [rwcancel.NewRWCancel]. *)
Record RWCancel : Type := mkRWCancel { rw_fd : Z }.

(** Constants of [golang.org/x/sys/unix], [syscall] and
    [golang.org/x/net/ipv6], and the pure library functions the code calls:
    the platform fixes them, the code only names them. *)
Class Platform : Type := {
  IFNAMSIZ : Z;
  AF_INET : Z;
  AF_INET6 : Z;
  AF_ROUTE : Z;
  AF_UNSPEC : Z;
  SOCK_DGRAM : Z;
  SOCK_RAW : Z;
  SHUT_RDWR : Z;
  O_RDWR : Z;
  IFF_BROADCAST : Z;
  RTM_IFINFO : Z;
  SIOCGIFSTATUS : Z;
  SIOCSIFNAME : Z;
  SIOCSIFMTU : Z;
  EINTR : Z;
  ipv6_Version : Z;
  (* fmt.Sscanf(statStr, "\tOpened by PID %d\n", &pidNum): the pid, or an error *)
  Sscanf_pid : list byte -> option Z;
  (* rwcancel.RetryAfterError *)
  RetryAfterError : error -> bool
}.

(** The three ioctl numbers the file defines itself. *)
Definition _TUNSIFHEAD : Z := 0x80047460.
Definition _TUNSIFMODE : Z := 0x8004745e.
Definition _TUNSIFPID : Z := 0x2000745f.
Definition _IFSTATMAX : Z := 800.

(** ** Slices *)

Definition len {A} (l : list A) : Z := Z.of_nat (length l).

(** [s[i]]: [None] is Go's index-out-of-range panic. *)
Definition index {A} (s : list A) (i : Z) : option A :=
  if (0 <=? i) && (i <? len s) then s !! Z.to_nat i else None.

(** [s[low:]]: [None] is the slice-bounds panic.  The result shares its
    storage with [s]: element [i] of it is element [low + i] of [s]. *)
Definition slice_from {A} (s : list A) (low : Z) : option (list A) :=
  if (0 <=? low) && (low <=? len s) then Some (drop (Z.to_nat low) s) else None.

(** [s[i] = v] *)
Definition store {A} (s : list A) (i : Z) (v : A) : option (list A) :=
  if (0 <=? i) && (i <? len s) then Some (<[Z.to_nat i := v]> s) else None.

(** [s[:high]] for [0 <= high <= len(s)]. *)
Definition slice_to {A} (s : list A) (high : Z) : list A := take (Z.to_nat high) s.

(** [copy(dst, src)]: the first [min(len dst, len src)] elements. *)
Definition copy {A} (dst src : list A) : list A :=
  take (length dst) (src ++ drop (length src) dst).

Definition bytes_of_string (s : string) : list byte :=
  map (fun c => Z.of_nat (Ascii.nat_of_ascii c)) (list_ascii_of_string s).

(** [bytes.IndexByte(s, c)] *)
Fixpoint IndexByte (s : list byte) (c : byte) : Z :=
  match s with
  | [] => -1
  | b :: s' => if b =? c then 0
               else let r := IndexByte s' c in if r <? 0 then -1 else 1 + r
  end.

(** [fmt.Sprintf("%d", i)] for [i >= 0]. *)
Definition itoa (i : Z) : string := NilEmpty.string_of_uint (Nat.to_uint (Z.to_nat i)).

Definition is_nil {A} (e : option A) : bool :=
  match e with Some _ => false | None => true end.

(** ** How a call ends: it returns, it panics, or a loop ran out of fuel *)

Inductive Outcome (A : Type) : Type :=
| Done (a : A)
| Panic
| OutOfFuel.
Arguments Done {A} a.
Arguments Panic {A}.
Arguments OutOfFuel {A}.

(** * Package tun *)

Module Tun.

(** [TUNEvent], declared in tun.go as [1 << iota] constants. *)
Inductive TUNEvent : Type := TUNEventUp | TUNEventDown | TUNEventMTUUpdate.

(** A buffered channel of events: what was sent and not yet received, its
    capacity, and whether [close] was called on it. *)
Record Chan : Type := mkChan {
  queue : list TUNEvent;
  capacity : Z;
  closed : bool
}.

Definition make_chan (cap : Z) : Chan := mkChan [] cap false.
Definition close_chan (c : Chan) : Chan := mkChan (queue c) (capacity c) true.

(** [nativeTun].  [errors] is a channel of capacity 1: the error waiting in
    it, if any.  [events] may be the nil channel. *)
Record nativeTun : Type := mkTun {
  name : string;
  origName : string;
  fd : File;
  rwcancel : option RWCancel;
  events : option Chan;
  errors : option error;
  routeSocket : Z
}.

Definition set_name (tun : nativeTun) (v : string) : nativeTun :=
  mkTun v (origName tun) (fd tun) (rwcancel tun) (events tun) (errors tun) (routeSocket tun).
Definition set_origName (tun : nativeTun) (v : string) : nativeTun :=
  mkTun (name tun) v (fd tun) (rwcancel tun) (events tun) (errors tun) (routeSocket tun).
Definition set_rwcancel (tun : nativeTun) (v : option RWCancel) : nativeTun :=
  mkTun (name tun) (origName tun) (fd tun) v (events tun) (errors tun) (routeSocket tun).
Definition set_events (tun : nativeTun) (v : option Chan) : nativeTun :=
  mkTun (name tun) (origName tun) (fd tun) (rwcancel tun) v (errors tun) (routeSocket tun).
Definition set_errors (tun : nativeTun) (v : option error) : nativeTun :=
  mkTun (name tun) (origName tun) (fd tun) (rwcancel tun) (events tun) v (routeSocket tun).
Definition set_routeSocket (tun : nativeTun) (v : Z) : nativeTun :=
  mkTun (name tun) (origName tun) (fd tun) (rwcancel tun) (events tun) (errors tun) v.

(** ** The calls the package makes, and the kernel that answers them *)

(** The argument an ioctl points to. *)
Inductive IoctlArg : Type :=
| ArgZero                                   (* uintptr(0) *)
| ArgInt (v : Z)                            (* a pointer to an int *)
| ArgIfstat (IfsName : list byte)           (* ifstat *)
| ArgIfreqPtr (Name newnp : list byte)      (* ifreq_ptr, Data pointing to newnp *)
| ArgIfreqMtu (Name : list byte) (mtu : Z). (* ifreq_mtu *)

Inductive Call : Type :=
| InterfaceByName (name : string)           (* net.InterfaceByName *)
| InterfaceByIndex (index : Z)              (* net.InterfaceByIndex *)
| OpenFile (path : string) (flag perm : Z)  (* os.OpenFile *)
| FileClose (f : File)                      (* os.File.Close *)
| FileRead (f : File) (size : Z)            (* os.File.Read into size bytes *)
| FileWrite (f : File) (b : list byte)      (* os.File.Write *)
| Ioctl (fd req : Z) (arg : IoctlArg)       (* unix.Syscall(unix.SYS_IOCTL, ...) *)
| Socket (domain typ proto : Z)             (* unix.Socket *)
| UnixClose (fd : Z)                        (* unix.Close *)
| Shutdown (fd how : Z)                     (* unix.Shutdown *)
| Getpid                                    (* os.Getpid *)
| NewRWCancel (fd : Z)                      (* rwcancel.NewRWCancel *)
| Cancel (rw : RWCancel)                    (* RWCancel.Cancel *)
| ReadyRead (rw : RWCancel)                 (* RWCancel.ReadyRead *)
| GoRouteListener (tunIfindex : Z).         (* go tun.routineRouteListener(tunIfindex) *)

Definition Trace : Type := list Call.

(** The environment.  Every answer is a function of the calls made before
    it.  A [(T, error)] result of a library whose contract is "a value or an
    error" is a sum; [unix.Socket] keeps both components because the code
    stores the descriptor before it tests the error. *)
Record Kernel : Type := {
  k_InterfaceByName : Trace -> string -> net.Interface + error;
  k_InterfaceByIndex : Trace -> Z -> net.Interface + error;
  k_OpenFile : Trace -> string -> Z -> Z -> File + error;
  k_FileClose : Trace -> File -> option error;
  (* the bytes stored in the buffer, the count and the error returned *)
  k_FileRead : Trace -> File -> Z -> list byte * Z * option error;
  k_FileWrite : Trace -> File -> list byte -> Z * option error;
  (* the errno, and the bytes the kernel stores in the argument *)
  k_Ioctl : Trace -> Z -> Z -> IoctlArg -> Z * list byte;
  k_Socket : Trace -> Z -> Z -> Z -> Z * option error;
  k_UnixClose : Trace -> Z -> option error;
  k_Shutdown : Trace -> Z -> Z -> option error;
  k_Getpid : Trace -> Z;
  k_NewRWCancel : Trace -> Z -> RWCancel + error;
  k_Cancel : Trace -> RWCancel -> option error;
  k_ReadyRead : Trace -> RWCancel -> bool
}.

(** ** Computations over the trace of calls *)

Definition M (A : Type) : Type := Trace -> Outcome A * Trace.

Definition ret {A} (a : A) : M A := fun t => (Done a, t).
Definition bind {A B} (m : M A) (f : A -> M B) : M B :=
  fun t => match m t with
           | (Done a, t') => f a t'
           | (Panic, t') => (Panic, t')
           | (OutOfFuel, t') => (OutOfFuel, t')
           end.
Definition panic {A} : M A := fun t => (Panic, t).
Definition out_of_fuel {A} : M A := fun t => (OutOfFuel, t).
(** A value that must be there: indexing in range, a pointer that is not nil. *)
Definition must {A} (o : option A) : M A :=
  match o with Some a => ret a | None => panic end.
(** Issue [c]; the kernel answers from the history before it. *)
Definition call {A} (c : Call) (answer : Trace -> A) : M A :=
  fun t => (Done (answer t), t ++ [c]).

#[global] Instance M_ret : MRet M := @ret.
#[global] Instance M_bind : MBind M := fun A B f m => bind m f.

Section Code.
Context {P : Platform} (K : Kernel).

Definition net_InterfaceByName (n : string) : M (net.Interface + error) :=
  call (InterfaceByName n) (fun t => k_InterfaceByName K t n).
Definition net_InterfaceByIndex (i : Z) : M (net.Interface + error) :=
  call (InterfaceByIndex i) (fun t => k_InterfaceByIndex K t i).
Definition os_OpenFile (path : string) (flag perm : Z) : M (File + error) :=
  call (OpenFile path flag perm) (fun t => k_OpenFile K t path flag perm).
Definition File_Close (f : File) : M (option error) :=
  call (FileClose f) (fun t => k_FileClose K t f).
Definition File_Read (f : File) (size : Z) : M (list byte * Z * option error) :=
  call (FileRead f size) (fun t => k_FileRead K t f size).
Definition File_Write (f : File) (b : list byte) : M (Z * option error) :=
  call (FileWrite f b) (fun t => k_FileWrite K t f b).
Definition ioctl (fd req : Z) (arg : IoctlArg) : M (Z * list byte) :=
  call (Ioctl fd req arg) (fun t => k_Ioctl K t fd req arg).
Definition unix_Socket (domain typ proto : Z) : M (Z * option error) :=
  call (Socket domain typ proto) (fun t => k_Socket K t domain typ proto).
Definition unix_Close (fd : Z) : M (option error) :=
  call (UnixClose fd) (fun t => k_UnixClose K t fd).
Definition unix_Shutdown (fd how : Z) : M (option error) :=
  call (Shutdown fd how) (fun t => k_Shutdown K t fd how).
Definition os_Getpid : M Z :=
  call Getpid (fun t => k_Getpid K t).
Definition rwcancel_NewRWCancel (fd : Z) : M (RWCancel + error) :=
  call (NewRWCancel fd) (fun t => k_NewRWCancel K t fd).
Definition RWCancel_Cancel (rw : RWCancel) : M (option error) :=
  call (Cancel rw) (fun t => k_Cancel K t rw).
Definition RWCancel_ReadyRead (rw : RWCancel) : M bool :=
  call (ReadyRead rw) (fun t => k_ReadyRead K t rw).
Definition go_routineRouteListener (tunIfindex : Z) : M unit :=
  call (GoRouteListener tunIfindex) (fun _ => tt).

(** [var a [unix.IFNAMSIZ]byte; copy(a[:], s)] *)
Definition name_array (s : string) : list byte :=
  copy (repeat 0 (Z.to_nat IFNAMSIZ)) (bytes_of_string s).

(** *** routineRouteListener

    The listener runs in its own goroutine on its own descriptor.  One turn
    of its loop consumes one [unix.Read] from the routing socket and, when
    the message passes the filters, one [net.InterfaceByIndex]: a
    [RouteInput] is what the kernel hands over in that turn. *)
Record RouteInput : Type := mkRouteInput {
  rd_n : Z;                        (* n of unix.Read *)
  rd_err : option error;           (* err of unix.Read *)
  rd_data : list byte;             (* the contents of data after the read *)
  if_lookup : net.Interface + error    (* the answer of net.InterfaceByIndex *)
}.

(** [statusUp], [statusMTU] *)
Record Status : Type := mkStatus { statusUp : bool; statusMTU : Z }.

Inductive Turn : Type :=
| Continue (st : Status) (sent : list TUNEvent)  (* next turn; what was sent on tun.events *)
| Exit (err : error)                              (* tun.errors <- err; return *)
| Crash.                                          (* an index out of range *)

(** The [uint16] read through [unsafe.Pointer(&data[12])], converted to
    [int], on a little-endian machine. *)
Definition uint16_at (data : list byte) (i : Z) : option Z :=
  lo ← index data i; hi ← index data (i + 1); Some (lo + 256 * hi).

Definition is_EINTR (err : error) : bool :=
  match err with Errno e => e =? EINTR | _ => false end.

Definition flag_up (iface : net.Interface) : bool :=
  negb (Z.land (net.Flags iface) net.FlagUp =? 0).

Definition listener_turn (tunIfindex : Z) (st : Status) (inp : RouteInput) : Turn :=
  match rd_err inp with
  | Some err => if is_EINTR err then Continue st [] else Exit err
  | None =>
    if rd_n inp <? 14 then Continue st [] else
    match index (rd_data inp) 3 with
    | None => Crash
    | Some ty =>
      if negb (ty =? RTM_IFINFO) then Continue st [] else
      match uint16_at (rd_data inp) 12 with
      | None => Crash
      | Some ifindex =>
        if negb (ifindex =? tunIfindex) then Continue st [] else
        match if_lookup inp with
        | inr err => Exit err
        | inl iface =>
          let up := flag_up iface in
          let ev_up := if negb (eqb up (statusUp st)) && up then [TUNEventUp] else [] in
          let ev_down := if negb (eqb up (statusUp st)) && negb up then [TUNEventDown] else [] in
          let ev_mtu := if negb (net.MTU iface =? statusMTU st) then [TUNEventMTUUpdate] else [] in
          Continue (mkStatus up (net.MTU iface)) (ev_up ++ ev_down ++ ev_mtu)
        end
      end
    end
  end.

(** How a run over finitely many turns ends. *)
Inductive Ending : Type :=
| Listening (st : Status)   (* still in the loop, blocked in unix.Read *)
| Exited (err : error)      (* err sent on tun.errors, tun.events closed *)
| Crashed.

Fixpoint listener_loop (tunIfindex : Z) (st : Status) (inputs : list RouteInput)
  : list TUNEvent * Ending :=
  match inputs with
  | [] => ([], Listening st)
  | inp :: rest =>
    match listener_turn tunIfindex st inp with
    | Continue st' sent =>
      let '(evs, e) := listener_loop tunIfindex st' rest in (sent ++ evs, e)
    | Exit err => ([], Exited err)
    | Crash => ([], Crashed)
    end
  end.

(** The events sent on [tun.events], in order, and how the run ends.
    [var statusUp bool; var statusMTU int] start at their zero values. *)
Definition routineRouteListener (tunIfindex : Z) (inputs : list RouteInput)
  : list TUNEvent * Ending :=
  listener_loop tunIfindex (mkStatus false 0) inputs.

(** [defer close(tun.events)]: what [routineRouteListener] does to the handle
    when it returns.  Closing a closed channel panics, and so does closing
    a nil one. *)
Definition routineRouteListener_deferred (tun : nativeTun) : M nativeTun :=
  match events tun with
  | Some ch => if closed ch then panic else mret (set_events tun (Some (close_chan ch)))
  | None => panic
  end.

(** *** tunName *)

(** [ifstatus.Ascii[:]] after the ioctl.  [var ifstatus ifstat] is zeroed
    and the field has [_IFSTATMAX] bytes: the bytes the kernel stores lie
    over the zeroes, and what it stores beyond the field is not part of it. *)
Definition ifstatus_Ascii (stored : list byte) : list byte :=
  copy (repeat 0 (Z.to_nat _IFSTATMAX)) stored.

(** The [for i := 1; ; i++] loop: [Some name] when it returns, [None] when it
    breaks.  The loop has no bound of its own, [fuel] bounds its turns. *)
Fixpoint tunName_scan (fuel : nat) (confd procPid i : Z) : M (option string) :=
  match fuel with
  | O => out_of_fuel
  | S fuel' =>
    iface ← net_InterfaceByIndex i;
    match iface with
    | inr _ => mret None
    | inl iface =>
      '(errno, stored) ← ioctl confd SIOCGIFSTATUS (ArgIfstat (name_array (net.Name iface)));
      if negb (errno =? 0) then tunName_scan fuel' confd procPid (int_add i 1) else
      let nullStr := ifstatus_Ascii stored in
      let j := IndexByte nullStr 0 in
      if j <? 1 then tunName_scan fuel' confd procPid (int_add i 1) else
      match Sscanf_pid (slice_to nullStr j) with
      | None => tunName_scan fuel' confd procPid (int_add i 1)
      | Some pidNum =>
        if pidNum =? procPid then mret (Some (net.Name iface))
        else tunName_scan fuel' confd procPid (int_add i 1)
      end
    end
  end.

Definition tunName (fuel : nat) (fd : Z) : M (string * option error) :=
  '(errno, _) ← ioctl fd _TUNSIFPID ArgZero;
  if negb (errno =? 0) then mret (""%string, Some (ErrSetPID errno)) else
  '(confd, err) ← unix_Socket AF_INET SOCK_DGRAM 0;
  match err with
  | Some e => mret (""%string, Some e)
  | None =>
    procPid ← os_Getpid;
    found ← tunName_scan fuel confd procPid 1;
    _ ← unix_Close confd;                       (* the deferred close *)
    mret (match found with Some n => n | None => ""%string end, None)
  end.

(** *** renameTun *)
Definition renameTun (oldName newName : string) : M (option error) :=
  '(confd, err) ← unix_Socket AF_INET SOCK_DGRAM 0;
  match err with
  | Some e => mret (Some e)
  | None =>
    '(errno, _) ← ioctl confd SIOCSIFNAME (ArgIfreqPtr (name_array oldName) (name_array newName));
    _ ← unix_Close confd;                       (* the deferred close *)
    if negb (errno =? 0) then mret (Some (ErrRename oldName newName errno))
    else mret None
  end.

(** *** setMTU *)
Definition setMTU (tun : nativeTun) (n : Z) : M (option error) :=
  '(fd, err) ← unix_Socket AF_INET SOCK_DGRAM 0;
  match err with
  | Some e => mret (Some e)
  | None =>
    '(errno, _) ← ioctl fd SIOCSIFMTU (ArgIfreqMtu (name_array (name tun)) (n mod 2 ^ 32));
    _ ← unix_Close fd;                          (* the deferred close *)
    if negb (errno =? 0) then mret (Some (ErrSetMTU (name tun))) else mret None
  end.

(** *** Name *)
Definition Name (fuel : nat) (tun : nativeTun) : M (string * option error * nativeTun) :=
  '(name, err) ← tunName fuel (Fd (fd tun));
  match err with
  | Some e => mret (""%string, Some e, tun)
  | None => mret (name, None, set_name tun name)
  end.

(** *** Close *)

(** The first error that is not nil, in the order of the three tests that
    end [Close]. *)
Definition first_error (err1 err2 err4 : option error) : option error :=
  match err1 with
  | Some _ => err1
  | None => match err2 with Some _ => err2 | None => err4 end
  end.

Definition Close (tun : nativeTun) : M (option error * nativeTun) :=
  err4 ← (if negb (String.eqb (name tun) (origName tun))
          then renameTun (name tun) (origName tun)
          else mret None);
  err2 ← File_Close (fd tun);
  rw ← must (rwcancel tun);
  err1 ← RWCancel_Cancel rw;
  '(err4, tun) ←
    (if negb (routeSocket tun =? -1) then
       _ ← unix_Shutdown (routeSocket tun) SHUT_RDWR;
       err4 ← unix_Close (routeSocket tun);
       mret (err4, set_routeSocket tun (-1))
     else
       match events tun with
       | Some ch =>
         if closed ch then panic          (* close of a closed channel *)
         else mret (err4, set_events tun (Some (close_chan ch)))
       | None => mret (err4, tun)
       end);
  mret (first_error err1 err2 err4, tun).

(** *** CreateTUNFromFile *)
Definition CreateTUNFromFile (fuel : nat) (file : File) (mtu : Z) : M (nativeTun + error) :=
  let tun := mkTun "" "" file None (Some (make_chan 10)) None 0 in
  '(name, err, tun) ← Name fuel tun;
  match err with
  | Some e => _ ← File_Close (fd tun); mret (inr e)
  | None =>
    let tun := set_origName tun name in
    iface ← net_InterfaceByName name;
    match iface with
    | inr e => _ ← File_Close (fd tun); mret (inr e)
    | inl iface =>
      let tunIfindex := net.Index iface in
      rw ← rwcancel_NewRWCancel (Fd file);
      match rw with
      | inr e => _ ← File_Close (fd tun); mret (inr e)
      | inl rw =>
        let tun := set_rwcancel tun (Some rw) in
        '(sock, err) ← unix_Socket AF_ROUTE SOCK_RAW AF_UNSPEC;
        let tun := set_routeSocket tun sock in
        match err with
        | Some e => _ ← File_Close (fd tun); mret (inr e)
        | None =>
          _ ← go_routineRouteListener tunIfindex;
          err ← setMTU tun mtu;
          match err with
          | Some e => _ ← Close tun; mret (inr e)
          | None => mret (inl tun)
          end
        end
      end
    end
  end.

(** *** CreateTUN *)

(** The [for i := 0; i < 99; i++] loop, [count] turns from [i] on: the file
    of the last attempt, nil when that attempt failed. *)
Fixpoint probe (count : nat) (i : Z) (tunfile : option File) : M (option File) :=
  match count with
  | O => mret tunfile
  | S count' =>
    r ← os_OpenFile ("/dev/tun" +:+ itoa i) O_RDWR 0;
    match r with
    | inl f => mret (Some f)
    | inr _ => probe count' (i + 1) None
    end
  end.

Definition CreateTUN (fuel : nat) (name : string) (mtu : Z) : M (nativeTun + error) :=
  if Z.of_nat (String.length name) >? IFNAMSIZ - 1 then mret (inr ErrNameTooLong) else
  iface ← net_InterfaceByName name;
  match iface with
  | inl _ => mret (inr (ErrAlreadyExists name))
  | inr _ =>
    tunfile ← probe 99 0 None;
    opened ← match tunfile with
             | Some f => mret (inl f)
             | None => os_OpenFile "/dev/tun" O_RDWR 0
             end;
    match opened with
    | inr err => mret (inr err)
    | inl tunfile =>
      let tunfd := Fd tunfile in
      '(assignedName, err) ← tunName fuel tunfd;
      match err with
      | Some e => _ ← File_Close tunfile; mret (inr e)
      | None =>
        '(errno, _) ← ioctl tunfd _TUNSIFHEAD (ArgInt 1);
        if negb (errno =? 0) then mret (inr (ErrIoctl errno)) else
        '(errno, _) ← ioctl tunfd _TUNSIFMODE (ArgInt IFF_BROADCAST);
        if negb (errno =? 0) then mret (inr (ErrIoctl errno)) else
        err ← renameTun assignedName name;
        match err with
        | Some e => _ ← File_Close tunfile; mret (inr e)
        | None =>
          natTun ← CreateTUNFromFile fuel tunfile mtu;
          match natTun with
          | inr e => _ ← File_Close tunfile; mret (inr e)
          | inl natTun => mret (inl (set_origName natTun assignedName))
          end
        end
      end
    end
  end.

(** *** doRead, Read *)

(** The result of a read: the count, the error, and the caller's buffer and
    the handle as the call leaves them. *)
Definition doRead (tun : nativeTun) (buff : list byte) (offset : Z)
  : M (Z * option error * list byte * nativeTun) :=
  match errors tun with
  | Some err => mret (0, Some err, buff, set_errors tun None)
  | None =>
    let low := int_sub offset 4 in
    sub ← must (slice_from buff low);
    '(stored, n, err) ← File_Read (fd tun) (len sub);
    let buff' := slice_to buff low ++ copy sub stored in
    if n <? 4 then mret (0, err, buff', tun)
    else mret (int_sub n 4, err, buff', tun)
  end.

Definition may_retry (err : option error) : bool :=
  match err with Some e => RetryAfterError e | None => false end.

Fixpoint Read (fuel : nat) (tun : nativeTun) (buff : list byte) (offset : Z)
  : M (Z * option error * list byte * nativeTun) :=
  match fuel with
  | O => out_of_fuel
  | S fuel' =>
    '(n, err, buff, tun) ← doRead tun buff offset;
    if is_nil err || negb (may_retry err) then mret (n, err, buff, tun) else
    rw ← must (rwcancel tun);
    ready ← RWCancel_ReadyRead rw;
    if negb ready then mret (0, Some ErrDeviceClosed, buff, tun)
    else Read fuel' tun buff offset
  end.

(** *** Write *)

(** The count and error of the write, and the caller's buffer as the call
    leaves it: the four stores go through the sub-slice into [buff]. *)
Definition Write (tun : nativeTun) (buff : list byte) (offset : Z)
  : M (Z * option error * list byte) :=
  let low := int_sub offset 4 in
  b ← must (slice_from buff low);
  b ← must (store b 0 0x00);
  b ← must (store b 1 0x00);
  b ← must (store b 2 0x00);
  b4 ← must (index b 4);
  b ← must (store b 3 (if Z.shiftr b4 4 =? ipv6_Version then AF_INET6 else AF_INET));
  '(n, err) ← File_Write (fd tun) b;
  mret (n, err, slice_to buff low ++ b).

(** *** MTU *)

(** [int(x)] for the [int32] [x] read through the address of a [uint32]. *)
Definition int32_of_uint32 (u : Z) : Z := if u <? 2 ^ 31 then u else u - 2 ^ 32.

(** The [uint32] in a field of four bytes, on a little-endian machine. *)
Definition uint32_le (b : list byte) : Z :=
  match b with
  | [b0; b1; b2; b3] => b0 + 2 ^ 8 * b1 + 2 ^ 16 * b2 + 2 ^ 24 * b3
  | _ => 0
  end.

(** [SIOCGIFMTU] is taken as an argument: it is a constant of
    golang.org/x/sys/unix like those of [Platform].  The bytes the kernel
    stores for this ioctl are those of the field [ifr.MTU], which starts at
    zero.  The error text is that of
    [fmt.Errorf("failed to get MTU on %s", tun.name)]. *)
Definition MTU (SIOCGIFMTU : Z) (tun : nativeTun) : M (Z * option error) :=
  '(fd, err) ← unix_Socket AF_INET SOCK_DGRAM 0;
  match err with
  | Some e => mret (0, Some e)
  | None =>
    '(errno, stored) ← ioctl fd SIOCGIFMTU (ArgIfreqMtu (name_array (name tun)) 0);
    _ ← unix_Close fd;                          (* the deferred close *)
    if negb (errno =? 0)
    then mret (0, Some (ErrLib ("failed to get MTU on " +:+ name tun)))
    else mret (int32_of_uint32 (uint32_le (copy [0; 0; 0; 0] stored)), None)
  end.

End Code.
End Tun.

(** * Package main: conn.go *)

Module Conn.

(** The interfaces of conn.go.  Their implementations are the platform's; a
    method that reaches the sockets takes the platform's state [W] and
    returns it.  Only the methods that [unsafeCloseBind], [BindSetMark] and
    [BindUpdate] call are listed: [Bind] also has [ReceiveIPv4],
    [ReceiveIPv6] and [Send], [Endpoint] its address accessors, and
    [Networking] has [CreateEndpoint]. *)
Class Networking (W B : Type) : Type := {
  (* CreateBind(port uint16) (Bind, uint16, error): all three results *)
  CreateBind : Z -> W -> option B * Z * option error * W
}.

Class Bind (W B : Type) : Type := {
  SetMark : B -> Z -> W -> option error * W;
  Close : B -> W -> option error * W
}.

Class Endpoint (E : Type) : Type := {
  ClearSrc : E -> E
}.

Section Device.
Context {W B E Key : Type} `{Countable Key}.
Context {network : Networking W B} {bind_impl : Bind W B} {endpoint_impl : Endpoint E}.

(** Modelled from the spec: the declarations of [Device] and [Peer]
    (device.go, peer.go) are missing; these are the fields conn.go reads and
    writes, as section 3 of the specification names them: the network state
    (active bind, nullable; bound port; firewall mark), the administrative up
    flag, and the peer collection, a map from peer key to a peer that holds
    a nullable endpoint.  The two mutexes are not modelled: every function
    below is the code run under them, from [Lock] to the deferred [Unlock]. *)
Record Peer : Type := mkPeer {
  endpoint : option E
}.

Record Device : Type := mkDevice {
  isUp : bool;                       (* device.isUp.Get() *)
  net_bind : option B;               (* device.net.bind *)
  net_port : Z;                      (* device.net.port *)
  net_fwmark : Z;                    (* device.net.fwmark *)
  peers_keyMap : gmap Key Peer       (* device.peers.keyMap *)
}.

(** What a call does to the world outside the device, in order. *)
Inductive Effect : Type :=
| DidClose (b : B)                   (* bind.Close() *)
| DidCreateBind (port : Z)           (* network.CreateBind(port) *)
| DidSetMark (b : option B) (mark : Z)  (* bind.SetMark(mark) *)
| DidClearSrc (k : Key)              (* the endpoint of peer k: ClearSrc() *)
| DidGo (version : Z) (b : option B) (* go device.RoutineReceiveIncoming(version, bind) *)
| DidLog (msg : string).             (* device.log.Debug.Println(msg) *)

Record State : Type := mkState {
  device : Device;
  world : W;
  log : list Effect
}.

Definition set_bind (d : Device) (b : option B) : Device :=
  mkDevice (isUp d) b (net_port d) (net_fwmark d) (peers_keyMap d).
Definition set_port (d : Device) (p : Z) : Device :=
  mkDevice (isUp d) (net_bind d) p (net_fwmark d) (peers_keyMap d).
Definition set_fwmark (d : Device) (m : Z) : Device :=
  mkDevice (isUp d) (net_bind d) (net_port d) m (peers_keyMap d).
Definition set_keyMap (d : Device) (m : gmap Key Peer) : Device :=
  mkDevice (isUp d) (net_bind d) (net_port d) (net_fwmark d) m.

(** [for _, peer := range device.peers.keyMap]: Go visits every entry once,
    in an order it does not specify.  [range] is that order. *)
Variable range : gmap Key Peer -> list (Key * Peer).

Definition ipv4_Version : Z := 4.
Definition ipv6_Version : Z := 6.

(** *** unsafeCloseBind *)
Definition unsafeCloseBind (s : State) : option error * State :=
  match net_bind (device s) with
  | Some b =>
    let '(err, w) := Close b (world s) in
    (err, mkState (set_bind (device s) None) w (log s ++ [DidClose b]))
  | None => (None, s)
  end.

(** *** BindSetMark *)
Definition BindSetMark (mark : Z) (s : State) : option error * State :=
  (* check if modified *)
  if net_fwmark (device s) =? mark then (None, s) else
  (* update fwmark on existing bind *)
  let d := set_fwmark (device s) mark in
  match isUp d, net_bind d with
  | true, Some b =>
    let '(err, w) := SetMark b mark (world s) in
    (err, mkState d w (log s ++ [DidSetMark (Some b) mark]))
  | _, _ => (None, mkState d (world s) (log s))
  end.

(** *** BindUpdate *)

(** One turn of the loop over the peers. *)
Definition clear_peer (acc : gmap Key Peer * list Effect) (kp : Key * Peer)
  : gmap Key Peer * list Effect :=
  match endpoint (snd kp) with
  | Some e => (<[fst kp := mkPeer (Some (ClearSrc e))]> (fst acc), snd acc ++ [DidClearSrc (fst kp)])
  | None => acc
  end.

Definition clear_peers (m : gmap Key Peer) (l : list Effect) : gmap Key Peer * list Effect :=
  fold_left clear_peer (range m) (m, l).

Definition BindUpdate (s : State) : Outcome (option error) * State :=
  (* close existing sockets *)
  let '(err, s) := unsafeCloseBind s in
  match err with
  | Some e => (Done (Some e), s)
  | None =>
    (* open new sockets *)
    if isUp (device s) then
      (* bind to new port *)
      let '(b, port, err, w) := CreateBind (net_port (device s)) (world s) in
      let d := set_port (set_bind (device s) b) port in
      let l := log s ++ [DidCreateBind (net_port (device s))] in
      match err with
      | Some e => (Done (Some e), mkState (set_port (set_bind d None) 0) w l)
      | None =>
        (* set fwmark *)
        let marked :=
          if negb (net_fwmark d =? 0) then
            match b with
            | Some b' =>
              let '(err, w) := SetMark b' (net_fwmark d) w in
              (Done err, w, l ++ [DidSetMark b (net_fwmark d)])
            | None => (Panic, w, l)    (* a method call on the nil Bind *)
            end
          else (Done None, w, l) in
        match marked with
        | (Done (Some e), w, l) => (Done (Some e), mkState d w l)
        | (Done None, w, l) =>
          (* clear cached source addresses *)
          let '(m, l) := clear_peers (peers_keyMap d) l in
          (* start receiving routines *)
          let l := l ++ [DidGo ipv4_Version b; DidGo ipv6_Version b;
                         DidLog "UDP bind has been updated"] in
          (Done None, mkState (set_keyMap d m) w l)
        | (_, w, l) => (Panic, mkState d w l)
        end
      end
    else (Done None, s)
  end.

(** *** BindClose *)
Definition BindClose (s : State) : option error * State := unsafeCloseBind s.

End Device.
End Conn.

(** * Test doubles

    A concrete platform, kernel and networking, to run the code on. *)

Module Doubles.

(** [fmt.Sscanf(s, "\tOpened by PID %d\n", &pidNum)]: the number, or [None]
    for an error.  Package fmt is not part of the repository; this follows
    its rules for scanning with a format:
    - a run of spaces of the format that is not next to a newline takes as
      many spaces other than newline as the input has, and must take one
      or find the end of the input;
    - any other character of the format takes that character;
    - [%d] discards leading spaces, fails on a newline and at the end of
      the input, takes an optional sign and one or more decimal digits, and
      fails when the number does not fit an [int];
    - the newline that ends the format takes spaces and then a newline or
      the end of the input; what follows is not read.
    The spaces are the runes of the table of package fmt, in UTF-8. *)
Definition status_prefix : list byte :=
  9 :: bytes_of_string "Opened by PID ".

Definition is_digit (b : byte) : bool := (48 <=? b) && (b <=? 57).

(** The width in bytes of the space other than newline that [s] starts
    with, 0 if it starts with none: U+0009, U+000B to U+000D, U+0020,
    U+0085, U+00A0, U+1680, U+2000 to U+200A, U+2028, U+2029, U+202F,
    U+205F, U+3000. *)
Definition space_width (s : list byte) : nat :=
  match s with
  | b0 :: r0 =>
    if (b0 =? 9) || (11 <=? b0) && (b0 <=? 13) || (b0 =? 32) then 1%nat
    else match r0 with
    | b1 :: r1 =>
      if (b0 =? 0xC2) && ((b1 =? 0x85) || (b1 =? 0xA0)) then 2%nat
      else match r1 with
      | b2 :: _ =>
        if (b0 =? 0xE1) && (b1 =? 0x9A) && (b2 =? 0x80) then 3%nat
        else if (b0 =? 0xE2) && (b1 =? 0x80) &&
                ((0x80 <=? b2) && (b2 <=? 0x8A) || (b2 =? 0xA8) || (b2 =? 0xA9) || (b2 =? 0xAF))
             then 3%nat
        else if (b0 =? 0xE2) && (b1 =? 0x81) && (b2 =? 0x9F) then 3%nat
        else if (b0 =? 0xE3) && (b1 =? 0x80) && (b2 =? 0x80) then 3%nat
        else 0%nat
      | [] => 0%nat
      end
    | [] => 0%nat
    end
  | [] => 0%nat
  end.

Fixpoint skip_spaces (fuel : nat) (s : list byte) : list byte :=
  match fuel with
  | O => s
  | S fuel' =>
    match space_width s with
    | O => s
    | w => skip_spaces fuel' (drop w s)
    end
  end.

(** The input after its leading spaces other than newline. *)
Definition spaces (s : list byte) : list byte := skip_spaces (length s) s.

(** A space of the format that stands alone. *)
Definition format_space (s : list byte) : option (list byte) :=
  match s with
  | [] => Some []
  | _ => match space_width s with
         | O => None
         | _ => Some (spaces s)
         end
  end.

(** Characters of the format that stand for themselves. *)
Definition literal (lit : string) (s : list byte) : option (list byte) :=
  let l := bytes_of_string lit in
  if bool_decide (take (length l) s = l) then Some (drop (length l) s) else None.

Fixpoint digits (l : list byte) (acc : Z) : Z * list byte :=
  match l with
  | b :: r => if is_digit b then digits r (10 * acc + (b - 48)) else (acc, l)
  | [] => (acc, [])
  end.

(** The verb [%d] into an [int] of 64 bits. *)
Definition scan_int (s : list byte) : option (Z * list byte) :=
  match spaces s with
  | [] => None
  | b :: r =>
    if b =? 10 then None else
    let '(negative, s) :=
      if b =? 45 then (true, r) else if b =? 43 then (false, r) else (false, b :: r) in
    match s with
    | d :: _ =>
      if is_digit d then
        let '(v, rest) := digits s 0 in
        let v := if negative then - v else v in
        if (- 2 ^ 63 <=? v) && (v <? 2 ^ 63) then Some (v, rest) else None
      else None
    | [] => None
    end
  end.

(** The newline that ends the format. *)
Definition format_newline (s : list byte) : bool :=
  match spaces s with
  | [] => true
  | b :: _ => b =? 10
  end.

Definition scan_pid (s : list byte) : option Z :=
  s ← format_space s;
  s ← literal "Opened" s;
  s ← format_space s;
  s ← literal "by" s;
  s ← format_space s;
  s ← literal "PID" s;
  s ← format_space s;
  '(v, s) ← scan_int s;
  if format_newline s then Some v else None.

(** zerrors_dragonfly_amd64.go of golang.org/x/sys/unix; EAGAIN is 35. *)
#[global] Instance dragonfly_amd64 : Platform := {|
  IFNAMSIZ := 0x10;
  AF_INET := 0x2;
  AF_INET6 := 0x1c;
  AF_ROUTE := 0x11;
  AF_UNSPEC := 0x0;
  SOCK_DGRAM := 0x2;
  SOCK_RAW := 0x3;
  SHUT_RDWR := 0x2;
  O_RDWR := 0x2;
  IFF_BROADCAST := 0x2;
  RTM_IFINFO := 0xe;
  SIOCGIFSTATUS := 0xc331693b;
  SIOCSIFNAME := 0x80206928;
  SIOCSIFMTU := 0x80206934;
  EINTR := 0x4;
  ipv6_Version := 6;
  Sscanf_pid := scan_pid;
  RetryAfterError := fun e => match e with Errno n => (n =? 35) || (n =? 4) | _ => false end
|}.

(** A machine with one free device node, /dev/tun0 (descriptor 3), whose
    interface has index 1 and name tun0; this process is pid 100.  The
    interfaces named in [present] exist; the ioctl [bad_ioctl] fails with
    errno 1 and every other call succeeds; a read of the device returns
    [read_n] and no error. *)
Definition status_blob : list byte :=
  copy (repeat 0 (Z.to_nat _IFSTATMAX)) (status_prefix ++ bytes_of_string "100" ++ [10]).

Definition machine (bad_ioctl : Z) (present : list string) (read_n : Z) : Tun.Kernel := {|
  Tun.k_InterfaceByName := fun _ n =>
    if bool_decide (n ∈ present) then inl (net.mkInterface 1 1500 n 0)
    else inr (ErrLib "no such network interface");
  Tun.k_InterfaceByIndex := fun _ i =>
    if i =? 1 then inl (net.mkInterface 1 1500 "tun0" 0)
    else inr (ErrLib "no such network interface");
  Tun.k_OpenFile := fun _ path _ _ =>
    if String.eqb path "/dev/tun0" then inl (mkFile 3) else inr (Errno 16);
  Tun.k_FileClose := fun _ _ => None;
  Tun.k_FileRead := fun _ _ size => (repeat 0 (Z.to_nat (Z.min size read_n)), read_n, None);
  Tun.k_FileWrite := fun _ _ b => (len b, None);
  Tun.k_Ioctl := fun _ _ req _ =>
    if req =? bad_ioctl then (1, [])
    else if req =? SIOCGIFSTATUS then (0, status_blob) else (0, []);
  Tun.k_Socket := fun _ _ _ _ => (4, None);
  Tun.k_UnixClose := fun _ _ => None;
  Tun.k_Shutdown := fun _ _ _ => None;
  Tun.k_Getpid := fun _ => 100;
  Tun.k_NewRWCancel := fun _ fd => inl (mkRWCancel fd);
  Tun.k_Cancel := fun _ _ => None;
  Tun.k_ReadyRead := fun _ _ => true
|}.

(** A handle as [CreateTUN] leaves it after renaming tun0 to wg0. *)
Definition wg0 : Tun.nativeTun :=
  Tun.mkTun "wg0" "tun0" (mkFile 3) (Some (mkRWCancel 3)) (Some (Tun.make_chan 10)) None 5.

(** A routing message of [n] bytes: kind [ty] at offset 3, interface index
    [ifindex] at offset 12. *)
Definition route_msg (ty ifindex : Z) : list byte :=
  [0; 0; 0; ty; 0; 0; 0; 0; 0; 0; 0; 0; ifindex mod 256; ifindex / 256] ++ repeat 0 82.

Definition info (ifindex : Z) (up : bool) (mtu : Z) : Tun.RouteInput :=
  Tun.mkRouteInput 96 None (route_msg RTM_IFINFO ifindex)
    (inl (net.mkInterface ifindex mtu "wg0" (if up then 0x8843 else 0x8842))).

(** Networking whose calls fail on demand. *)
Record Sockets : Type := mkSockets {
  fail_create : bool;
  fail_mark : bool;
  fail_close : bool;
  next_bind : nat
}.

#[global] Instance dummy_networking : Conn.Networking Sockets nat := {|
  Conn.CreateBind := fun port w =>
    if fail_create w then (None, port, Some (ErrLib "address already in use"), w)
    else (Some (next_bind w), (if port =? 0 then 51820 else port), None,
          mkSockets (fail_create w) (fail_mark w) (fail_close w) (S (next_bind w)))
|}.

#[global] Instance dummy_bind : Conn.Bind Sockets nat := {|
  Conn.SetMark := fun _ _ w =>
    (if fail_mark w then Some (ErrLib "operation not permitted") else None, w);
  Conn.Close := fun _ w =>
    (if fail_close w then Some (ErrLib "bad file descriptor") else None, w)
|}.

(** Modelled from the spec: the implementations of [Endpoint] (the
    platform's conn files) are missing.  Section 3: an endpoint is the
    per-peer cache of a destination address and a source address or empty;
    section 4.6: [ClearSrc] discards the cached source address only, the
    destination is retained. *)
Record UDPEndpoint : Type := mkEndpoint {
  src : option string;
  dst : string
}.

#[global] Instance udp_endpoint : Conn.Endpoint UDPEndpoint := {|
  Conn.ClearSrc := fun e => mkEndpoint None (dst e)
|}.

(** Runs of package tun. *)

(** tun0 was renamed to wg0; the rename back fails with errno 1 and every
    other call succeeds. *)
Definition rename_fails : Tun.Kernel := machine SIOCSIFNAME ["tun0"%string] 0.

(** The calls of [CreateTUN "wg0"] up to the end of name discovery, on the
    test machine. *)
Definition opened_and_named : Tun.Trace :=
  [Tun.InterfaceByName "wg0"; Tun.OpenFile "/dev/tun0" O_RDWR 0;
   Tun.Ioctl 3 _TUNSIFPID Tun.ArgZero; Tun.Socket AF_INET SOCK_DGRAM 0; Tun.Getpid;
   Tun.InterfaceByIndex 1;
   Tun.Ioctl 4 SIOCGIFSTATUS (Tun.ArgIfstat (Tun.name_array "tun0"));
   Tun.UnixClose 4].

(** Devices and peers for conn.go. *)

Definition alice : Conn.Peer :=
  Conn.mkPeer (Some (mkEndpoint (Some "192.0.2.1:51820"%string) "198.51.100.7:51820")).
Definition bob : Conn.Peer :=
  Conn.mkPeer (Some (mkEndpoint (Some "192.0.2.1:51820"%string) "203.0.113.9:4500")).
Definition carol : @Conn.Peer UDPEndpoint := Conn.mkPeer None.

Definition peers : gmap string Conn.Peer :=
  <["alice"%string := alice]> (<["bob"%string := bob]> (<["carol"%string := carol]> ∅)).

(** A device that is up, bound to port 51820 by bind 0, with mark [mark]. *)
Definition up_device (mark : Z) : Conn.Device :=
  Conn.mkDevice true (Some 0%nat) 51820 mark peers.

Definition start (mark : Z) (w : Sockets) : Conn.State :=
  Conn.mkState (up_device mark) w [].

Definition working : Sockets := mkSockets false false false 1.
Definition no_bind : Sockets := mkSockets true false false 1.
Definition no_mark : Sockets := mkSockets false true false 1.

(** Go's [range], in the order of [map_to_list]. *)
Definition in_map_order (m : gmap string (@Conn.Peer UDPEndpoint))
  : list (string * @Conn.Peer UDPEndpoint) := map_to_list m.

End Doubles.

(** * What the specification says, in its own words *)

Module Spec.

(** Section 4.4: the events of one notification, against the remembered
    state: an up-transition emits Up, a down-transition emits Down, an MTU
    different from the last observed one emits MTUChanged. *)
Definition transition (prev cur : bool * Z) : list Tun.TUNEvent :=
  (if negb (fst prev) && fst cur then [Tun.TUNEventUp] else []) ++
  (if fst prev && negb (fst cur) then [Tun.TUNEventDown] else []) ++
  (if bool_decide (snd cur ≠ snd prev) then [Tun.TUNEventMTUUpdate] else []).

Fixpoint transitions (prev : bool * Z) (obs : list (bool * Z)) : list Tun.TUNEvent :=
  match obs with
  | [] => []
  | cur :: rest => transition prev cur ++ transitions cur rest
  end.

(** The remembered state starts at down and zero. *)
Definition initial : bool * Z := (false, 0).

End Spec.

(** * The vocabulary of the properties *)

Section TunVocabulary.
Context {P : Platform}.

(** What the monitor re-queries from the interface. *)
Definition observed (iface : net.Interface) : bool * Z := (Tun.flag_up iface, net.MTU iface).

(** A notification that passes every filter of the loop: the read succeeds
    with at least 14 bytes, the kind is RTM_IFINFO, the index is the
    monitor's, and the interface is found. *)
Definition matching (tunIfindex : Z) (inp : Tun.RouteInput) (iface : net.Interface) : Prop :=
  Tun.rd_err inp = None /\ 14 <= Tun.rd_n inp /\
  index (Tun.rd_data inp) 3 = Some RTM_IFINFO /\
  Tun.uint16_at (Tun.rd_data inp) 12 = Some tunIfindex /\
  Tun.if_lookup inp = inl iface.

Definition status_of (o : bool * Z) : Tun.Status := Tun.mkStatus (fst o) (snd o).

(** The last observation of a sequence, [prev] when it is empty. *)
Definition last_observed (prev : bool * Z) (obs : list (bool * Z)) : bool * Z :=
  fold_left (fun _ o => o) obs prev.

(** The kernel has no interface whose name exceeds IFNAMSIZ - 1 bytes: the
    name field of its requests is IFNAMSIZ bytes with the final NUL. *)
Definition names_bounded (K : Tun.Kernel) : Prop :=
  forall t n iface,
    Tun.k_InterfaceByName K t n = inl iface -> Z.of_nat (String.length n) <= IFNAMSIZ - 1.

(** The descriptor of [f] is closed by the call [c]. *)
Definition closes (f : File) (c : Tun.Call) : bool :=
  match c with Tun.FileClose g => Fd g =? Fd f | _ => false end.

End TunVocabulary.

Section ConnVocabulary.
Context {W B E Key : Type} `{Countable Key}.
Context {network : Conn.Networking W B} {bind_impl : Conn.Bind W B}
        {endpoint_impl : Conn.Endpoint E}.

#[local] Abbreviation Peer := (@Conn.Peer E).
#[local] Abbreviation State := (@Conn.State W B E Key _ _).
#[local] Abbreviation Effect := (@Conn.Effect B Key).

(** The peer after [ClearSrc] on its endpoint, if it has one. *)
Definition cleared_peer (p : Peer) : Peer :=
  match Conn.endpoint p with
  | Some e => Conn.mkPeer (Some (Conn.ClearSrc e))
  | None => p
  end.

(** The keys of the peers whose endpoint had [ClearSrc] called, one entry
    per call, in order. *)
Definition cleared (l : list Effect) : list Key :=
  omap (fun e => match e with Conn.DidClearSrc k => Some k | _ => None end) l.

(** The calls of [SetMark] on a bind. *)
Definition marks (l : list Effect) : list (option B * Z) :=
  omap (fun e => match e with Conn.DidSetMark b m => Some (b, m) | _ => None end) l.

(** The calls of [CreateBind]. *)
Definition creations (l : list Effect) : list Z :=
  omap (fun e => match e with Conn.DidCreateBind p => Some p | _ => None end) l.

Definition has_endpoint (kp : Key * Peer) : bool := negb (is_nil (Conn.endpoint (snd kp))).

(** Go's contract for [range] over a map: every entry once. *)
Definition visits_each_once (range : gmap Key Peer -> list (Key * Peer)) : Prop :=
  forall m, range m ≡ₚ map_to_list m.

(** The effects of closing the bind of [s]: one [Close] if there is one. *)
Definition closing (s : State) : list Effect :=
  match Conn.net_bind (Conn.device s) with
  | Some b => [Conn.DidClose b]
  | None => []
  end.

(** Every peer of [m] has its endpoint cleared in [m'], by the calls in
    [new]: one [ClearSrc] for each peer that has an endpoint, none else. *)
Definition clears_every_peer (m m' : gmap Key Peer) (new : list Effect) : Prop :=
  m' = cleared_peer <$> m /\
  NoDup (cleared new) /\
  forall k, k ∈ cleared new <-> exists p e, m !! k = Some p /\ Conn.endpoint p = Some e.

(** No peer is touched. *)
Definition clears_no_peer (m m' : gmap Key Peer) (new : list Effect) : Prop :=
  m' = m /\ cleared new = [].

End ConnVocabulary.

Section MoreVocabulary.
Context {P : Platform}.

(** Up and Down alternate in [evs], [up] being the flag before them. *)
Fixpoint alternating (up : bool) (evs : list Tun.TUNEvent) : Prop :=
  match evs with
  | [] => True
  | Tun.TUNEventUp :: rest => up = false /\ alternating true rest
  | Tun.TUNEventDown :: rest => up = true /\ alternating false rest
  | Tun.TUNEventMTUUpdate :: rest => alternating up rest
  end.

(** The flag the consumer of [evs] knows: that of the last Up or Down. *)
Definition flag_after (up : bool) (evs : list Tun.TUNEvent) : bool :=
  fold_left (fun u ev => match ev with
                         | Tun.TUNEventUp => true
                         | Tun.TUNEventDown => false
                         | Tun.TUNEventMTUUpdate => u
                         end) evs up.

(** A turn of the monitor that the filters of the loop drop: an interrupted
    read, a short message, another kind of message, another interface. *)
Definition dropped (tunIfindex : Z) (inp : Tun.RouteInput) : bool :=
  match Tun.rd_err inp with
  | Some err => Tun.is_EINTR err
  | None =>
    (Tun.rd_n inp <? 14) ||
    match index (Tun.rd_data inp) 3 with
    | None => false
    | Some ty =>
      negb (ty =? RTM_IFINFO) ||
      match Tun.uint16_at (Tun.rd_data inp) 12 with
      | None => false
      | Some ifindex => negb (ifindex =? tunIfindex)
      end
    end
  end.

(** Every run of [m] keeps the calls made so far and adds its own. *)
Definition extends {A} (m : Tun.M A) : Prop :=
  forall t, exists new, snd (m t) = t ++ new.

(** The paths that [CreateTUN] probes from number [i] on, [count] of them. *)
Fixpoint probed (count : nat) (i : Z) : list Tun.Call :=
  match count with
  | O => []
  | S count' => Tun.OpenFile ("/dev/tun" +:+ itoa i) O_RDWR 0 :: probed count' (i + 1)
  end.

(** The four bytes of a [uint32], on a little-endian machine. *)
Definition le_bytes32 (u : Z) : list byte :=
  [u mod 2 ^ 8; (u / 2 ^ 8) mod 2 ^ 8; (u / 2 ^ 16) mod 2 ^ 8; (u / 2 ^ 24) mod 2 ^ 8].

(** The calls of a helper that opens a control socket at [t], issues the
    ioctl [req] on it and closes it; without a socket, no ioctl. *)
Definition control_calls (K : Tun.Kernel) (t : Tun.Trace) (req : Z) (arg : Tun.IoctlArg)
  : list Tun.Call :=
  Tun.Socket AF_INET SOCK_DGRAM 0 ::
  match Tun.k_Socket K t AF_INET SOCK_DGRAM 0 with
  | (_, Some _) => []
  | (confd, None) => [Tun.Ioctl confd req arg; Tun.UnixClose confd]
  end.

(** Asked at [t] on the control socket [confd], the status of [iface] says
    that the process [pid] has opened it: the ioctl succeeds, and the text
    before the first NUL of the status field, which is not empty, scans to
    [pid]. *)
Definition owned_by (K : Tun.Kernel) (t : Tun.Trace) (confd : Z) (iface : net.Interface)
    (pid : Z) : Prop :=
  let '(errno, stored) :=
    Tun.k_Ioctl K t confd SIOCGIFSTATUS (Tun.ArgIfstat (Tun.name_array (net.Name iface))) in
  let Ascii := Tun.ifstatus_Ascii stored in
  errno = 0 /\ 1 <= IndexByte Ascii 0 /\
  Sscanf_pid (slice_to Ascii (IndexByte Ascii 0)) = Some pid.

(** The calls of the rename back, if the name was changed. *)
Definition restore_calls (K : Tun.Kernel) (tun : Tun.nativeTun) (t : Tun.Trace) : list Tun.Call :=
  if String.eqb (Tun.name tun) (Tun.origName tun) then []
  else control_calls K t SIOCSIFNAME
         (Tun.ArgIfreqPtr (Tun.name_array (Tun.name tun)) (Tun.name_array (Tun.origName tun))).

(** The calls of [Close] on a handle with the cancellation handle [rw]. *)
Definition teardown_calls (K : Tun.Kernel) (tun : Tun.nativeTun) (rw : RWCancel) (t : Tun.Trace)
  : list Tun.Call :=
  restore_calls K tun t ++ [Tun.FileClose (Tun.fd tun); Tun.Cancel rw] ++
  (if Tun.routeSocket tun =? -1 then []
   else [Tun.Shutdown (Tun.routeSocket tun) SHUT_RDWR; Tun.UnixClose (Tun.routeSocket tun)]).

(** The handle that [Close] leaves. *)
Definition closed_handle (tun : Tun.nativeTun) : Tun.nativeTun :=
  if Tun.routeSocket tun =? -1 then
    match Tun.events tun with
    | Some ch => Tun.set_events tun (Some (Tun.close_chan ch))
    | None => tun
    end
  else Tun.set_routeSocket tun (-1).

(** [Close] panics on this handle: closing a channel that is closed. *)
Definition closes_twice (tun : Tun.nativeTun) : Prop :=
  Tun.routeSocket tun = -1 /\ exists ch, Tun.events tun = Some ch /\ Tun.closed ch = true.

(** Every run of [m] keeps the calls made so far, and each call it adds
    satisfies [ok]. *)
Definition emits {A} (ok : Tun.Call -> Prop) (m : Tun.M A) : Prop :=
  forall t, exists new, snd (m t) = t ++ new /\ Forall ok new.

(** A call that closes no file. *)
Definition keeps_files (c : Tun.Call) : Prop :=
  match c with Tun.FileClose _ => False | _ => True end.

End MoreVocabulary.

(** * More test doubles *)

Module MoreDoubles.
Import Doubles.

(** [K] with the answers of one call replaced. *)
Definition with_OpenFile (K : Tun.Kernel)
    (open : Tun.Trace -> string -> Z -> Z -> File + error) : Tun.Kernel := {|
  Tun.k_InterfaceByName := Tun.k_InterfaceByName K;
  Tun.k_InterfaceByIndex := Tun.k_InterfaceByIndex K;
  Tun.k_OpenFile := open;
  Tun.k_FileClose := Tun.k_FileClose K;
  Tun.k_FileRead := Tun.k_FileRead K;
  Tun.k_FileWrite := Tun.k_FileWrite K;
  Tun.k_Ioctl := Tun.k_Ioctl K;
  Tun.k_Socket := Tun.k_Socket K;
  Tun.k_UnixClose := Tun.k_UnixClose K;
  Tun.k_Shutdown := Tun.k_Shutdown K;
  Tun.k_Getpid := Tun.k_Getpid K;
  Tun.k_NewRWCancel := Tun.k_NewRWCancel K;
  Tun.k_Cancel := Tun.k_Cancel K;
  Tun.k_ReadyRead := Tun.k_ReadyRead K
|}.

Definition with_FileRead (K : Tun.Kernel)
    (read : Tun.Trace -> File -> Z -> list byte * Z * option error) (ready : bool)
  : Tun.Kernel := {|
  Tun.k_InterfaceByName := Tun.k_InterfaceByName K;
  Tun.k_InterfaceByIndex := Tun.k_InterfaceByIndex K;
  Tun.k_OpenFile := Tun.k_OpenFile K;
  Tun.k_FileClose := Tun.k_FileClose K;
  Tun.k_FileRead := read;
  Tun.k_FileWrite := Tun.k_FileWrite K;
  Tun.k_Ioctl := Tun.k_Ioctl K;
  Tun.k_Socket := Tun.k_Socket K;
  Tun.k_UnixClose := Tun.k_UnixClose K;
  Tun.k_Shutdown := Tun.k_Shutdown K;
  Tun.k_Getpid := Tun.k_Getpid K;
  Tun.k_NewRWCancel := Tun.k_NewRWCancel K;
  Tun.k_Cancel := Tun.k_Cancel K;
  Tun.k_ReadyRead := fun _ _ => ready
|}.

Definition with_Ioctl (K : Tun.Kernel)
    (ioctl : Tun.Trace -> Z -> Z -> Tun.IoctlArg -> Z * list byte) : Tun.Kernel := {|
  Tun.k_InterfaceByName := Tun.k_InterfaceByName K;
  Tun.k_InterfaceByIndex := Tun.k_InterfaceByIndex K;
  Tun.k_OpenFile := Tun.k_OpenFile K;
  Tun.k_FileClose := Tun.k_FileClose K;
  Tun.k_FileRead := Tun.k_FileRead K;
  Tun.k_FileWrite := Tun.k_FileWrite K;
  Tun.k_Ioctl := ioctl;
  Tun.k_Socket := Tun.k_Socket K;
  Tun.k_UnixClose := Tun.k_UnixClose K;
  Tun.k_Shutdown := Tun.k_Shutdown K;
  Tun.k_Getpid := Tun.k_Getpid K;
  Tun.k_NewRWCancel := Tun.k_NewRWCancel K;
  Tun.k_Cancel := Tun.k_Cancel K;
  Tun.k_ReadyRead := Tun.k_ReadyRead K
|}.

(** The plain machine. *)
Definition plain : Tun.Kernel := machine 0 ["tun0"%string] 0.

(** No device node can be opened. *)
Definition no_nodes : Tun.Kernel :=
  with_OpenFile plain (fun _ _ _ _ => inr (Errno 16)).

(** /dev/tun0 and /dev/tun1 are busy, /dev/tun2 opens as descriptor 3. *)
Definition third_node : Tun.Kernel :=
  with_OpenFile plain
    (fun _ path _ _ => if String.eqb path "/dev/tun2" then inl (mkFile 3) else inr (Errno 16)).

(** The device is gone: reads fail with EAGAIN and it is never ready. *)
Definition stalled : Tun.Kernel :=
  with_FileRead plain (fun _ _ _ => ([], 0, Some (Errno 35))) false.

(** A device that hands back the packet written last. *)
Fixpoint last_written (t : Tun.Trace) (found : list byte) : list byte :=
  match t with
  | [] => found
  | Tun.FileWrite _ b :: rest => last_written rest b
  | _ :: rest => last_written rest found
  end.

Definition loopback : Tun.Kernel :=
  with_FileRead plain (fun t _ _ => (last_written t [], len (last_written t []), None)) true.

(** The number of [SIOCGIFMTU] in zerrors_dragonfly_amd64.go. *)
Definition SIOCGIFMTU : Z := 0xc0206933.

(** A kernel that keeps the MTU of the last [SIOCSIFMTU]. *)
Fixpoint last_mtu (t : Tun.Trace) (found : Z) : Z :=
  match t with
  | [] => found
  | Tun.Ioctl _ req (Tun.ArgIfreqMtu _ mtu) :: rest =>
    last_mtu rest (if req =? SIOCSIFMTU then mtu else found)
  | _ :: rest => last_mtu rest found
  end.

Definition keeps_mtu : Tun.Kernel :=
  with_Ioctl plain (fun t _ req _ =>
    if req =? SIOCGIFMTU then (0, le_bytes32 (last_mtu t 1500)) else (0, [])).

(** The plain machine, but the status ioctl stores the 19 bytes of the
    text and nothing after them: the NUL that ends the text is one of the
    zeroes of the field. *)
Definition terse : Tun.Kernel :=
  with_Ioctl plain (fun _ _ req _ =>
    if req =? SIOCGIFSTATUS then (0, status_prefix ++ bytes_of_string "100" ++ [10])
    else (0, [])).

(** wg0 with a fatal error of the route listener waiting. *)
Definition wg0_failed : Tun.nativeTun := Tun.set_errors wg0 (Some (Errno 5)).

(** A handle as [CreateTUNFromFile] makes it on the plain machine. *)
Definition tun0 : Tun.nativeTun :=
  Tun.mkTun "tun0" "tun0" (mkFile 3) (Some (mkRWCancel 3)) (Some (Tun.make_chan 10)) None 4.

(** Sockets whose [Close] fails, and a device that is up and has no bind. *)
Definition no_close : Sockets := mkSockets false false true 1.



End MoreDoubles.

(** Tactics: unfold the monad of package tun; bounds of a literal index. *)
Ltac run :=
  unfold mbind, mret, Tun.M_bind, Tun.M_ret, Tun.must, Tun.call, Tun.panic,
    Tun.out_of_fuel, Tun.bind, Tun.ret;
  cbv beta iota.

Ltac in_range := unfold len; cbn [length]; lia.

(** * Properties of package tun *)

Section TunProperties.
Context {P : Platform}.

(** ** The route monitor *)

Lemma listener_turn_matching tunIfindex st inp iface :
  matching tunIfindex inp iface ->
  Tun.listener_turn tunIfindex st inp =
    Tun.Continue (status_of (observed iface))
      (Spec.transition (Tun.statusUp st, Tun.statusMTU st) (observed iface)).
Proof.
  intros (Herr & Hn & Hty & Hidx & Hif).
  unfold Tun.listener_turn. rewrite Herr, Hty, Hidx, Hif.
  destruct (Z.ltb_spec (Tun.rd_n inp) 14) as [?|_]; [lia|].
  rewrite !Z.eqb_refl. cbn [negb].
  unfold Spec.transition, observed, status_of. cbn [fst snd].
  destruct st as [su sm]. cbn [Tun.statusUp Tun.statusMTU].
  f_equal.
  destruct (Tun.flag_up iface), su; cbn;
    (destruct (Z.eqb_spec (net.MTU iface) sm);
     [rewrite bool_decide_eq_false_2 by (intros ?; congruence)
     |rewrite bool_decide_eq_true_2 by assumption]); reflexivity.
Qed.

Lemma listener_loop_matching tunIfindex inputs ifaces : forall prev,
  Forall2 (matching tunIfindex) inputs ifaces ->
  Tun.listener_loop tunIfindex (status_of prev) inputs =
    (Spec.transitions prev (map observed ifaces),
     Tun.Listening (status_of (last_observed prev (map observed ifaces)))).
Proof.
  intros prev HF. revert prev.
  induction HF as [|inp iface inputs ifaces Hm HF IH]; intros prev.
  - reflexivity.
  - cbn [Tun.listener_loop map Spec.transitions].
    rewrite (listener_turn_matching _ _ _ _ Hm), IH.
    destruct prev as [pu pm]. cbn [status_of Tun.statusUp Tun.statusMTU fst snd].
    reflexivity.
Qed.

(** C3.  Over any sequence of notifications that match the monitor's
    interface, the monitor sends exactly the events of the specification's
    edge-triggered rule, run from the remembered state down/zero: Up on a
    false-to-true change of the up flag, Down on a true-to-false change,
    nothing for a repeated flag, and one MTUChanged exactly when the MTU
    differs from the last observed one; and it keeps listening. *)
Theorem route_monitor_edge_triggered tunIfindex inputs ifaces :
  Forall2 (matching tunIfindex) inputs ifaces ->
  Tun.routineRouteListener tunIfindex inputs =
    (Spec.transitions Spec.initial (map observed ifaces),
     Tun.Listening (status_of (last_observed Spec.initial (map observed ifaces)))).
Proof.
  intros HF. unfold Tun.routineRouteListener.
  exact (listener_loop_matching tunIfindex inputs ifaces Spec.initial HF).
Qed.

(** The rule, event by event. *)
Lemma transition_Up prev cur :
  Tun.TUNEventUp ∈ Spec.transition prev cur <-> fst prev = false /\ fst cur = true.
Proof.
  unfold Spec.transition. destruct (fst prev), (fst cur), (bool_decide _); cbn;
    rewrite ?elem_of_cons, ?elem_of_nil; intuition congruence.
Qed.

Lemma transition_Down prev cur :
  Tun.TUNEventDown ∈ Spec.transition prev cur <-> fst prev = true /\ fst cur = false.
Proof.
  unfold Spec.transition. destruct (fst prev), (fst cur), (bool_decide _); cbn;
    rewrite ?elem_of_cons, ?elem_of_nil; intuition congruence.
Qed.

Lemma transition_MTU prev cur :
  Tun.TUNEventMTUUpdate ∈ Spec.transition prev cur <-> snd cur <> snd prev.
Proof.
  unfold Spec.transition.
  destruct (fst prev), (fst cur); cbn; case_bool_decide; cbn;
    rewrite ?elem_of_cons, ?elem_of_nil; intuition congruence.
Qed.

(** No event is sent twice for one notification. *)
Lemma transition_NoDup prev cur : NoDup (Spec.transition prev cur).
Proof.
  unfold Spec.transition.
  destruct (fst prev), (fst cur), (bool_decide _); cbn;
    repeat (constructor; [rewrite ?elem_of_cons, ?elem_of_nil; intuition congruence|]);
    constructor.
Qed.

(** A message that is too short, of another kind or for another interface
    is dropped: nothing is sent and the remembered state stays. *)
Lemma listener_turn_discards tunIfindex st inp ty ifindex :
  Tun.rd_err inp = None ->
  index (Tun.rd_data inp) 3 = Some ty ->
  Tun.uint16_at (Tun.rd_data inp) 12 = Some ifindex ->
  Tun.rd_n inp < 14 \/ ty <> RTM_IFINFO \/ ifindex <> tunIfindex ->
  Tun.listener_turn tunIfindex st inp = Tun.Continue st [].
Proof.
  intros Herr Hty Hidx Hor. unfold Tun.listener_turn. rewrite Herr, Hty, Hidx.
  destruct (Z.ltb_spec (Tun.rd_n inp) 14); [reflexivity|].
  destruct (Z.eqb_spec ty RTM_IFINFO); [|reflexivity].
  destruct (Z.eqb_spec ifindex tunIfindex); [|reflexivity].
  lia.
Qed.

(** ** Arithmetic of Go's int *)

Lemma wrap64_small z : is_int z -> wrap64 z = z.
Proof.
  unfold is_int, wrap64. intros Hz.
  rewrite Z.mod_small by lia. lia.
Qed.

(** Below the smallest int plus four, the subtraction wraps to the top. *)
Lemma int_sub_4_wraps z : is_int z -> z < - 2 ^ 63 + 4 -> int_sub z 4 = z - 4 + 2 ^ 64.
Proof.
  unfold is_int, int_sub, wrap64. intros Hz Hlt.
  replace (z - 4 + 2 ^ 63) with ((z - 4 + 2 ^ 63 + 2 ^ 64) + (-1) * 2 ^ 64) by lia.
  rewrite Z.mod_add by lia. rewrite Z.mod_small by lia. lia.
Qed.

Lemma int_sub_4_exact z : is_int z -> - 2 ^ 63 + 4 <= z -> int_sub z 4 = z - 4.
Proof.
  intros Hz Hge. unfold int_sub. apply wrap64_small. unfold is_int in *. lia.
Qed.

(** ** Slices *)

Lemma slice_from_Some {A} (s : list A) low :
  0 <= low <= len s -> slice_from s low = Some (drop (Z.to_nat low) s).
Proof.
  intros Hl. unfold slice_from.
  destruct (Z.leb_spec 0 low); [|lia]. destruct (Z.leb_spec low (len s)); [|lia].
  reflexivity.
Qed.

Lemma slice_from_None {A} (s : list A) low :
  low < 0 \/ len s < low -> slice_from s low = None.
Proof.
  intros Hl. unfold slice_from.
  destruct (Z.leb_spec 0 low); [|reflexivity].
  destruct (Z.leb_spec low (len s)); [lia|reflexivity].
Qed.

Lemma index_Some_lt {A} (s : list A) i x : index s i = Some x -> 0 <= i < len s.
Proof.
  unfold index.
  destruct (Z.leb_spec 0 i); destruct (Z.ltb_spec i (len s)); cbn; intros; try discriminate.
  lia.
Qed.

Lemma index_lookup {A} (s : list A) i :
  0 <= i < len s -> index s i = s !! Z.to_nat i.
Proof.
  intros Hi. unfold index.
  destruct (Z.leb_spec 0 i); [|lia]. destruct (Z.ltb_spec i (len s)); [|lia].
  reflexivity.
Qed.

Lemma len_drop {A} (s : list A) n : 0 <= n <= len s -> len (drop (Z.to_nat n) s) = len s - n.
Proof. unfold len. rewrite length_drop. lia. Qed.

Lemma store_in {A} (s : list A) i v :
  0 <= i < len s -> store s i v = Some (<[Z.to_nat i := v]> s).
Proof.
  intros Hi. unfold store.
  destruct (Z.leb_spec 0 i); [|lia]. destruct (Z.ltb_spec i (len s)); [|lia].
  reflexivity.
Qed.

Lemma store_out {A} (s : list A) i v : i < 0 \/ len s <= i -> store s i v = None.
Proof.
  intros Hi. unfold store.
  destruct (Z.leb_spec 0 i); [|reflexivity].
  destruct (Z.ltb_spec i (len s)); [lia|reflexivity].
Qed.

Lemma index_out {A} (s : list A) i : i < 0 \/ len s <= i -> index s i = None.
Proof.
  intros Hi. unfold index.
  destruct (Z.leb_spec 0 i); [|reflexivity].
  destruct (Z.ltb_spec i (len s)); [lia|reflexivity].
Qed.

(** A slice with room for the four prefix bytes and one payload byte. *)
Lemma header_split (buff : list byte) offset :
  4 <= offset < len buff ->
  exists p0 p1 p2 p3 first rest,
    drop (Z.to_nat (offset - 4)) buff = p0 :: p1 :: p2 :: p3 :: first :: rest /\
    drop (Z.to_nat offset) buff = first :: rest /\
    index buff offset = Some first.
Proof.
  intros Ho.
  assert (Hlen : len (drop (Z.to_nat (offset - 4)) buff) = len buff - (offset - 4))
    by (apply len_drop; lia).
  assert (Hdd : drop (Z.to_nat offset) buff = drop 4 (drop (Z.to_nat (offset - 4)) buff)).
  { rewrite drop_drop. f_equal. lia. }
  destruct (drop (Z.to_nat (offset - 4)) buff) as [|p0 [|p1 [|p2 [|p3 [|first rest]]]]] eqn:Hd;
    unfold len in *; cbn [length] in Hlen; try lia.
  exists p0, p1, p2, p3, first, rest. split; [reflexivity|]. split; [exact Hdd|].
  rewrite index_lookup by (unfold len; lia).
  replace (Z.to_nat offset) with (Z.to_nat (offset - 4) + 4)%nat by lia.
  rewrite <- lookup_drop, Hd. reflexivity.
Qed.

(** ** Write *)

Lemma store_0 {A} (x : A) s v : store (x :: s) 0 v = Some (v :: s).
Proof. rewrite store_in by in_range. reflexivity. Qed.

Lemma store_1 {A} (x y : A) s v : store (x :: y :: s) 1 v = Some (x :: v :: s).
Proof. rewrite store_in by in_range. reflexivity. Qed.

Lemma store_2 {A} (x y z : A) s v :
  store (x :: y :: z :: s) 2 v = Some (x :: y :: v :: s).
Proof. rewrite store_in by in_range. reflexivity. Qed.

Lemma store_3 {A} (x y z w : A) s v :
  store (x :: y :: z :: w :: s) 3 v = Some (x :: y :: z :: v :: s).
Proof. rewrite store_in by in_range. reflexivity. Qed.

Lemma index_4 {A} (x y z w u : A) s : index (x :: y :: z :: w :: u :: s) 4 = Some u.
Proof. rewrite index_lookup by in_range. reflexivity. Qed.

(** [Write] on a buffer that holds the header region and a first payload
    byte: the four stores and the write. *)
Lemma Write_in_bounds (K : Tun.Kernel) tun (buff : list byte) offset first t :
  is_int offset -> 4 <= offset -> index buff offset = Some first ->
  let tag := if Z.shiftr first 4 =? ipv6_Version then AF_INET6 else AF_INET in
  let packet := [0; 0; 0; tag] ++ drop (Z.to_nat offset) buff in
  Tun.Write K tun buff offset t =
    (Done (Tun.k_FileWrite K t (Tun.fd tun) packet,
           take (Z.to_nat (offset - 4)) buff ++ packet),
     t ++ [Tun.FileWrite (Tun.fd tun) packet]).
Proof.
  intros Hint Hge Hidx tag packet.
  pose proof (index_Some_lt _ _ _ Hidx) as Hlt.
  destruct (header_split buff offset ltac:(lia))
    as (p0 & p1 & p2 & p3 & first' & rest & Hd & Hp & Hidx').
  assert (first' = first) by congruence. subst first'.
  unfold Tun.Write, Tun.File_Write.
  rewrite int_sub_4_exact by (unfold is_int in *; lia).
  rewrite slice_from_Some by lia. rewrite Hd. run.
  rewrite store_0, store_1, store_2, index_4, store_3.
  subst packet tag. rewrite Hp. unfold slice_to. cbn [app].
  destruct (Tun.k_FileWrite K t (Tun.fd tun) _) as [n err]. reflexivity.
Qed.

(** C5.  For a buffer that holds the header region and a first payload byte
    at [offset], [Write] hands the device a packet whose first three bytes
    are zero and whose fourth is AF_INET6 when the high nibble of the first
    payload byte is the IPv6 version, AF_INET otherwise, followed by the
    payload; the same bytes are left in the caller's buffer from
    [offset - 4] on. *)
Theorem Write_family_prefix (K : Tun.Kernel) tun (buff : list byte) offset first t :
  is_int offset -> 4 <= offset -> index buff offset = Some first ->
  let tag := if Z.shiftr first 4 =? ipv6_Version then AF_INET6 else AF_INET in
  let packet := [0; 0; 0; tag] ++ drop (Z.to_nat offset) buff in
  Tun.Write K tun buff offset t =
    (Done (Tun.k_FileWrite K t (Tun.fd tun) packet,
           take (Z.to_nat (offset - 4)) buff ++ packet),
     t ++ [Tun.FileWrite (Tun.fd tun) packet]).
Proof. apply Write_in_bounds. Qed.

(** ** Bounds of Read and Write *)

(** Where [buff[offset-4:]] is out of range. *)
Lemma header_slice_None (buff : list byte) offset :
  is_int offset -> len buff < 2 ^ 63 - 4 ->
  offset < 4 \/ len buff < offset - 4 ->
  slice_from buff (int_sub offset 4) = None.
Proof.
  intros Hint Hlen Hout. apply slice_from_None.
  destruct (Z_lt_le_dec offset (- 2 ^ 63 + 4)).
  - rewrite int_sub_4_wraps by assumption. right. unfold is_int in Hint. lia.
  - rewrite int_sub_4_exact by assumption. lia.
Qed.

Lemma header_slice_Some (buff : list byte) offset :
  is_int offset -> 4 <= offset -> offset - 4 <= len buff ->
  slice_from buff (int_sub offset 4) = Some (drop (Z.to_nat (offset - 4)) buff).
Proof.
  intros Hint Hge Hle.
  rewrite int_sub_4_exact by (unfold is_int in *; lia).
  apply slice_from_Some. lia.
Qed.

Lemma Write_panics_iff (K : Tun.Kernel) tun (buff : list byte) offset t :
  is_int offset -> len buff < 2 ^ 63 - 4 ->
  fst (Tun.Write K tun buff offset t) = Panic <-> offset < 4 \/ len buff < offset + 1.
Proof.
  intros Hint Hlen. split.
  - intros Hp.
    destruct (Z_lt_le_dec offset 4); [left; assumption|].
    destruct (Z_lt_le_dec (len buff) (offset + 1)); [right; assumption|].
    exfalso.
    destruct (header_split buff offset ltac:(lia)) as (? & ? & ? & ? & first & ? & _ & _ & Hi).
    rewrite (Write_in_bounds K tun buff offset first t Hint ltac:(lia) Hi) in Hp.
    discriminate.
  - intros Hout. unfold Tun.Write.
    destruct (Z_lt_le_dec offset 4) as [Hlt|Hge].
    { rewrite header_slice_None by (auto; lia). reflexivity. }
    destruct (Z_lt_le_dec (len buff) (offset - 4)) as [Hlt|Hle].
    { rewrite header_slice_None by (auto; lia). reflexivity. }
    rewrite header_slice_Some by assumption.
    assert (Hsub : len (drop (Z.to_nat (offset - 4)) buff) <= 4)
      by (rewrite len_drop by lia; lia).
    destruct (drop (Z.to_nat (offset - 4)) buff) as [|p0 [|p1 [|p2 [|p3 [|p4 rest]]]]];
      [| | | | |exfalso; revert Hsub; in_range]; run.
    + rewrite store_out by in_range. reflexivity.
    + rewrite store_0, store_out by in_range. reflexivity.
    + rewrite store_0, store_1, store_out by in_range. reflexivity.
    + rewrite store_0, store_1, store_2, index_out by in_range. reflexivity.
    + rewrite store_0, store_1, store_2, index_out by in_range. reflexivity.
Qed.

Lemma doRead_panics_iff (K : Tun.Kernel) tun (buff : list byte) offset t :
  is_int offset -> len buff < 2 ^ 63 - 4 -> Tun.errors tun = None ->
  fst (Tun.doRead K tun buff offset t) = Panic <-> offset < 4 \/ len buff < offset - 4.
Proof.
  intros Hint Hlen Hslot. unfold Tun.doRead. rewrite Hslot. split.
  - intros Hp.
    destruct (Z_lt_le_dec offset 4); [left; assumption|].
    destruct (Z_lt_le_dec (len buff) (offset - 4)); [right; assumption|].
    exfalso. revert Hp.
    rewrite header_slice_Some by assumption. unfold Tun.File_Read. run.
    destruct (Tun.k_FileRead K t (Tun.fd tun) _) as [[stored n] err].
    destruct (n <? 4); discriminate.
  - intros Hout. rewrite header_slice_None by assumption. reflexivity.
Qed.

Lemma doRead_pending_error (K : Tun.Kernel) tun (buff : list byte) offset t err :
  Tun.errors tun = Some err ->
  Tun.doRead K tun buff offset t = (Done (0, Some err, buff, Tun.set_errors tun None), t).
Proof. intros Hslot. unfold Tun.doRead. rewrite Hslot. reflexivity. Qed.

(** C9, as amended.  [Write] stores into bytes [offset-4 .. offset-1] and
    reads byte [offset]: it panics exactly when [offset < 4] or the buffer
    has fewer than [offset + 1] bytes.  [Read] only takes the slice from
    [offset - 4]: with no fatal error waiting it panics exactly when
    [offset < 4] or the buffer has fewer than [offset - 4] bytes, and with a
    fatal error waiting it returns that error without touching the buffer,
    whatever the offset. *)
Theorem header_region_bounds (K : Tun.Kernel) tun (buff : list byte) offset t :
  is_int offset -> len buff < 2 ^ 63 - 4 ->
  (fst (Tun.Write K tun buff offset t) = Panic <-> offset < 4 \/ len buff < offset + 1) /\
  (Tun.errors tun = None ->
   (fst (Tun.doRead K tun buff offset t) = Panic <-> offset < 4 \/ len buff < offset - 4)) /\
  (forall err, Tun.errors tun = Some err ->
   Tun.doRead K tun buff offset t = (Done (0, Some err, buff, Tun.set_errors tun None), t)).
Proof.
  intros Hint Hlen. split; [|split].
  - apply Write_panics_iff; assumption.
  - intros Hslot. apply doRead_panics_iff; assumption.
  - intros err Hslot. apply doRead_pending_error; assumption.
Qed.

(** ** doRead and Read *)

(** One attempt.  With an error waiting in the fatal-error slot, [doRead]
    returns it with length 0 and issues no call at all, so the device is not
    read.  With the slot empty, it reads the device once into the buffer
    from [offset - 4] on, and for a read that returns [n] and [err] it
    returns [n - 4] and [err] when [n >= 4], and 0 and [err] when [n < 4]. *)
Lemma doRead_attempt (K : Tun.Kernel) tun (buff sub : list byte) offset t :
  (forall err, Tun.errors tun = Some err ->
     Tun.doRead K tun buff offset t =
       (Done (0, Some err, buff, Tun.set_errors tun None), t)) /\
  (Tun.errors tun = None ->
   slice_from buff (int_sub offset 4) = Some sub ->
   forall stored n err,
     Tun.k_FileRead K t (Tun.fd tun) (len sub) = (stored, n, err) -> is_int n ->
     Tun.doRead K tun buff offset t =
       (Done (if n <? 4 then 0 else n - 4, err,
              slice_to buff (int_sub offset 4) ++ copy sub stored, tun),
        t ++ [Tun.FileRead (Tun.fd tun) (len sub)])).
Proof.
  split.
  - intros err Hslot. apply doRead_pending_error; assumption.
  - intros Hslot Hsub stored n err Hrd Hn.
    unfold Tun.doRead, Tun.File_Read. rewrite Hslot, Hsub. run. rewrite Hrd.
    destruct (Z.ltb_spec n 4); [reflexivity|].
    rewrite int_sub_4_exact by (unfold is_int in *; lia). reflexivity.
Qed.

(** [Read] hands back what [doRead] returns, unless the error is one that
    [rwcancel.RetryAfterError] accepts. *)
Lemma Read_returns_doRead (K : Tun.Kernel) fuel tun buff offset t r t' :
  Tun.doRead K tun buff offset t = (Done r, t') ->
  Tun.may_retry (snd (fst (fst r))) = false ->
  Tun.Read K (S fuel) tun buff offset t = (Done r, t').
Proof.
  intros Hd Hretry. cbn [Tun.Read]. run. rewrite Hd.
  destruct r as [[[n err] b] tn]. cbn [fst snd] in Hretry.
  rewrite Hretry. rewrite orb_true_r. reflexivity.
Qed.

(** After an attempt that ended in a retry condition, [Read] asks whether
    the device is ready: if not it returns "tun device closed" with length
    0, otherwise it starts over. *)
Lemma Read_retries (K : Tun.Kernel) fuel tun buff offset t n err buff' tun' t1 rw :
  Tun.doRead K tun buff offset t = (Done (n, err, buff', tun'), t1) ->
  Tun.may_retry err = true ->
  Tun.rwcancel tun' = Some rw ->
  Tun.Read K (S fuel) tun buff offset t =
    if Tun.k_ReadyRead K t1 rw
    then Tun.Read K fuel tun' buff' offset (t1 ++ [Tun.ReadyRead rw])
    else (Done (0, Some ErrDeviceClosed, buff', tun'), t1 ++ [Tun.ReadyRead rw]).
Proof.
  intros Hd Hretry Hrw. cbn [Tun.Read]. unfold Tun.RWCancel_ReadyRead. run. rewrite Hd.
  rewrite Hretry. destruct err as [e|]; [|discriminate]. cbn [is_nil negb orb].
  rewrite Hrw. cbv beta iota. destruct (Tun.k_ReadyRead K t1 rw); reflexivity.
Qed.

(** C6, as amended.  [Read] makes attempts, each one a [doRead].  In an
    attempt, an error waiting in the fatal-error slot is taken with length
    0 and no call is issued, so the device is not read; with the slot empty
    the device is read once, and for a read that returns [n] and [err] the
    attempt gives [n - 4] and [err] when [n >= 4], and 0 and [err] when
    [n < 4].  [Read] returns what the attempt gave when its error is nil or
    is not one that [rwcancel.RetryAfterError] accepts.  When it is one,
    [Read] does not return it: it asks whether the device is ready, returns
    length 0 and "tun device closed" if it is not, and makes another attempt
    if it is. *)
Theorem Read_result (K : Tun.Kernel) fuel tun (buff sub : list byte) offset t :
  let attempt := Tun.doRead K tun buff offset t in
  (forall err, Tun.errors tun = Some err ->
     attempt = (Done (0, Some err, buff, Tun.set_errors tun None), t)) /\
  (Tun.errors tun = None ->
   slice_from buff (int_sub offset 4) = Some sub ->
   forall stored n err,
     Tun.k_FileRead K t (Tun.fd tun) (len sub) = (stored, n, err) -> is_int n ->
     attempt =
       (Done (if n <? 4 then 0 else n - 4, err,
              slice_to buff (int_sub offset 4) ++ copy sub stored, tun),
        t ++ [Tun.FileRead (Tun.fd tun) (len sub)])) /\
  (forall n err buff' tun' t1,
     attempt = (Done (n, err, buff', tun'), t1) ->
     (Tun.may_retry err = false ->
        Tun.Read K (S fuel) tun buff offset t = (Done (n, err, buff', tun'), t1)) /\
     (Tun.may_retry err = true ->
      forall rw, Tun.rwcancel tun' = Some rw ->
        Tun.Read K (S fuel) tun buff offset t =
          if Tun.k_ReadyRead K t1 rw
          then Tun.Read K fuel tun' buff' offset (t1 ++ [Tun.ReadyRead rw])
          else (Done (0, Some ErrDeviceClosed, buff', tun'), t1 ++ [Tun.ReadyRead rw]))).
Proof.
  intros attempt. subst attempt.
  destruct (doRead_attempt K tun buff sub offset t) as [Hslot Hread].
  split; [exact Hslot|]. split; [exact Hread|].
  intros n err buff' tun' t1 Hd. split.
  - intros Hretry. apply (Read_returns_doRead K fuel tun buff offset t _ t1 Hd Hretry).
  - intros Hretry rw Hrw. exact (Read_retries K fuel _ _ _ _ _ _ _ _ _ rw Hd Hretry Hrw).
Qed.

(** ** CreateTUN: the checks before the device is opened *)

(** C8.  A name longer than IFNAMSIZ - 1 makes [CreateTUN] fail with the
    length error and an unchanged trace: no call was issued, no descriptor
    opened.  A name for which an interface exists makes it fail with the
    already-exists error after the single call [InterfaceByName]: again no
    descriptor was opened. *)
Theorem CreateTUN_rejects_before_open (K : Tun.Kernel) fuel name mtu t :
  (Z.of_nat (String.length name) > IFNAMSIZ - 1 ->
   Tun.CreateTUN K fuel name mtu t = (Done (inr ErrNameTooLong), t)) /\
  (names_bounded K ->
   forall iface, Tun.k_InterfaceByName K t name = inl iface ->
   Tun.CreateTUN K fuel name mtu t =
     (Done (inr (ErrAlreadyExists name)), t ++ [Tun.InterfaceByName name])).
Proof.
  split.
  - intros Hlong. unfold Tun.CreateTUN.
    destruct (Z.gtb_spec (Z.of_nat (String.length name)) (IFNAMSIZ - 1)); [|lia].
    reflexivity.
  - intros Hb iface Hif. unfold Tun.CreateTUN.
    pose proof (Hb _ _ _ Hif) as Hshort.
    destruct (Z.gtb_spec (Z.of_nat (String.length name)) (IFNAMSIZ - 1)); [lia|].
    unfold Tun.net_InterfaceByName. run. rewrite Hif. reflexivity.
Qed.

(** ** Close *)

(** [renameTun] returns, having opened a control socket and, when that
    worked, issued the rename ioctl and closed the socket. *)
Lemma renameTun_runs (K : Tun.Kernel) oldName newName t :
  exists err calls,
    Tun.renameTun K oldName newName t = (Done err, t ++ Tun.Socket AF_INET SOCK_DGRAM 0 :: calls) /\
    (calls = [] \/
     exists confd,
       calls = [Tun.Ioctl confd SIOCSIFNAME
                  (Tun.ArgIfreqPtr (Tun.name_array oldName) (Tun.name_array newName));
                Tun.UnixClose confd]).
Proof.
  unfold Tun.renameTun, Tun.unix_Socket, Tun.ioctl, Tun.unix_Close. run.
  destruct (Tun.k_Socket K t AF_INET SOCK_DGRAM 0) as [confd [e|]].
  - exists (Some e), []. split; [reflexivity|left; reflexivity].
  - destruct (Tun.k_Ioctl K _ confd SIOCSIFNAME _) as [errno out] eqn:Hio.
    exists (if negb (errno =? 0) then Some (ErrRename oldName newName errno) else None).
    eexists. split.
    + destruct (negb (errno =? 0)); rewrite <- !app_assoc; reflexivity.
    + right. exists confd. reflexivity.
Qed.

(** With a routing socket open, the error [Close] returns is the first of
    the cancellation error, the descriptor-close error and the error of
    closing the routing socket: the result of the rename, [err], is stored
    and then overwritten. *)
Lemma Close_with_route_socket (K : Tun.Kernel) tun t rw err t1 :
  Tun.name tun <> Tun.origName tun ->
  Tun.rwcancel tun = Some rw ->
  Tun.routeSocket tun <> -1 ->
  Tun.renameTun K (Tun.name tun) (Tun.origName tun) t = (Done err, t1) ->
  let t2 := t1 ++ [Tun.FileClose (Tun.fd tun)] in
  let t3 := t2 ++ [Tun.Cancel rw] in
  let t4 := t3 ++ [Tun.Shutdown (Tun.routeSocket tun) SHUT_RDWR] in
  Tun.Close K tun t =
    (Done (Tun.first_error (Tun.k_Cancel K t2 rw) (Tun.k_FileClose K t1 (Tun.fd tun))
             (Tun.k_UnixClose K t4 (Tun.routeSocket tun)),
           Tun.set_routeSocket tun (-1)),
     t4 ++ [Tun.UnixClose (Tun.routeSocket tun)]).
Proof.
  intros Hname Hrw Hsock Hren t2 t3 t4. unfold Tun.Close.
  apply String.eqb_neq in Hname. rewrite Hname, Hrw. cbn [negb].
  apply Z.eqb_neq in Hsock. rewrite Hsock. cbn [negb].
  unfold Tun.File_Close, Tun.RWCancel_Cancel, Tun.unix_Shutdown, Tun.unix_Close. run.
  rewrite Hren. reflexivity.
Qed.

(** Without a routing socket the result of the rename is what [Close]
    returns when nothing else failed. *)
Lemma Close_without_route_socket (K : Tun.Kernel) tun t rw err t1 ch :
  Tun.name tun <> Tun.origName tun ->
  Tun.rwcancel tun = Some rw ->
  Tun.routeSocket tun = -1 ->
  Tun.events tun = Some ch -> Tun.closed ch = false ->
  Tun.renameTun K (Tun.name tun) (Tun.origName tun) t = (Done err, t1) ->
  let t2 := t1 ++ [Tun.FileClose (Tun.fd tun)] in
  Tun.Close K tun t =
    (Done (Tun.first_error (Tun.k_Cancel K t2 rw) (Tun.k_FileClose K t1 (Tun.fd tun)) err,
           Tun.set_events tun (Some (Tun.close_chan ch))),
     t2 ++ [Tun.Cancel rw]).
Proof.
  intros Hname Hrw Hsock Hev Hcl Hren t2. unfold Tun.Close.
  apply String.eqb_neq in Hname. rewrite Hname, Hrw, Hsock, Hev, Hcl. cbn [negb Z.eqb].
  unfold Tun.File_Close, Tun.RWCancel_Cancel. run.
  rewrite Hren. reflexivity.
Qed.

End TunProperties.

(** * Package tun on the test machine *)

Section TunRuns.
Import Doubles.

(** C1, the failing run.  [Close] on the renamed handle issues the rename
    back to tun0 before it closes descriptor 3, and closes it although the
    rename failed; the rename error is the only failure, and [Close]
    returns nil: the error was overwritten by the result of closing the
    routing socket. *)
Theorem Close_drops_rename_error :
  Tun.renameTun rename_fails "wg0" "tun0" [] =
    (Done (Some (ErrRename "wg0" "tun0" 1)),
     [Tun.Socket AF_INET SOCK_DGRAM 0;
      Tun.Ioctl 4 SIOCSIFNAME (Tun.ArgIfreqPtr (Tun.name_array "wg0") (Tun.name_array "tun0"));
      Tun.UnixClose 4]) /\
  Tun.Close rename_fails wg0 [] =
    (Done (None, Tun.set_routeSocket wg0 (-1)),
     [Tun.Socket AF_INET SOCK_DGRAM 0;
      Tun.Ioctl 4 SIOCSIFNAME (Tun.ArgIfreqPtr (Tun.name_array "wg0") (Tun.name_array "tun0"));
      Tun.UnixClose 4;
      Tun.FileClose (mkFile 3);
      Tun.Cancel (mkRWCancel 3);
      Tun.Shutdown 5 SHUT_RDWR;
      Tun.UnixClose 5]).
Proof. split; vm_compute; reflexivity. Qed.

(** C2, the failing runs.  /dev/tun0 is opened as descriptor 3 and named;
    when the ioctl that sets the header mode, or the one that sets the
    broadcast mode, fails, [CreateTUN] returns the error and descriptor 3
    is never closed. *)
Theorem CreateTUN_leaks_descriptor :
  let head_fails := Tun.CreateTUN (machine _TUNSIFHEAD [] 0) 2 "wg0" 1420 [] in
  let mode_fails := Tun.CreateTUN (machine _TUNSIFMODE [] 0) 2 "wg0" 1420 [] in
  head_fails =
    (Done (inr (ErrIoctl 1)), opened_and_named ++ [Tun.Ioctl 3 _TUNSIFHEAD (Tun.ArgInt 1)]) /\
  mode_fails =
    (Done (inr (ErrIoctl 1)),
     opened_and_named ++ [Tun.Ioctl 3 _TUNSIFHEAD (Tun.ArgInt 1);
                          Tun.Ioctl 3 _TUNSIFMODE (Tun.ArgInt IFF_BROADCAST)]) /\
  existsb (closes (mkFile 3)) (snd head_fails) = false /\
  existsb (closes (mkFile 3)) (snd mode_fails) = false.
Proof. repeat split; vm_compute; reflexivity. Qed.

(** The sibling paths do close it: a failing rename, and a failing
    construction of the handle (here the ioctl that sets the MTU). *)
Example CreateTUN_closes_on_rename_failure :
  let r := Tun.CreateTUN (machine SIOCSIFNAME [] 0) 2 "wg0" 1420 [] in
  fst r = Done (inr (ErrRename "tun0" "wg0" 1)) /\
  existsb (closes (mkFile 3)) (snd r) = true.
Proof. split; vm_compute; reflexivity. Qed.

Example CreateTUN_closes_on_handle_failure :
  let r := Tun.CreateTUN (machine SIOCSIFMTU ["tun0"%string] 0) 2 "wg0" 1420 [] in
  fst r = Done (inr (ErrSetMTU "tun0")) /\
  existsb (closes (mkFile 3)) (snd r) = true.
Proof. split; vm_compute; reflexivity. Qed.

(** Three notifications for interface 7: up with MTU 1500, the same again,
    then down with MTU 1400. *)
Lemma route_monitor_edge_triggered_witness :
  let inputs := [info 7 true 1500; info 7 true 1500; info 7 false 1400] in
  let ifaces := [net.mkInterface 7 1500 "wg0" 0x8843; net.mkInterface 7 1500 "wg0" 0x8843;
                 net.mkInterface 7 1400 "wg0" 0x8842] in
  Forall2 (matching 7) inputs ifaces /\
  Tun.routineRouteListener 7 inputs =
    ([Tun.TUNEventUp; Tun.TUNEventMTUUpdate; Tun.TUNEventDown; Tun.TUNEventMTUUpdate],
     Tun.Listening (Tun.mkStatus false 1400)).
Proof.
  intros inputs ifaces.
  assert (HF : Forall2 (matching 7) inputs ifaces).
  { repeat (constructor; [repeat split; vm_compute; congruence|]). constructor. }
  split; [exact HF|].
  exact (route_monitor_edge_triggered 7 inputs ifaces HF).
Defined.

Lemma Write_family_prefix_witness :
  is_int 4 /\ 4 <= 4 /\ index [1; 1; 1; 1; 0x60; 5] 4 = Some 0x60 /\
  Tun.Write (machine 0 [] 0) wg0 [1; 1; 1; 1; 0x60; 5] 4 [] =
    (Done (6, None, [0; 0; 0; AF_INET6; 0x60; 5]),
     [Tun.FileWrite (mkFile 3) [0; 0; 0; AF_INET6; 0x60; 5]]).
Proof.
  assert (Hi : is_int 4) by (unfold is_int; lia).
  assert (Hge : 4 <= 4) by lia.
  assert (Hx : index [1; 1; 1; 1; 0x60; 5] 4 = Some 0x60) by reflexivity.
  split; [exact Hi|]. split; [exact Hge|]. split; [exact Hx|].
  exact (Write_family_prefix (machine 0 [] 0) wg0 [1; 1; 1; 1; 0x60; 5] 4 0x60 [] Hi Hge Hx).
Defined.

Lemma header_region_bounds_witness :
  fst (Tun.Write (machine 0 [] 0) wg0 [1; 1; 1; 1] 4 []) = Panic /\
  fst (Tun.doRead (machine 0 [] 0) wg0 [1; 1; 1; 1] 4 []) <> Panic.
Proof.
  assert (Hi : is_int 4) by (unfold is_int; lia).
  assert (Hl : len [1; 1; 1; 1] < 2 ^ 63 - 4) by (vm_compute; reflexivity).
  destruct (header_region_bounds (machine 0 [] 0) wg0 [1; 1; 1; 1] 4 [] Hi Hl)
    as (HW & HR & _).
  split.
  - apply HW. right. vm_compute. reflexivity.
  - intros Hp. apply (HR eq_refl) in Hp. vm_compute in Hp.
    destruct Hp as [Hp|Hp]; discriminate.
Defined.

(** C9, the counterexample.  A buffer of four bytes read at offset 4 is
    shorter than offset + 1, and [doRead] slices it from 0 without a panic. *)
Lemma Read_short_buffer_in_bounds :
  ~ (forall (K : Tun.Kernel) tun (buff : list byte) offset t,
       offset < 4 \/ len buff < offset + 1 ->
       fst (Tun.doRead K tun buff offset t) = Panic).
Proof.
  intros Hclaim.
  specialize (Hclaim (machine 0 [] 0) wg0 [1; 1; 1; 1] 4 []
                ltac:(right; vm_compute; reflexivity)).
  vm_compute in Hclaim. discriminate.
Qed.

(** C6, the counterexample.  The device is gone: the read returns 0 bytes
    and EAGAIN, and the device is not ready.  [Read] returns length 0, not
    with the read's own error but with "tun device closed". *)
Lemma Read_replaces_retry_error :
  ~ (forall (K : Tun.Kernel) fuel tun (buff : list byte) offset t stored n err,
       Tun.errors tun = None ->
       Tun.k_FileRead K t (Tun.fd tun) (len buff - (offset - 4)) = (stored, n, err) ->
       n < 4 ->
       exists buff' tun' t',
         Tun.Read K (S fuel) tun buff offset t = (Done (0, err, buff', tun'), t')).
Proof.
  intros Hclaim.
  destruct (Hclaim MoreDoubles.stalled 0%nat wg0 (repeat 0 100) 4 [] [] 0 (Some (Errno 35))
              eq_refl eq_refl ltac:(lia)) as (buff' & tun' & t' & Hrun).
  vm_compute in Hrun. discriminate.
Qed.

(** C6 on three runs: a waiting error that is no retry condition is
    returned at once; a read of 60 bytes gives 56; a read that fails with
    EAGAIN on a device that is not ready gives "tun device closed". *)
Lemma Read_result_witness :
  let K := machine 0 [] 60 in
  let buff := repeat 0 100%nat in
  Tun.Read K 1 (Tun.set_errors wg0 (Some (Errno 5))) buff 4 [] =
    (Done (0, Some (Errno 5), buff, wg0), []) /\
  Tun.Read K 1 wg0 buff 4 [] =
    (Done (56, None, buff, wg0), [Tun.FileRead (mkFile 3) 100]) /\
  Tun.Read MoreDoubles.stalled 1 wg0 buff 4 [] =
    (Done (0, Some ErrDeviceClosed, buff, wg0),
     [Tun.FileRead (mkFile 3) 100; Tun.ReadyRead (mkRWCancel 3)]).
Proof.
  intros K buff.
  split; [|split].
  - destruct (Read_result K 0 (Tun.set_errors wg0 (Some (Errno 5))) buff buff 4 [])
      as (Hslot & _ & Hret).
    exact (proj1 (Hret _ _ _ _ _ (Hslot (Errno 5) eq_refl)) eq_refl).
  - destruct (Read_result K 0 wg0 buff buff 4 []) as (_ & Hread & Hret).
    assert (Hn : is_int 60) by (unfold is_int; lia).
    exact (proj1 (Hret _ _ _ _ _ (Hread eq_refl eq_refl (repeat 0 60%nat) 60 None eq_refl Hn))
             eq_refl).
  - destruct (Read_result MoreDoubles.stalled 0 wg0 buff buff 4 []) as (_ & Hread & Hret).
    assert (Hn : is_int 0) by (unfold is_int; lia).
    exact (proj2 (Hret _ _ _ _ _ (Hread eq_refl eq_refl [] 0 (Some (Errno 35)) eq_refl Hn))
             eq_refl (mkRWCancel 3) eq_refl).
Defined.

Lemma machine_names_bounded : names_bounded (machine 0 ["tun0"%string] 0).
Proof.
  intros t n iface. cbn [machine Tun.k_InterfaceByName].
  case_bool_decide as Hin; [|discriminate].
  intros _. apply list_elem_of_singleton in Hin. subst n. vm_compute. discriminate.
Qed.

Lemma CreateTUN_rejects_before_open_witness :
  let K := machine 0 ["tun0"%string] 0 in
  Tun.CreateTUN K 2 "a-name-that-is-too-long" 1420 [] = (Done (inr ErrNameTooLong), []) /\
  Tun.CreateTUN K 2 "tun0" 1420 [] =
    (Done (inr (ErrAlreadyExists "tun0")), [Tun.InterfaceByName "tun0"]).
Proof.
  intros K. split.
  - apply (proj1 (CreateTUN_rejects_before_open K 2 "a-name-that-is-too-long" 1420 [])).
    vm_compute. reflexivity.
  - exact (proj2 (CreateTUN_rejects_before_open K 2 "tun0" 1420 [])
             machine_names_bounded (net.mkInterface 1 1500 "tun0" 0) eq_refl).
Defined.

End TunRuns.

(** * Properties of conn.go *)

Section ConnProperties.
Context {W B E Key : Type} `{Countable Key}.
Context {network : Conn.Networking W B} {bind_impl : Conn.Bind W B}
        {endpoint_impl : Conn.Endpoint E}.

#[local] Abbreviation Peer := (@Conn.Peer E).
#[local] Abbreviation State := (@Conn.State W B E Key _ _).
#[local] Abbreviation Effect := (@Conn.Effect B Key).

(** ** The loop over the peers *)

Lemma clear_peer_Some (m : gmap Key Peer) (l : list Effect) k (p : Peer) e :
  Conn.endpoint p = Some e ->
  Conn.clear_peer (m, l) (k, p) = (<[k := cleared_peer p]> m, l ++ [Conn.DidClearSrc k]).
Proof. intros He. unfold Conn.clear_peer, cleared_peer. cbn [fst snd]. rewrite He. reflexivity. Qed.

Lemma clear_peer_None (m : gmap Key Peer) (l : list Effect) k (p : Peer) :
  Conn.endpoint p = None ->
  Conn.clear_peer (m, l) (k, p) = (m, l) /\ cleared_peer p = p.
Proof. intros He. unfold Conn.clear_peer, cleared_peer. cbn [fst snd]. rewrite He. split; reflexivity. Qed.

Lemma clear_peers_map (kps : list (Key * Peer)) : forall (m : gmap Key Peer) (l : list Effect),
  NoDup kps.*1 ->
  (forall k p, (k, p) ∈ kps -> m !! k = Some p) ->
  fst (fold_left Conn.clear_peer kps (m, l)) = (cleared_peer <$> list_to_map kps) ∪ m.
Proof.
  induction kps as [|[k p] kps IH]; intros m l Hnd Hin.
  - cbn. rewrite fmap_empty. symmetry. apply (left_id_L ∅ (∪)).
  - cbn [fold_left list_to_map foldr fmap list_fmap] in *.
    apply NoDup_cons in Hnd as [Hk Hnd].
    assert (Hmk : m !! k = Some p) by (apply Hin; left).
    assert (Hfresh : (cleared_peer <$> (list_to_map kps : gmap Key Peer)) !! k = None).
    { rewrite lookup_fmap. rewrite (not_elem_of_list_to_map_1 _ _ Hk). reflexivity. }
    rewrite fmap_insert. rewrite <- insert_union_l.
    destruct (Conn.endpoint p) as [e|] eqn:He.
    + rewrite (clear_peer_Some _ _ _ _ _ He).
      rewrite IH; [|assumption|].
      * cbn [fst snd]. symmetry. apply insert_union_r. exact Hfresh.
      * intros k' p' Hin'. rewrite lookup_insert_ne; [apply Hin; right; exact Hin'|].
        intros ->. apply Hk. apply list_elem_of_fmap. exists (k', p'). split; [reflexivity|assumption].
    + destruct (clear_peer_None m l k p He) as [Hstep Hsame].
      rewrite Hstep. cbn [fst snd]. rewrite Hsame.
      rewrite IH; [|assumption|intros k' p' Hin'; apply Hin; right; exact Hin'].
      rewrite insert_union_r by exact Hfresh.
      rewrite insert_id by exact Hmk. reflexivity.
Qed.

Lemma clear_peers_log (kps : list (Key * Peer)) : forall (m : gmap Key Peer) (l : list Effect),
  snd (fold_left Conn.clear_peer kps (m, l)) =
    l ++ (Conn.DidClearSrc <$> (filter (fun kp => has_endpoint kp = true) kps).*1).
Proof.
  induction kps as [|[k p] kps IH]; intros m l.
  - cbn. rewrite app_nil_r. reflexivity.
  - cbn [fold_left]. rewrite filter_cons.
    destruct (Conn.endpoint p) as [e|] eqn:He.
    + rewrite (clear_peer_Some _ _ _ _ _ He).
      rewrite decide_True by (unfold has_endpoint; cbn [snd]; rewrite He; reflexivity).
      rewrite IH. cbn [fmap list_fmap fst]. rewrite <- app_assoc. reflexivity.
    + destruct (clear_peer_None m l k p He) as [-> _].
      rewrite decide_False by (unfold has_endpoint; cbn [snd]; rewrite He; discriminate).
      apply IH.
Qed.

Lemma cleared_app (l1 l2 : list Effect) : cleared (l1 ++ l2) = cleared l1 ++ cleared l2.
Proof. unfold cleared. apply omap_app. Qed.

Lemma cleared_DidClearSrc (ks : list Key) :
  cleared ((Conn.DidClearSrc <$> ks) : list Effect) = ks.
Proof. induction ks as [|k ks IH]; [reflexivity|]. cbn. unfold cleared in IH. rewrite IH. reflexivity. Qed.

Lemma fmap_cleared_peer_union (m : gmap Key Peer) : (cleared_peer <$> m) ∪ m = cleared_peer <$> m.
Proof.
  apply map_eq. intros k. rewrite lookup_union, lookup_fmap.
  destruct (m !! k); reflexivity.
Qed.

(** ** unsafeCloseBind *)

Lemma unsafeCloseBind_spec (s : State) :
  exists w,
    snd (Conn.unsafeCloseBind s) =
      Conn.mkState (Conn.set_bind (Conn.device s) None) w (Conn.log s ++ closing s).
Proof.
  unfold Conn.unsafeCloseBind, closing.
  destruct s as [[up b port mark peers] w l]. cbn [Conn.device Conn.net_bind Conn.world Conn.log].
  destruct b as [b|].
  - destruct (Conn.Close b w) as [err w']. exists w'. reflexivity.
  - exists w. rewrite app_nil_r. reflexivity.
Qed.

Lemma cleared_closing (s : State) : cleared (closing s) = [].
Proof. unfold closing. destruct (Conn.net_bind _); reflexivity. Qed.

Lemma creations_closing (s : State) : creations (closing s) = [].
Proof. unfold closing. destruct (Conn.net_bind _); reflexivity. Qed.

(** ** BindSetMark *)

(** After [BindSetMark mark] the stored mark is [mark], whether or not the
    socket update succeeded. *)
Lemma BindSetMark_stores (s : State) mark :
  Conn.net_fwmark (Conn.device (snd (Conn.BindSetMark mark s))) = mark.
Proof.
  unfold Conn.BindSetMark.
  destruct (Z.eqb_spec (Conn.net_fwmark (Conn.device s)) mark) as [Heq|Hne]; [exact Heq|].
  cbn [Conn.isUp Conn.net_bind Conn.set_fwmark].
  destruct (Conn.isUp (Conn.device s)); [|reflexivity].
  destruct (Conn.net_bind (Conn.device s)) as [b|]; [|reflexivity].
  destruct (Conn.SetMark b mark (Conn.world s)). reflexivity.
Qed.

Lemma BindSetMark_unchanged (s : State) mark :
  Conn.net_fwmark (Conn.device s) = mark -> Conn.BindSetMark mark s = (None, s).
Proof. intros Heq. unfold Conn.BindSetMark. rewrite Heq, Z.eqb_refl. reflexivity. Qed.

(** One call issues at most one [SetMark]. *)
Lemma BindSetMark_marks_once (s : State) mark :
  exists new,
    Conn.log (snd (Conn.BindSetMark mark s)) = Conn.log s ++ new /\
    (length (marks new) <= 1)%nat.
Proof.
  unfold Conn.BindSetMark.
  destruct (Conn.net_fwmark (Conn.device s) =? mark).
  { exists []. rewrite app_nil_r. split; [reflexivity|cbn; lia]. }
  cbn [Conn.isUp Conn.net_bind Conn.set_fwmark].
  destruct (Conn.isUp (Conn.device s)).
  2:{ exists []. rewrite app_nil_r. split; [reflexivity|cbn; lia]. }
  destruct (Conn.net_bind (Conn.device s)) as [b|].
  2:{ exists []. rewrite app_nil_r. split; [reflexivity|cbn; lia]. }
  destruct (Conn.SetMark b mark (Conn.world s)).
  eexists. split; [reflexivity|cbn; lia].
Qed.

(** C7.  Of two consecutive calls of [BindSetMark] with the same mark, the
    second returns nil and changes nothing, so that together they update
    the socket mark at most once; and a call whose mark is the stored one
    returns nil and leaves the device, the sockets and the log of calls as
    they were. *)
Theorem BindSetMark_idempotent (s : State) mark :
  let first := Conn.BindSetMark mark s in
  let second := Conn.BindSetMark mark (snd first) in
  second = (None, snd first) /\
  (exists new, Conn.log (snd second) = Conn.log s ++ new /\ (length (marks new) <= 1)%nat) /\
  (Conn.net_fwmark (Conn.device s) = mark -> first = (None, s)).
Proof.
  intros first second.
  assert (Hsecond : second = (None, snd first))
    by (apply BindSetMark_unchanged, BindSetMark_stores).
  split; [exact Hsecond|]. split.
  - rewrite Hsecond. cbn [snd]. apply BindSetMark_marks_once.
  - apply BindSetMark_unchanged.
Qed.

Section Range.
Variable range : gmap Key Peer -> list (Key * Peer).
Hypothesis range_once : visits_each_once range.

Lemma range_NoDup m : NoDup (range m).*1.
Proof. rewrite (range_once m). apply NoDup_fst_map_to_list. Qed.

Lemma range_elem m k p : (k, p) ∈ range m <-> m !! k = Some p.
Proof. rewrite (range_once m). apply elem_of_map_to_list. Qed.

(** After the loop every peer is the peer with its endpoint cleared, and
    [ClearSrc] ran once for every peer that has an endpoint and for no
    other. *)
Lemma clear_peers_spec (m : gmap Key Peer) (l : list Effect) :
  exists ks,
    Conn.clear_peers range m l = (cleared_peer <$> m, l ++ (Conn.DidClearSrc <$> ks)) /\
    NoDup ks /\
    forall k, k ∈ ks <-> exists p e, m !! k = Some p /\ Conn.endpoint p = Some e.
Proof.
  exists (filter (fun kp => has_endpoint kp = true) (range m)).*1.
  split; [|split].
  - unfold Conn.clear_peers.
    rewrite (surjective_pairing (fold_left _ _ _)).
    rewrite clear_peers_log. rewrite clear_peers_map.
    + rewrite (list_to_map_proper (range m) (map_to_list m)
                 (range_NoDup m) (range_once m)).
      rewrite list_to_map_to_list. rewrite fmap_cleared_peer_union. reflexivity.
    + apply range_NoDup.
    + intros k p. apply range_elem.
  - apply (NoDup_fmap_fst _); [|apply NoDup_filter; eapply NoDup_fmap_1; apply range_NoDup].
    intros k p1 p2 H1 H2.
    apply list_elem_of_filter in H1 as [_ H1]. apply list_elem_of_filter in H2 as [_ H2].
    apply range_elem in H1. apply range_elem in H2. congruence.
  - intros k. rewrite list_elem_of_fmap. split.
    + intros ([k' p] & -> & Hin). apply list_elem_of_filter in Hin as [Hep Hin].
      apply range_elem in Hin. unfold has_endpoint in Hep. cbn [fst snd] in *.
      destruct (Conn.endpoint p) as [e|] eqn:He; [|discriminate].
      exists p, e. split; assumption.
    + intros (p & e & Hk & He). exists (k, p). split; [reflexivity|].
      apply list_elem_of_filter. split; [|apply range_elem; exact Hk].
      unfold has_endpoint. cbn [snd]. rewrite He. reflexivity.
Qed.

Lemma clear_peers_after (m : gmap Key Peer) (l pre post : list Effect) :
  cleared pre = [] -> cleared post = [] ->
  exists new,
    snd (Conn.clear_peers range m (l ++ pre)) ++ post = l ++ new /\
    clears_every_peer m (fst (Conn.clear_peers range m (l ++ pre))) new.
Proof.
  intros Hpre Hpost.
  destruct (clear_peers_spec m (l ++ pre)) as (ks & Hcp & Hnd & Hks).
  rewrite Hcp. cbn [fst snd].
  exists (pre ++ (Conn.DidClearSrc <$> ks) ++ post). split.
  - rewrite <- !app_assoc. reflexivity.
  - unfold clears_every_peer.
    rewrite !cleared_app, Hpre, Hpost, cleared_DidClearSrc, app_nil_r. cbn [app].
    auto.
Qed.

(** C4, as amended.  With the device up: when closing the old bind,
    [CreateBind] and the [SetMark] of a stored mark that is not zero all
    return no error, [BindUpdate] returns nil, leaves every peer with its
    endpoint cleared, and has called [ClearSrc] exactly once for every peer
    that has an endpoint; when one of these steps returns an error,
    [BindUpdate] returns that error, leaves the peers as they were and
    clears none.  With the device not up, [BindUpdate] closes the existing
    bind if there is one and does nothing else: no bind is created and no
    peer is cleared.  The cases are told apart by what the steps return,
    not by what [BindUpdate] returns. *)
Theorem BindUpdate_clears_peers (s : State) :
  let r := Conn.BindUpdate range s in
  let closed := Conn.unsafeCloseBind s in
  let mark := Conn.net_fwmark (Conn.device s) in
  let m := Conn.peers_keyMap (Conn.device s) in
  let m' := Conn.peers_keyMap (Conn.device (snd r)) in
  exists new,
    Conn.log (snd r) = Conn.log s ++ new /\
    (forall e, fst closed = Some e ->
       fst r = Done (Some e) /\ clears_no_peer m m' new) /\
    (fst closed = None -> Conn.isUp (Conn.device s) = true ->
     forall b port err w,
       Conn.CreateBind (Conn.net_port (Conn.device s)) (Conn.world (snd closed))
         = (b, port, err, w) ->
       (forall e, err = Some e ->
          fst r = Done (Some e) /\ clears_no_peer m m' new) /\
       (forall b' e w',
          err = None -> mark <> 0 -> b = Some b' ->
          Conn.SetMark b' mark w = (Some e, w') ->
          fst r = Done (Some e) /\ clears_no_peer m m' new) /\
       (err = None ->
        mark = 0 \/ (exists b' w', b = Some b' /\ Conn.SetMark b' mark w = (None, w')) ->
        fst r = Done None /\ clears_every_peer m m' new)) /\
    (Conn.isUp (Conn.device s) = false ->
       fst r = Done (fst closed) /\
       new = closing s /\
       Conn.net_bind (Conn.device (snd r)) = None /\
       creations new = [] /\
       clears_no_peer m m' new).
Proof.
  intros r closed mark m m'. subst r closed mark m m'.
  unfold Conn.BindUpdate, clears_no_peer.
  destruct (unsafeCloseBind_spec s) as [w0 Hs0].
  destruct (Conn.unsafeCloseBind s) as [err0 s0]. cbn [fst snd] in *. subst s0.
  cbn [Conn.device Conn.world Conn.log Conn.isUp Conn.set_bind Conn.net_port
       Conn.net_fwmark Conn.peers_keyMap].
  destruct err0 as [e0|].
  { exists (closing s). cbn [fst snd Conn.log Conn.device Conn.peers_keyMap Conn.net_bind].
    split; [reflexivity|]. split; [|split; [discriminate|]].
    - intros e [= <-]. auto using cleared_closing.
    - intros _. auto 6 using cleared_closing, creations_closing. }
  destruct (Conn.isUp (Conn.device s)) eqn:Hup.
  2:{ exists (closing s). cbn [fst snd Conn.log Conn.device Conn.peers_keyMap Conn.net_bind].
      split; [reflexivity|]. split; [discriminate|]. split; [discriminate|].
      intros _. auto 6 using cleared_closing, creations_closing. }
  destruct (Conn.CreateBind (Conn.net_port (Conn.device s)) w0) as [[[b port] err] w1].
  destruct err as [e|].
  { eexists. cbn [fst snd Conn.log Conn.device Conn.peers_keyMap Conn.set_port Conn.set_bind].
    split; [rewrite <- app_assoc; reflexivity|].
    split; [discriminate|]. split; [|discriminate].
    intros _ _ b0 port0 err1 w [= <- <- <- <-].
    split; [|split; [discriminate|discriminate]].
    intros e' [= <-]. split; [reflexivity|]. split; [reflexivity|].
    rewrite cleared_app, cleared_closing. reflexivity. }
  cbn [Conn.set_port Conn.set_bind Conn.net_fwmark Conn.peers_keyMap Conn.isUp
       Conn.net_bind Conn.net_port].
  set (create := Conn.DidCreateBind (Conn.net_port (Conn.device s)) : Effect).
  destruct (Z.eqb_spec (Conn.net_fwmark (Conn.device s)) 0) as [Hmark|Hmark]; cbn [negb].
  - (* the stored mark is zero: no SetMark *)
    destruct (clear_peers_after (Conn.peers_keyMap (Conn.device s)) (Conn.log s)
                (closing s ++ [create])
                [Conn.DidGo Conn.ipv4_Version b; Conn.DidGo Conn.ipv6_Version b;
                 Conn.DidLog "UDP bind has been updated"])
      as (new & Hlog & Hclr);
      [rewrite cleared_app, cleared_closing; reflexivity|reflexivity|].
    exists new. rewrite <- !app_assoc.
    rewrite (surjective_pairing (Conn.clear_peers _ _ _)).
    cbn [fst snd Conn.log Conn.device Conn.peers_keyMap Conn.set_keyMap].
    split; [exact Hlog|]. split; [discriminate|]. split; [|discriminate].
    intros _ _ b0 port0 err1 w [= <- <- <- <-].
    split; [discriminate|]. split; [intros; contradiction|].
    intros _ _. split; [reflexivity|exact Hclr].
  - destruct b as [b'|].
    + destruct (Conn.SetMark b' (Conn.net_fwmark (Conn.device s)) w1) as [[e|] w2] eqn:Hset.
      * eexists. cbn [fst snd Conn.log Conn.device Conn.peers_keyMap].
        split; [rewrite <- !app_assoc; reflexivity|].
        split; [discriminate|]. split; [|discriminate].
        intros _ _ b0 port0 err1 w [= <- <- <- <-].
        split; [discriminate|]. split.
        -- intros b1 e1 w' _ _ [= <-]. rewrite Hset. intros [= <- <-].
           split; [reflexivity|]. split; [reflexivity|].
           rewrite !cleared_app, cleared_closing. reflexivity.
        -- intros _ [Hzero|(b1 & w' & [= <-] & Hok)]; [contradiction|].
           rewrite Hset in Hok. discriminate.
      * destruct (clear_peers_after (Conn.peers_keyMap (Conn.device s)) (Conn.log s)
                    (closing s ++ [create] ++
                     [Conn.DidSetMark (Some b') (Conn.net_fwmark (Conn.device s))])
                    [Conn.DidGo Conn.ipv4_Version (Some b'); Conn.DidGo Conn.ipv6_Version (Some b');
                     Conn.DidLog "UDP bind has been updated"])
          as (new & Hlog & Hclr);
          [rewrite !cleared_app, cleared_closing; reflexivity|reflexivity|].
        exists new. rewrite <- !app_assoc.
        rewrite (surjective_pairing (Conn.clear_peers _ _ _)).
        cbn [fst snd Conn.log Conn.device Conn.peers_keyMap Conn.set_keyMap].
        split; [exact Hlog|]. split; [discriminate|]. split; [|discriminate].
        intros _ _ b0 port0 err1 w [= <- <- <- <-].
        split; [discriminate|]. split.
        -- intros b1 e1 w' _ _ [= <-]. rewrite Hset. discriminate.
        -- intros _ _. split; [reflexivity|exact Hclr].
    + (* a mark to set and no bind: the call panics before any peer is cleared *)
      eexists. cbn [fst snd Conn.log Conn.device Conn.peers_keyMap].
      split; [rewrite <- !app_assoc; reflexivity|].
      split; [discriminate|]. split; [|discriminate].
      intros _ _ b0 port0 err1 w [= <- <- <- <-].
      split; [discriminate|]. split; [discriminate|].
      intros _ [Hzero|(b1 & w' & Hb & _)]; [contradiction|discriminate].
Qed.

(** C10.  [BindUpdate] on a device that is up, once the old bind is closed:
    when [CreateBind] returns an error, [BindUpdate] returns it and leaves
    the network state with no bind and port 0, whatever port was stored;
    when [CreateBind] succeeds and [SetMark] on the new bind returns an
    error, [BindUpdate] returns it and the new bind stays installed, with
    the port [CreateBind] reported. *)
Theorem BindUpdate_not_atomic (s : State) b port err w :
  Conn.isUp (Conn.device s) = true ->
  fst (Conn.unsafeCloseBind s) = None ->
  Conn.CreateBind (Conn.net_port (Conn.device s)) (Conn.world (snd (Conn.unsafeCloseBind s)))
    = (b, port, err, w) ->
  let r := Conn.BindUpdate range s in
  (forall e, err = Some e ->
     fst r = Done (Some e) /\
     Conn.net_bind (Conn.device (snd r)) = None /\
     Conn.net_port (Conn.device (snd r)) = 0) /\
  (forall b' e w',
     err = None -> b = Some b' -> Conn.net_fwmark (Conn.device s) <> 0 ->
     Conn.SetMark b' (Conn.net_fwmark (Conn.device s)) w = (Some e, w') ->
     fst r = Done (Some e) /\
     Conn.net_bind (Conn.device (snd r)) = Some b' /\
     Conn.net_port (Conn.device (snd r)) = port).
Proof.
  intros Hup Hclose Hcreate r. subst r. unfold Conn.BindUpdate.
  destruct (unsafeCloseBind_spec s) as [w0 Hs0].
  destruct (Conn.unsafeCloseBind s) as [err0 s0]. cbn [fst snd] in *. subst s0 err0.
  cbn [Conn.device Conn.world Conn.log Conn.isUp Conn.set_bind Conn.net_port
       Conn.net_fwmark Conn.peers_keyMap] in *.
  rewrite Hup, Hcreate. split.
  - intros e ->. cbn. auto.
  - intros b' e w' -> -> Hmark Hset.
    cbn [Conn.set_port Conn.set_bind Conn.net_fwmark].
    apply Z.eqb_neq in Hmark. rewrite Hmark. cbn [negb]. rewrite Hset. cbn. auto.
Qed.

End Range.

End ConnProperties.

(** * conn.go on the test networking *)

Section ConnRuns.
Import Doubles.

Lemma map_to_list_once : visits_each_once in_map_order.
Proof. intros m. reflexivity. Qed.

(** C4, the counterexample.  The device is up and [CreateBind] fails:
    [BindUpdate] returns the error and alice keeps her cached source. *)
Lemma BindUpdate_failed_bind_clears_nothing :
  ~ (forall s : Conn.State (W := Sockets) (B := nat) (E := UDPEndpoint) (Key := string),
       Conn.isUp (Conn.device s) = true ->
       forall k p e,
         Conn.peers_keyMap (Conn.device s) !! k = Some p ->
         Conn.endpoint p = Some e ->
         Conn.peers_keyMap (Conn.device (snd (Conn.BindUpdate in_map_order s))) !! k =
           Some (Conn.mkPeer (Some (Conn.ClearSrc e)))).
Proof.
  intros Hclaim.
  specialize (Hclaim (start 0 no_bind) eq_refl "alice"%string alice _ eq_refl eq_refl).
  vm_compute in Hclaim. discriminate.
Qed.

(** C4 on two runs.  Every step succeeds: closing bind 0, [CreateBind],
    which returns bind 1, and [SetMark] of mark 7 on it; [BindUpdate]
    returns nil and every peer is cleared.  [SetMark] fails: [BindUpdate]
    returns its error and no peer is cleared. *)
Lemma BindUpdate_clears_peers_witness :
  let r := Conn.BindUpdate in_map_order (start 7 working) in
  let r' := Conn.BindUpdate in_map_order (start 7 no_mark) in
  visits_each_once in_map_order /\
  (exists new,
     Conn.log (snd r) = [] ++ new /\
     fst r = Done None /\
     clears_every_peer peers (Conn.peers_keyMap (Conn.device (snd r))) new) /\
  (exists new,
     Conn.log (snd r') = [] ++ new /\
     fst r' = Done (Some (ErrLib "operation not permitted")) /\
     clears_no_peer peers (Conn.peers_keyMap (Conn.device (snd r'))) new).
Proof.
  intros r r'. split; [exact map_to_list_once|]. split.
  - destruct (BindUpdate_clears_peers in_map_order map_to_list_once (start 7 working))
      as (new & Hlog & _ & Hup & _).
    exists new. split; [exact Hlog|].
    apply (Hup eq_refl eq_refl (Some 1%nat) 51820 None (mkSockets false false false 2) eq_refl);
      [reflexivity|].
    right. exists 1%nat, (mkSockets false false false 2). split; reflexivity.
  - destruct (BindUpdate_clears_peers in_map_order map_to_list_once (start 7 no_mark))
      as (new & Hlog & _ & Hup & _).
    exists new. split; [exact Hlog|].
    apply (Hup eq_refl eq_refl (Some 1%nat) 51820 None (mkSockets false true false 2) eq_refl)
      with (b' := 1%nat) (w' := mkSockets false true false 2);
      [reflexivity|discriminate|reflexivity|reflexivity].
Defined.

(** The same run, spelled out: alice and bob are cleared once each, carol
    has no endpoint. *)
Example BindUpdate_run :
  let r := Conn.BindUpdate in_map_order (start 7 working) in
  fst r = Done None /\
  Conn.log (snd r) =
    [Conn.DidClose 0%nat; Conn.DidCreateBind 51820; Conn.DidSetMark (Some 1%nat) 7;
     Conn.DidClearSrc "alice"%string; Conn.DidClearSrc "bob"%string;
     Conn.DidGo 4 (Some 1%nat); Conn.DidGo 6 (Some 1%nat);
     Conn.DidLog "UDP bind has been updated"] /\
  Conn.peers_keyMap (Conn.device (snd r)) !! "alice"%string =
    Some (Conn.mkPeer (Some (mkEndpoint None "198.51.100.7:51820"))).
Proof. repeat split; vm_compute; reflexivity. Qed.

Lemma BindSetMark_idempotent_witness :
  let s := start 0 working in
  let once := snd (Conn.BindSetMark 7 s) in
  Conn.BindSetMark 7 once = (None, once) /\
  marks (Conn.log (snd (Conn.BindSetMark 7 once))) = [(Some 0%nat, 7)] /\
  Conn.BindSetMark 0 s = (None, s).
Proof.
  intros s once. split; [|split].
  - exact (proj1 (BindSetMark_idempotent s 7)).
  - reflexivity.
  - exact (proj2 (proj2 (BindSetMark_idempotent s 0)) eq_refl).
Defined.

Lemma BindUpdate_not_atomic_witness :
  let failed_bind := Conn.BindUpdate in_map_order (start 7 no_bind) in
  let failed_mark := Conn.BindUpdate in_map_order (start 7 no_mark) in
  (fst failed_bind = Done (Some (ErrLib "address already in use")) /\
   Conn.net_bind (Conn.device (snd failed_bind)) = None /\
   Conn.net_port (Conn.device (snd failed_bind)) = 0) /\
  (fst failed_mark = Done (Some (ErrLib "operation not permitted")) /\
   Conn.net_bind (Conn.device (snd failed_mark)) = Some 1%nat /\
   Conn.net_port (Conn.device (snd failed_mark)) = 51820).
Proof.
  intros failed_bind failed_mark. split.
  - exact (proj1 (BindUpdate_not_atomic in_map_order (start 7 no_bind)
                    None 51820 (Some (ErrLib "address already in use")) no_bind
                    eq_refl eq_refl eq_refl)
             (ErrLib "address already in use") eq_refl).
  - assert (Hmark : (7 : Z) <> 0) by discriminate.
    exact (proj2 (BindUpdate_not_atomic in_map_order (start 7 no_mark)
                    (Some 1%nat) 51820 None (mkSockets false true false 2)
                    eq_refl eq_refl eq_refl)
             1%nat (ErrLib "operation not permitted") (mkSockets false true false 2)
             eq_refl eq_refl Hmark eq_refl).
Defined.

End ConnRuns.

(** * More of package tun *)

Section TunMore.
Context {P : Platform}.

(** ** The route monitor, on any input *)

Lemma listener_turn_dropped tunIfindex st inp :
  dropped tunIfindex inp = true ->
  Tun.listener_turn tunIfindex st inp = Tun.Continue st [].
Proof.
  unfold dropped, Tun.listener_turn. intros Hd.
  destruct (Tun.rd_err inp) as [err|]; [rewrite Hd; reflexivity|].
  destruct (Tun.rd_n inp <? 14); [reflexivity|]. cbn [orb] in Hd.
  destruct (index (Tun.rd_data inp) 3) as [ty|]; [|discriminate].
  destruct (negb (ty =? RTM_IFINFO)); [reflexivity|]. cbn [orb] in Hd.
  destruct (Tun.uint16_at (Tun.rd_data inp) 12) as [ifindex|]; [|discriminate].
  rewrite Hd. reflexivity.
Qed.

Lemma listener_loop_dropped tunIfindex inputs : forall st,
  Tun.listener_loop tunIfindex st (filter (fun inp => dropped tunIfindex inp = false) inputs) =
  Tun.listener_loop tunIfindex st inputs.
Proof.
  induction inputs as [|inp inputs IH]; intros st; [reflexivity|].
  rewrite filter_cons. destruct (dropped tunIfindex inp) eqn:Hd.
  - rewrite decide_False by discriminate. cbn [Tun.listener_loop].
    rewrite (listener_turn_dropped _ _ _ Hd), IH.
    destruct (Tun.listener_loop tunIfindex st inputs). reflexivity.
  - rewrite decide_True by reflexivity. cbn [Tun.listener_loop].
    destruct (Tun.listener_turn tunIfindex st inp); [rewrite IH|..]; reflexivity.
Qed.

(** X1.  Interrupted reads and the messages the filters drop leave no trace:
    the monitor sends the same events and ends in the same way with or
    without them in its input. *)
Theorem route_monitor_ignores_dropped tunIfindex inputs :
  Tun.routineRouteListener tunIfindex
    (filter (fun inp => dropped tunIfindex inp = false) inputs) =
  Tun.routineRouteListener tunIfindex inputs.
Proof. apply listener_loop_dropped. Qed.

Lemma listener_turn_alternating tunIfindex st inp st' sent :
  Tun.listener_turn tunIfindex st inp = Tun.Continue st' sent ->
  flag_after (Tun.statusUp st) sent = Tun.statusUp st' /\
  forall rest, alternating (Tun.statusUp st') rest ->
               alternating (Tun.statusUp st) (sent ++ rest).
Proof.
  unfold Tun.listener_turn.
  assert (Hsame : Tun.Continue st [] = Tun.Continue st' sent ->
    flag_after (Tun.statusUp st) sent = Tun.statusUp st' /\
    forall rest, alternating (Tun.statusUp st') rest ->
                 alternating (Tun.statusUp st) (sent ++ rest)).
  { intros [= <- <-]. split; [reflexivity|]. intros rest Hr. exact Hr. }
  destruct (Tun.rd_err inp) as [err|].
  { destruct (Tun.is_EINTR err); [exact Hsame|discriminate]. }
  destruct (Tun.rd_n inp <? 14); [exact Hsame|].
  destruct (index (Tun.rd_data inp) 3) as [ty|]; [|discriminate].
  destruct (negb (ty =? RTM_IFINFO)); [exact Hsame|].
  destruct (Tun.uint16_at (Tun.rd_data inp) 12) as [ifindex|]; [|discriminate].
  destruct (negb (ifindex =? tunIfindex)); [exact Hsame|].
  destruct (Tun.if_lookup inp) as [iface|err]; [|discriminate].
  intros [= <- <-]. cbn [Tun.statusUp].
  destruct (Tun.flag_up iface), (Tun.statusUp st),
    (negb (net.MTU iface =? Tun.statusMTU st)); cbn; auto.
Qed.

Lemma flag_after_app up evs1 evs2 :
  flag_after up (evs1 ++ evs2) = flag_after (flag_after up evs1) evs2.
Proof. unfold flag_after. apply fold_left_app. Qed.

Lemma listener_loop_alternating tunIfindex inputs : forall st,
  alternating (Tun.statusUp st) (fst (Tun.listener_loop tunIfindex st inputs)) /\
  forall st', snd (Tun.listener_loop tunIfindex st inputs) = Tun.Listening st' ->
    Tun.statusUp st' = flag_after (Tun.statusUp st) (fst (Tun.listener_loop tunIfindex st inputs)).
Proof.
  induction inputs as [|inp inputs IH]; intros st.
  - cbn. split; [exact I|]. intros st' [= <-]. reflexivity.
  - cbn [Tun.listener_loop].
    destruct (Tun.listener_turn tunIfindex st inp) as [st1 sent| |] eqn:Hturn;
      [|cbn; split; [exact I|discriminate]..].
    destruct (listener_turn_alternating _ _ _ _ _ Hturn) as [Hflag Halt].
    destruct (IH st1) as [IHa IHf].
    destruct (Tun.listener_loop tunIfindex st1 inputs) as [evs e]. cbn [fst snd] in *.
    split; [apply Halt, IHa|].
    intros st' He. rewrite flag_after_app, Hflag. apply IHf, He.
Qed.

(** X2.  Whatever the kernel delivers, the Up and Down events the monitor
    sends alternate, starting with Up; and while it keeps listening, the flag
    it remembers is the one its last Up or Down event announced. *)
Theorem route_monitor_alternates tunIfindex inputs :
  alternating false (fst (Tun.routineRouteListener tunIfindex inputs)) /\
  forall st, snd (Tun.routineRouteListener tunIfindex inputs) = Tun.Listening st ->
    Tun.statusUp st = flag_after false (fst (Tun.routineRouteListener tunIfindex inputs)).
Proof. exact (listener_loop_alternating tunIfindex inputs (Tun.mkStatus false 0)). Qed.

Lemma listener_loop_app tunIfindex pre : forall st st' rest,
  snd (Tun.listener_loop tunIfindex st pre) = Tun.Listening st' ->
  Tun.listener_loop tunIfindex st (pre ++ rest) =
    (fst (Tun.listener_loop tunIfindex st pre) ++ fst (Tun.listener_loop tunIfindex st' rest),
     snd (Tun.listener_loop tunIfindex st' rest)).
Proof.
  induction pre as [|inp pre IH]; intros st st' rest.
  - cbn. intros [= <-]. destruct (Tun.listener_loop tunIfindex st rest). reflexivity.
  - cbn [Tun.listener_loop app].
    destruct (Tun.listener_turn tunIfindex st inp) as [st1 sent| |]; [|discriminate..].
    specialize (IH st1 st' rest).
    destruct (Tun.listener_loop tunIfindex st1 pre) as [evs e]. cbn [fst snd] in *.
    intros He. rewrite (IH He). rewrite app_assoc. reflexivity.
Qed.

(** X3.  A read of the routing socket that fails with an error other than
    EINTR, or a notification for the monitor's interface whose lookup fails,
    ends the monitor: the error is sent on tun.errors, the events sent so
    far stand, and nothing that the kernel delivers afterwards is looked at. *)
Theorem route_monitor_stops_on_error tunIfindex pre inp post st err :
  snd (Tun.routineRouteListener tunIfindex pre) = Tun.Listening st ->
  (Tun.rd_err inp = Some err /\ Tun.is_EINTR err = false) \/
  (Tun.rd_err inp = None /\ 14 <= Tun.rd_n inp /\
   index (Tun.rd_data inp) 3 = Some RTM_IFINFO /\
   Tun.uint16_at (Tun.rd_data inp) 12 = Some tunIfindex /\
   Tun.if_lookup inp = inr err) ->
  Tun.routineRouteListener tunIfindex (pre ++ inp :: post) =
    (fst (Tun.routineRouteListener tunIfindex pre), Tun.Exited err).
Proof.
  unfold Tun.routineRouteListener. intros Hpre Hfatal.
  rewrite (listener_loop_app _ _ _ _ _ Hpre). cbn [Tun.listener_loop].
  assert (Hturn : Tun.listener_turn tunIfindex st inp = Tun.Exit err).
  { unfold Tun.listener_turn.
    destruct Hfatal as [[Herr Hno]|(Herr & Hn & Hty & Hidx & Hif)].
    - rewrite Herr, Hno. reflexivity.
    - rewrite Herr, Hty, Hidx, Hif.
      destruct (Z.ltb_spec (Tun.rd_n inp) 14); [lia|].
      rewrite !Z.eqb_refl. reflexivity. }
  rewrite Hturn. cbn [fst snd]. rewrite app_nil_r. reflexivity.
Qed.

(** ** Traces only grow *)

Lemma extends_ret {A} (a : A) : extends (Tun.ret a).
Proof. intros t. exists []. cbn. rewrite app_nil_r. reflexivity. Qed.

Lemma extends_panic {A} : extends (@Tun.panic A).
Proof. intros t. exists []. cbn. rewrite app_nil_r. reflexivity. Qed.

Lemma extends_out_of_fuel {A} : extends (@Tun.out_of_fuel A).
Proof. intros t. exists []. cbn. rewrite app_nil_r. reflexivity. Qed.

Lemma extends_must {A} (o : option A) : extends (Tun.must o).
Proof. destruct o; [apply extends_ret|apply extends_panic]. Qed.

Lemma extends_call {A} c (answer : Tun.Trace -> A) : extends (Tun.call c answer).
Proof. intros t. exists [c]. reflexivity. Qed.

Lemma extends_bind {A B} (m : Tun.M A) (f : A -> Tun.M B) :
  extends m -> (forall a, extends (f a)) -> extends (Tun.bind m f).
Proof.
  intros Hm Hf t. unfold Tun.bind. destruct (Hm t) as [new1 H1].
  destruct (m t) as [[a| |] t1]; cbn [snd] in H1; subst t1.
  - destruct (Hf a (t ++ new1)) as [new2 H2]. exists (new1 ++ new2).
    rewrite H2, app_assoc. reflexivity.
  - exists new1. reflexivity.
  - exists new1. reflexivity.
Qed.

Create HintDb grows.

Ltac grow :=
  unfold mbind, mret, Tun.M_bind, Tun.M_ret;
  repeat first
    [ solve [auto 1 with grows nocore]
    | apply extends_ret | apply extends_panic | apply extends_out_of_fuel
    | apply extends_must | apply extends_call
    | apply extends_bind; [|intros]
    | match goal with
      | |- extends (match ?x with _ => _ end) => destruct x
      end ].

Section Grows.
Variable K : Tun.Kernel.

Lemma tunName_scan_extends fuel : forall confd procPid i,
  extends (Tun.tunName_scan K fuel confd procPid i).
Proof.
  induction fuel as [|fuel IH]; intros confd procPid i; cbn [Tun.tunName_scan].
  - apply extends_out_of_fuel.
  - unfold Tun.net_InterfaceByIndex, Tun.ioctl. grow; apply IH.
Qed.
Hint Resolve tunName_scan_extends : grows.

Lemma tunName_extends fuel fd : extends (Tun.tunName K fuel fd).
Proof.
  unfold Tun.tunName, Tun.ioctl, Tun.unix_Socket, Tun.os_Getpid, Tun.unix_Close. grow.
Qed.
Hint Resolve tunName_extends : grows.

Lemma renameTun_extends oldName newName : extends (Tun.renameTun K oldName newName).
Proof. unfold Tun.renameTun, Tun.ioctl, Tun.unix_Socket, Tun.unix_Close. grow. Qed.
Hint Resolve renameTun_extends : grows.

Lemma setMTU_extends tun n : extends (Tun.setMTU K tun n).
Proof. unfold Tun.setMTU, Tun.ioctl, Tun.unix_Socket, Tun.unix_Close. grow. Qed.
Hint Resolve setMTU_extends : grows.

Lemma Name_extends fuel tun : extends (Tun.Name K fuel tun).
Proof. unfold Tun.Name. grow. Qed.
Hint Resolve Name_extends : grows.

Lemma Close_extends tun : extends (Tun.Close K tun).
Proof.
  unfold Tun.Close, Tun.File_Close, Tun.RWCancel_Cancel, Tun.unix_Shutdown, Tun.unix_Close.
  grow.
Qed.
Hint Resolve Close_extends : grows.

Lemma CreateTUNFromFile_extends fuel file mtu : extends (Tun.CreateTUNFromFile K fuel file mtu).
Proof.
  unfold Tun.CreateTUNFromFile, Tun.File_Close, Tun.net_InterfaceByName,
    Tun.rwcancel_NewRWCancel, Tun.unix_Socket, Tun.go_routineRouteListener.
  grow.
Qed.

End Grows.

(** ** The helpers on a control socket *)

Lemma renameTun_calls (K : Tun.Kernel) oldName newName t :
  exists err, Tun.renameTun K oldName newName t =
    (Done err, t ++ control_calls K t SIOCSIFNAME
                      (Tun.ArgIfreqPtr (Tun.name_array oldName) (Tun.name_array newName))) /\
    forall e, snd (Tun.k_Socket K t AF_INET SOCK_DGRAM 0) = Some e -> err = Some e.
Proof.
  unfold Tun.renameTun, control_calls, Tun.unix_Socket, Tun.ioctl, Tun.unix_Close. run.
  destruct (Tun.k_Socket K t AF_INET SOCK_DGRAM 0) as [confd [e|]]; cbn [snd].
  - eexists. split; [reflexivity|]. intros e' [= <-]. reflexivity.
  - destruct (Tun.k_Ioctl K _ confd SIOCSIFNAME _) as [errno out].
    destruct (negb (errno =? 0)); eexists; (split; [rewrite <- !app_assoc; reflexivity|discriminate]).
Qed.

Lemma setMTU_calls (K : Tun.Kernel) tun n t :
  exists err, Tun.setMTU K tun n t =
    (Done err, t ++ control_calls K t SIOCSIFMTU
                      (Tun.ArgIfreqMtu (Tun.name_array (Tun.name tun)) (n mod 2 ^ 32))) /\
    forall e, snd (Tun.k_Socket K t AF_INET SOCK_DGRAM 0) = Some e -> err = Some e.
Proof.
  unfold Tun.setMTU, control_calls, Tun.unix_Socket, Tun.ioctl, Tun.unix_Close. run.
  destruct (Tun.k_Socket K t AF_INET SOCK_DGRAM 0) as [confd [e|]]; cbn [snd].
  - eexists. split; [reflexivity|]. intros e' [= <-]. reflexivity.
  - destruct (Tun.k_Ioctl K _ confd SIOCSIFMTU _) as [errno out].
    destruct (negb (errno =? 0)); eexists; (split; [rewrite <- !app_assoc; reflexivity|discriminate]).
Qed.

Lemma MTU_calls (K : Tun.Kernel) (SIOCGIFMTU : Z) tun t :
  exists r, Tun.MTU K SIOCGIFMTU tun t =
    (Done r, t ++ control_calls K t SIOCGIFMTU
                    (Tun.ArgIfreqMtu (Tun.name_array (Tun.name tun)) 0)) /\
    forall e, snd (Tun.k_Socket K t AF_INET SOCK_DGRAM 0) = Some e -> r = (0, Some e).
Proof.
  unfold Tun.MTU, control_calls, Tun.unix_Socket, Tun.ioctl, Tun.unix_Close. run.
  destruct (Tun.k_Socket K t AF_INET SOCK_DGRAM 0) as [confd [e|]]; cbn [snd].
  - eexists. split; [reflexivity|]. intros e' [= <-]. reflexivity.
  - destruct (Tun.k_Ioctl K _ confd SIOCGIFMTU _) as [errno out].
    destruct (negb (errno =? 0)); eexists; (split; [rewrite <- !app_assoc; reflexivity|discriminate]).
Qed.

(** X4.  [renameTun], [setMTU] and [MTU] each open one control socket, issue
    their one ioctl on it and close that socket, whatever the ioctl returns;
    when the socket cannot be opened they return its error and issue
    nothing else.  None of them leaves a control socket open. *)
Theorem control_socket_is_closed (K : Tun.Kernel) (SIOCGIFMTU : Z) tun oldName newName n t :
  (exists err, Tun.renameTun K oldName newName t =
     (Done err, t ++ control_calls K t SIOCSIFNAME
                       (Tun.ArgIfreqPtr (Tun.name_array oldName) (Tun.name_array newName))) /\
     forall e, snd (Tun.k_Socket K t AF_INET SOCK_DGRAM 0) = Some e -> err = Some e) /\
  (exists err, Tun.setMTU K tun n t =
     (Done err, t ++ control_calls K t SIOCSIFMTU
                       (Tun.ArgIfreqMtu (Tun.name_array (Tun.name tun)) (n mod 2 ^ 32))) /\
     forall e, snd (Tun.k_Socket K t AF_INET SOCK_DGRAM 0) = Some e -> err = Some e) /\
  (exists r, Tun.MTU K SIOCGIFMTU tun t =
     (Done r, t ++ control_calls K t SIOCGIFMTU
                     (Tun.ArgIfreqMtu (Tun.name_array (Tun.name tun)) 0)) /\
     forall e, snd (Tun.k_Socket K t AF_INET SOCK_DGRAM 0) = Some e -> r = (0, Some e)).
Proof.
  split; [apply renameTun_calls|]. split; [apply setMTU_calls|apply MTU_calls].
Qed.

(** ** tunName *)

Section Discovery.
Variable K : Tun.Kernel.

Lemma tunName_scan_sound fuel : forall confd procPid i t name t',
  Tun.tunName_scan K fuel confd procPid i t = (Done (Some name), t') ->
  exists j t1 iface,
    Tun.k_InterfaceByIndex K t1 j = inl iface /\ net.Name iface = name /\
    owned_by K (t1 ++ [Tun.InterfaceByIndex j]) confd iface procPid.
Proof.
  induction fuel as [|fuel IH]; intros confd procPid i t name t'; cbn [Tun.tunName_scan].
  - discriminate.
  - unfold Tun.net_InterfaceByIndex, Tun.ioctl. run.
    destruct (Tun.k_InterfaceByIndex K t i) as [iface|e] eqn:Hif; [|discriminate].
    destruct (Tun.k_Ioctl K (t ++ [Tun.InterfaceByIndex i]) confd SIOCGIFSTATUS _)
      as [errno stored] eqn:Hio.
    destruct (Z.eqb_spec errno 0) as [Herrno|_]; cbn [negb]; [|apply IH].
    cbv zeta. set (Ascii := Tun.ifstatus_Ascii stored).
    destruct (Z.ltb_spec (IndexByte Ascii 0) 1) as [_|Hnul]; [apply IH|].
    destruct (Sscanf_pid (slice_to Ascii (IndexByte Ascii 0))) as [pidNum|] eqn:Hscan; [|apply IH].
    destruct (Z.eqb_spec pidNum procPid) as [Hpid|_]; [|apply IH].
    intros [= <- <-]. exists i, t, iface. split; [exact Hif|]. split; [reflexivity|].
    unfold owned_by. rewrite Hio. subst. auto.
Qed.

(** X5.  A name that [tunName] returns is the name of an interface that the
    kernel listed and whose status names this process: asked on the control
    socket, the ioctl succeeded, and the text up to the first NUL of the
    800-byte status field, the kernel's bytes laid over zeroes, was not
    empty and scanned to the pid of this process. *)
Theorem tunName_sound fuel fd t name t' :
  Tun.tunName K fuel fd t = (Done (name, None), t') ->
  name <> ""%string ->
  let t1 := t ++ [Tun.Ioctl fd _TUNSIFPID Tun.ArgZero] in
  let confd := fst (Tun.k_Socket K t1 AF_INET SOCK_DGRAM 0) in
  let procPid := Tun.k_Getpid K (t1 ++ [Tun.Socket AF_INET SOCK_DGRAM 0]) in
  exists j t2 iface,
    Tun.k_InterfaceByIndex K t2 j = inl iface /\ net.Name iface = name /\
    owned_by K (t2 ++ [Tun.InterfaceByIndex j]) confd iface procPid.
Proof.
  unfold Tun.tunName, Tun.ioctl, Tun.unix_Socket, Tun.os_Getpid, Tun.unix_Close. run.
  destruct (Tun.k_Ioctl K t fd _TUNSIFPID Tun.ArgZero) as [errno out].
  destruct (negb (errno =? 0)); [discriminate|].
  destruct (Tun.k_Socket K _ AF_INET SOCK_DGRAM 0) as [confd [e|]]; [discriminate|].
  cbn [fst].
  destruct (Tun.tunName_scan K fuel confd _ 1 _) as [[[found|]| |] t2] eqn:Hscan;
    try discriminate.
  - intros [= <- <-] _. exact (tunName_scan_sound _ _ _ _ _ _ _ Hscan).
  - intros [= <- <-] Hne. contradiction.
Qed.

Lemma tunName_scan_returns fuel : forall (n : nat) confd procPid i t,
  (n < fuel)%nat -> 0 <= i -> i + Z.of_nat n < 2 ^ 63 - 1 ->
  (forall t', exists e, Tun.k_InterfaceByIndex K t' (i + Z.of_nat n) = inr e) ->
  exists r t', Tun.tunName_scan K fuel confd procPid i t = (Done r, t').
Proof.
  induction fuel as [|fuel IH]; intros n confd procPid i t Hfuel Hi Hbound Hend; [lia|].
  cbn [Tun.tunName_scan]. unfold Tun.net_InterfaceByIndex, Tun.ioctl. run.
  destruct (Tun.k_InterfaceByIndex K t i) as [iface|e] eqn:Hif; [|eauto].
  destruct n as [|n].
  { destruct (Hend t) as [e He]. rewrite Z.add_0_r in He. congruence. }
  assert (Hnext : forall t1, exists r t',
            Tun.tunName_scan K fuel confd procPid (int_add i 1) t1 = (Done r, t')).
  { intros t1. unfold int_add. rewrite wrap64_small by (unfold is_int; lia).
    apply (IH n); try lia.
    intros t'. replace (i + 1 + Z.of_nat n) with (i + Z.of_nat (S n)) by lia. apply Hend. }
  destruct (Tun.k_Ioctl K _ confd SIOCGIFSTATUS _) as [errno stored].
  destruct (negb (errno =? 0)); [apply Hnext|]. cbv zeta.
  destruct (IndexByte (Tun.ifstatus_Ascii stored) 0 <? 1); [apply Hnext|].
  destruct (Sscanf_pid _) as [pidNum|]; [|apply Hnext].
  destruct (pidNum =? procPid); [eauto|apply Hnext].
Qed.

(** X6.  On a machine whose interface indices end, [n] being the last one
    that may be in use, [tunName] returns as soon as its loop is given more
    than [n] turns: the scan stops at the first index the kernel does not
    know. *)
Theorem tunName_returns fuel (n : nat) fd t :
  (n < fuel)%nat -> Z.of_nat n < 2 ^ 63 - 2 ->
  (forall t', exists e, Tun.k_InterfaceByIndex K t' (1 + Z.of_nat n) = inr e) ->
  exists r t', Tun.tunName K fuel fd t = (Done r, t').
Proof.
  intros Hfuel Hn Hend.
  unfold Tun.tunName, Tun.ioctl, Tun.unix_Socket, Tun.os_Getpid, Tun.unix_Close. run.
  destruct (Tun.k_Ioctl K t fd _TUNSIFPID Tun.ArgZero) as [errno out].
  destruct (negb (errno =? 0)); [eauto|].
  destruct (Tun.k_Socket K _ AF_INET SOCK_DGRAM 0) as [confd [e|]]; [eauto|].
  destruct (tunName_scan_returns fuel n confd
              (Tun.k_Getpid K ((t ++ [Tun.Ioctl fd _TUNSIFPID Tun.ArgZero]) ++
                               [Tun.Socket AF_INET SOCK_DGRAM 0])) 1
              (((t ++ [Tun.Ioctl fd _TUNSIFPID Tun.ArgZero]) ++
                [Tun.Socket AF_INET SOCK_DGRAM 0]) ++ [Tun.Getpid])
              Hfuel ltac:(lia) ltac:(lia) Hend) as (r & t' & Hscan).
  rewrite Hscan. eauto.
Qed.

End Discovery.

(** ** Close, on any handle *)

Lemma closes_twice_dec tun : closes_twice tun \/ ~ closes_twice tun.
Proof.
  unfold closes_twice.
  destruct (Z.eq_dec (Tun.routeSocket tun) (-1)) as [Hrs|Hrs]; [|right; tauto].
  destruct (Tun.events tun) as [ch|]; [|right; intros (_ & ch & Hch & _); discriminate].
  destruct (Tun.closed ch) eqn:Hcl; [left; eauto|].
  right. intros (_ & ch' & [= <-] & Hcl'). congruence.
Qed.

Lemma Close_run (K : Tun.Kernel) tun rw t :
  Tun.rwcancel tun = Some rw ->
  snd (Tun.Close K tun t) = t ++ teardown_calls K tun rw t /\
  (closes_twice tun -> fst (Tun.Close K tun t) = Panic) /\
  (~ closes_twice tun -> exists err, fst (Tun.Close K tun t) = Done (err, closed_handle tun)).
Proof.
  intros Hrw. unfold Tun.Close, teardown_calls, restore_calls, closed_handle, closes_twice.
  rewrite Hrw.
  unfold Tun.File_Close, Tun.RWCancel_Cancel, Tun.unix_Shutdown, Tun.unix_Close.
  destruct (Tun.name tun =? Tun.origName tun)%string; cbn [negb];
    [|destruct (renameTun_calls K (Tun.name tun) (Tun.origName tun) t) as (err4 & Hr & _)];
    run; [|rewrite Hr];
    (destruct (Z.eqb_spec (Tun.routeSocket tun) (-1)) as [Hrs|Hrs]; cbn [negb];
     [destruct (Tun.events tun) as [ch|] eqn:Hev;
      [destruct (Tun.closed ch) eqn:Hcl|]|]; cbn [fst snd app];
     (split; [rewrite <- ?app_assoc; reflexivity|]);
     (split; [first [reflexivity
                    |intros (Hrs' & ch' & Hch & Hcl'); congruence]
             |first [eauto; fail | intros Hno; exfalso; apply Hno; eauto]])).
Qed.

(** X7.  [Close] goes through every step of the teardown whatever the
    kernel answers: on a handle with its cancellation handle, it issues the
    rename back if the name was changed, closes the descriptor, cancels the
    reads, and shuts down and closes the routing socket if there is one; no
    failure of one step keeps it from the next. *)
Theorem Close_attempts_every_step (K : Tun.Kernel) tun rw t :
  Tun.rwcancel tun = Some rw ->
  snd (Tun.Close K tun t) = t ++ teardown_calls K tun rw t.
Proof. intros Hrw. apply (Close_run K tun rw t Hrw). Qed.

(** X8.  [Close] panics in exactly two cases: the handle has no cancellation
    handle, or it has no routing socket left and its event channel is
    already closed.  In every other case it returns. *)
Theorem Close_panics_iff (K : Tun.Kernel) tun t :
  (fst (Tun.Close K tun t) = Panic <-> Tun.rwcancel tun = None \/ closes_twice tun) /\
  fst (Tun.Close K tun t) <> OutOfFuel.
Proof.
  destruct (Tun.rwcancel tun) as [rw|] eqn:Hrw.
  - destruct (Close_run K tun rw t Hrw) as (_ & Hp & Hd).
    destruct (closes_twice_dec tun) as [Htw|Hno].
    + rewrite (Hp Htw). split; [|discriminate]. split; auto.
    + destruct (Hd Hno) as [err He]. rewrite He. split; [|discriminate].
      split; [discriminate|]. intros [?|?]; [discriminate|contradiction].
  - assert (Hp : fst (Tun.Close K tun t) = Panic).
    { unfold Tun.Close. rewrite Hrw. unfold Tun.File_Close. run.
      destruct (negb (Tun.name tun =? Tun.origName tun)%string).
      - destruct (renameTun_calls K (Tun.name tun) (Tun.origName tun) t) as (err & Hr & _).
        rewrite Hr. reflexivity.
      - reflexivity. }
    rewrite Hp. split; [|discriminate]. split; auto.
Qed.

Lemma closed_handle_with_socket tun :
  Tun.routeSocket tun <> -1 -> closed_handle tun = Tun.set_routeSocket tun (-1).
Proof.
  intros Hrs. unfold closed_handle. apply Z.eqb_neq in Hrs. rewrite Hrs. reflexivity.
Qed.

(** X9.  [Close] is safe once.  On a handle with its routing socket and
    an open event channel, the first [Close] closes the routing socket and
    leaves the event channel to the route listener, whose deferred
    [close(tun.events)] runs when it returns.  A second [Close] finds no
    routing socket and closes the event channel itself.  Either of the two
    leaves the channel closed, and then the other one panics: the second
    [Close] if the listener has returned, the listener if the second
    [Close] came first. *)
Theorem second_Close_closes_events_twice (K : Tun.Kernel) tun rw ch t :
  Tun.rwcancel tun = Some rw ->
  Tun.events tun = Some ch -> Tun.closed ch = false ->
  Tun.routeSocket tun <> -1 ->
  let tun1 := Tun.set_routeSocket tun (-1) in
  let shut := Tun.set_events tun1 (Some (Tun.close_chan ch)) in
  (exists err, Tun.Close K tun t = (Done (err, tun1), t ++ teardown_calls K tun rw t)) /\
  (forall t1, Tun.routineRouteListener_deferred tun1 t1 = (Done shut, t1)) /\
  (forall t1, exists err,
     Tun.Close K tun1 t1 = (Done (err, shut), t1 ++ teardown_calls K tun1 rw t1)) /\
  (forall t2, fst (Tun.Close K shut t2) = Panic) /\
  (forall t2, fst (Tun.routineRouteListener_deferred shut t2) = Panic).
Proof.
  intros Hrw Hev Hcl Hrs tun1 shut.
  split; [|split; [|split; [|split]]].
  - destruct (Close_run K tun rw t Hrw) as (Ht & _ & Hd).
    destruct Hd as [err He]; [intros [Hrs' _]; contradiction|].
    exists err. rewrite (surjective_pairing (Tun.Close K tun t)), Ht, He.
    rewrite closed_handle_with_socket by assumption. reflexivity.
  - intros t1. unfold Tun.routineRouteListener_deferred.
    cbn [tun1 Tun.set_routeSocket Tun.events]. rewrite Hev, Hcl. reflexivity.
  - intros t1. destruct (Close_run K tun1 rw t1 Hrw) as (Ht1 & _ & Hd1).
    destruct Hd1 as [err He].
    { intros (_ & ch' & Hch' & Hcl'). cbn in Hch'. congruence. }
    exists err. rewrite (surjective_pairing (Tun.Close K tun1 t1)), Ht1, He.
    unfold closed_handle. cbn [tun1 Tun.set_routeSocket Tun.routeSocket Tun.events Z.eqb].
    rewrite Hev. reflexivity.
  - intros t2. destruct (Close_run K shut rw t2 Hrw) as (_ & Hp2 & _).
    apply Hp2. split; [reflexivity|]. exists (Tun.close_chan ch). split; reflexivity.
  - intros t2. reflexivity.
Qed.

(** ** CreateTUNFromFile *)

Lemma Name_handle (K : Tun.Kernel) fuel tun t n err tun' t' :
  Tun.Name K fuel tun t = (Done (n, err, tun'), t') ->
  (err = None -> tun' = Tun.set_name tun n) /\ (err <> None -> tun' = tun).
Proof.
  unfold Tun.Name. run.
  destruct (Tun.tunName K fuel (Fd (Tun.fd tun)) t) as [[[n0 [e|]]| |] t1]; try discriminate;
    intros [= <- <- <- <-]; split; intros; congruence.
Qed.

Ltac traced H lemma :=
  let new := fresh "new" in
  let Hn := fresh "Hnew" in
  destruct lemma as [new Hn]; rewrite H in Hn; cbn [snd] in Hn; subst.

Lemma call_inside (t rest : Tun.Trace) c :
  c ∈ rest -> exists pre post, t ++ rest = t ++ pre ++ c :: post.
Proof. intros (pre & post & ->)%list_elem_of_split. eauto. Qed.

Ltac inside :=
  rewrite <- ?app_assoc; apply call_inside;
  rewrite ?elem_of_app, ?elem_of_cons; auto 12.

Lemma CreateTUNFromFile_run (K : Tun.Kernel) fuel file mtu t r t' :
  Tun.CreateTUNFromFile K fuel file mtu t = (Done r, t') ->
  match r with
  | inr _ => exists pre post, t' = t ++ pre ++ Tun.FileClose file :: post
  | inl tun =>
    Tun.fd tun = file /\ Tun.name tun = Tun.origName tun /\
    (exists rw, Tun.rwcancel tun = Some rw) /\
    Tun.events tun = Some (Tun.make_chan 10) /\ Tun.errors tun = None /\
    exists idx pre post, t' = t ++ pre ++ Tun.GoRouteListener idx :: post
  end.
Proof.
  unfold Tun.CreateTUNFromFile, Tun.File_Close, Tun.net_InterfaceByName,
    Tun.rwcancel_NewRWCancel, Tun.unix_Socket, Tun.go_routineRouteListener.
  run.
  destruct (Tun.Name K fuel _ t) as [[[[n err] tun1]| |] t1] eqn:HN; try discriminate.
  destruct (Name_handle _ _ _ _ _ _ _ _ HN) as [Hok Hbad].
  traced HN (Name_extends K fuel (Tun.mkTun "" "" file None (Some (Tun.make_chan 10)) None 0) t).
  destruct err as [e|].
  { rewrite (Hbad ltac:(discriminate)). cbn [Tun.fd].
    intros [= <- <-]. exists new, []. rewrite <- app_assoc. reflexivity. }
  rewrite (Hok eq_refl). cbn [Tun.set_origName Tun.set_name Tun.fd Tun.name Tun.origName
    Tun.rwcancel Tun.events Tun.errors Tun.routeSocket].
  destruct (Tun.k_InterfaceByName K _ n) as [iface|e].
  2:{ intros [= <- <-]. exists (new ++ [Tun.InterfaceByName n]), [].
      rewrite <- !app_assoc. reflexivity. }
  destruct (Tun.k_NewRWCancel K _ (Fd file)) as [rw|e].
  2:{ cbn [Tun.fd]. intros [= <- <-].
      exists (new ++ [Tun.InterfaceByName n; Tun.NewRWCancel (Fd file)]), [].
      rewrite <- !app_assoc. reflexivity. }
  cbn [Tun.set_rwcancel Tun.set_routeSocket Tun.fd Tun.name Tun.origName
    Tun.rwcancel Tun.events Tun.errors Tun.routeSocket].
  destruct (Tun.k_Socket K _ AF_ROUTE SOCK_RAW AF_UNSPEC) as [sock [e|]].
  { intros [= <- <-].
    exists (new ++ [Tun.InterfaceByName n; Tun.NewRWCancel (Fd file);
                    Tun.Socket AF_ROUTE SOCK_RAW AF_UNSPEC]), [].
    rewrite <- !app_assoc. reflexivity. }
  match goal with
  | |- context [Tun.setMTU K ?tun mtu ?t0] =>
    destruct (setMTU_calls K tun mtu t0) as (err & Hset & _); rewrite Hset;
    set (tn := tun) in *; set (ts := t0 ++ _) in *
  end.
  destruct err as [e|].
  - destruct (Close_run K tn rw ts eq_refl) as (Hc & _ & _).
    destruct (Tun.Close K tn ts) as [[c| |] t4]; [|discriminate..].
    cbn [snd] in Hc. subst t4. intros [= <- <-].
    unfold teardown_calls, ts. cbn [tn Tun.fd]. inside.
  - intros [= <- <-]. cbn [tn Tun.fd Tun.name Tun.origName Tun.rwcancel Tun.events Tun.errors].
    split; [reflexivity|]. split; [reflexivity|]. split; [eauto|].
    split; [reflexivity|]. split; [reflexivity|].
    exists (net.Index iface). unfold ts. inside.
Qed.

(** X10.  When [CreateTUNFromFile] returns an error it has closed the file
    it was given, on every path: after a failed name discovery, interface
    lookup, cancellation handle or routing socket directly, and after a
    failed MTU through [Close]. *)
Theorem CreateTUNFromFile_closes_on_error (K : Tun.Kernel) fuel file mtu t e t' :
  Tun.CreateTUNFromFile K fuel file mtu t = (Done (inr e), t') ->
  exists pre post, t' = t ++ pre ++ Tun.FileClose file :: post.
Proof. intros Hrun. exact (CreateTUNFromFile_run K fuel file mtu t (inr e) t' Hrun). Qed.


(** ** CreateTUN: probing the device nodes *)

Section Probing.
Variable K : Tun.Kernel.

Lemma probe_all_fail :
  (forall tr path flag perm, exists e, Tun.k_OpenFile K tr path flag perm = inr e) ->
  forall count i t, Tun.probe K count i None t = (Done None, t ++ probed count i).
Proof.
  intros Hfail. induction count as [|count IH]; intros i t.
  - cbn. rewrite app_nil_r. reflexivity.
  - cbn [Tun.probe probed]. unfold Tun.os_OpenFile. run.
    destruct (Hfail t ("/dev/tun" +:+ itoa i) O_RDWR 0) as [e He]. rewrite He.
    rewrite IH, <- app_assoc. reflexivity.
Qed.

(** X12.  When no device node can be opened, [CreateTUN] tries /dev/tun0 to
    /dev/tun98 in order, then /dev/tun, and returns the error of that last
    attempt: a hundred opens and nothing else after the interface lookup. *)
Theorem CreateTUN_no_device fuel name mtu t e0 :
  Z.of_nat (String.length name) <= IFNAMSIZ - 1 ->
  Tun.k_InterfaceByName K t name = inr e0 ->
  (forall tr path flag perm, exists e, Tun.k_OpenFile K tr path flag perm = inr e) ->
  let probes := t ++ [Tun.InterfaceByName name] ++ probed 99 0 in
  exists e,
    Tun.k_OpenFile K probes "/dev/tun" O_RDWR 0 = inr e /\
    Tun.CreateTUN K fuel name mtu t =
      (Done (inr e), probes ++ [Tun.OpenFile "/dev/tun" O_RDWR 0]).
Proof.
  intros Hlen Hif Hfail probes.
  destruct (Hfail probes "/dev/tun"%string O_RDWR 0) as [e He].
  exists e. split; [exact He|].
  unfold Tun.CreateTUN.
  destruct (Z.gtb_spec (Z.of_nat (String.length name)) (IFNAMSIZ - 1)); [lia|].
  unfold Tun.net_InterfaceByName, Tun.os_OpenFile. run. rewrite Hif.
  rewrite (probe_all_fail Hfail). subst probes. rewrite <- app_assoc. rewrite He. reflexivity.
Qed.

Lemma probe_first_free (n : nat) : forall count i t f,
  (n < count)%nat ->
  (forall j, (j < n)%nat -> exists e,
     Tun.k_OpenFile K (t ++ probed j i) ("/dev/tun" +:+ itoa (i + Z.of_nat j)) O_RDWR 0 = inr e) ->
  Tun.k_OpenFile K (t ++ probed n i) ("/dev/tun" +:+ itoa (i + Z.of_nat n)) O_RDWR 0 = inl f ->
  Tun.probe K count i None t = (Done (Some f), t ++ probed (S n) i).
Proof.
  induction n as [|n IH]; intros count i t f Hcount Hbusy Hfree;
    (destruct count as [|count]; [lia|]); cbn [Tun.probe]; unfold Tun.os_OpenFile; run.
  - cbn [probed] in Hfree. rewrite app_nil_r, Z.add_0_r in Hfree. rewrite Hfree. reflexivity.
  - destruct (Hbusy 0%nat ltac:(lia)) as [e He].
    cbn [probed] in He. rewrite app_nil_r, Z.add_0_r in He. rewrite He.
    rewrite (IH count (i + 1) (t ++ [Tun.OpenFile ("/dev/tun" +:+ itoa i) O_RDWR 0]) f).
    + cbn [probed]. rewrite <- app_assoc. reflexivity.
    + lia.
    + intros j Hj. destruct (Hbusy (S j) ltac:(lia)) as [e' He']. exists e'.
      cbn [probed] in He'. rewrite <- app_assoc.
      replace (i + 1 + Z.of_nat j) with (i + Z.of_nat (S j)) by lia. exact He'.
    + cbn [probed] in Hfree. rewrite <- app_assoc.
      replace (i + 1 + Z.of_nat n) with (i + Z.of_nat (S n)) by lia. exact Hfree.
Qed.

(** X13.  The probe stops at the first device node that opens: with
    /dev/tun0 to /dev/tun(n-1) busy and /dev/tun(n) free, [n < 99], the
    loop opens exactly these [n + 1] nodes, later nodes and /dev/tun are
    not tried, and a handle that [CreateTUN] returns holds that file. *)
Theorem CreateTUN_first_free_node fuel name mtu t e0 (n : nat) f :
  Z.of_nat (String.length name) <= IFNAMSIZ - 1 ->
  Tun.k_InterfaceByName K t name = inr e0 ->
  (n < 99)%nat ->
  let t0 := t ++ [Tun.InterfaceByName name] in
  (forall j, (j < n)%nat -> exists e,
     Tun.k_OpenFile K (t0 ++ probed j 0) ("/dev/tun" +:+ itoa (Z.of_nat j)) O_RDWR 0 = inr e) ->
  Tun.k_OpenFile K (t0 ++ probed n 0) ("/dev/tun" +:+ itoa (Z.of_nat n)) O_RDWR 0 = inl f ->
  Tun.probe K 99 0 None t0 = (Done (Some f), t0 ++ probed (S n) 0) /\
  forall tun t', Tun.CreateTUN K fuel name mtu t = (Done (inl tun), t') -> Tun.fd tun = f.
Proof.
  intros Hlen Hif Hn t0 Hbusy Hfree.
  assert (Hprobe : Tun.probe K 99 0 None t0 = (Done (Some f), t0 ++ probed (S n) 0)).
  { apply probe_first_free; [exact Hn| |exact Hfree]. exact Hbusy. }
  split; [exact Hprobe|].
  intros tun t'. unfold Tun.CreateTUN.
  destruct (Z.gtb_spec (Z.of_nat (String.length name)) (IFNAMSIZ - 1)); [lia|].
  unfold Tun.net_InterfaceByName, Tun.File_Close, Tun.ioctl. run. rewrite Hif.
  fold t0. rewrite Hprobe.
  destruct (Tun.tunName K fuel (Fd f) _) as [[[assigned [e|]]| |] t1]; try discriminate.
  destruct (Tun.k_Ioctl K t1 (Fd f) _TUNSIFHEAD _) as [errno1 out1].
  destruct (negb (errno1 =? 0)); [discriminate|].
  destruct (Tun.k_Ioctl K _ (Fd f) _TUNSIFMODE _) as [errno2 out2].
  destruct (negb (errno2 =? 0)); [discriminate|].
  destruct (Tun.renameTun K assigned name _) as [[[e|]| |] t2]; try discriminate.
  destruct (Tun.CreateTUNFromFile K fuel f mtu t2) as [[[natTun|e]| |] t3] eqn:Hfrom;
    try discriminate.
  intros [= <- <-].
  destruct (CreateTUNFromFile_run K fuel f mtu t2 _ _ Hfrom) as (Hfd & _).
  exact Hfd.
Qed.

End Probing.

(** ** Read *)

Section Reading.
Variable K : Tun.Kernel.

(** X14.  [Read] never hands a retry condition to its caller: an error it
    returns is either one that [rwcancel.RetryAfterError] rejects, or the
    "tun device closed" error with length 0. *)
Theorem Read_hides_retry_errors fuel : forall tun buff offset t n e buff' tun' t',
  Tun.Read K fuel tun buff offset t = (Done (n, Some e, buff', tun'), t') ->
  RetryAfterError e = false \/ (e = ErrDeviceClosed /\ n = 0).
Proof.
  induction fuel as [|fuel IH]; intros tun buff offset t n e buff' tun' t';
    cbn [Tun.Read]; [discriminate|].
  unfold Tun.RWCancel_ReadyRead. run.
  destruct (Tun.doRead K tun buff offset t) as [[[[[n1 err1] b1] tun1]| |] t1]; try discriminate.
  destruct err1 as [e1|]; cbn [is_nil Tun.may_retry orb negb].
  - destruct (RetryAfterError e1) eqn:Hretry; cbn [negb].
    + destruct (Tun.rwcancel tun1) as [rw|]; [|discriminate].
      destruct (Tun.k_ReadyRead K t1 rw); cbn [negb].
      * apply IH.
      * intros [= <- <- <- <- <-]. right. split; reflexivity.
    + intros [= <- <- <- <- <-]. left. exact Hretry.
  - discriminate.
Qed.

(** X15.  A fatal error is delivered once: [doRead] returns the error that
    waits in the slot without reading the device and leaves the slot empty,
    and the next [doRead] on that handle reads the device. *)
Theorem fatal_error_delivered_once tun (buff : list byte) offset t e :
  Tun.errors tun = Some e ->
  is_int offset -> 4 <= offset -> offset - 4 <= len buff ->
  let tun1 := Tun.set_errors tun None in
  Tun.doRead K tun buff offset t = (Done (0, Some e, buff, tun1), t) /\
  exists r, Tun.doRead K tun1 buff offset t =
              (Done r, t ++ [Tun.FileRead (Tun.fd tun) (len buff - (offset - 4))]).
Proof.
  intros Hslot Hint Hge Hle tun1. split.
  - apply doRead_pending_error. exact Hslot.
  - unfold Tun.doRead, Tun.File_Read. cbn [tun1 Tun.set_errors Tun.errors Tun.fd].
    rewrite header_slice_Some by assumption. run.
    rewrite len_drop by lia.
    destruct (Tun.k_FileRead K t (Tun.fd tun) _) as [[stored n] err].
    destruct (n <? 4); eexists; reflexivity.
Qed.

(** X16.  A packet that [Write] sent comes back from [doRead] when the
    device hands it back: the length returned is that of the payload, and
    the payload lies in the reader's buffer from [offset2] on, the four
    prefix bytes before it. *)
Theorem Write_then_doRead tun (buff buff2 : list byte) offset offset2 first t :
  is_int offset -> 4 <= offset -> index buff offset = Some first ->
  Tun.errors tun = None ->
  is_int offset2 -> 4 <= offset2 -> len buff2 < 2 ^ 63 ->
  let payload := drop (Z.to_nat offset) buff in
  let tag := if Z.shiftr first 4 =? ipv6_Version then AF_INET6 else AF_INET in
  let packet := [0; 0; 0; tag] ++ payload in
  let t1 := t ++ [Tun.FileWrite (Tun.fd tun) packet] in
  let room := len buff2 - (offset2 - 4) in
  len packet <= room ->
  Tun.k_FileRead K t1 (Tun.fd tun) room = (packet, len packet, None) ->
  snd (Tun.Write K tun buff offset t) = t1 /\
  exists buff2',
    Tun.doRead K tun buff2 offset2 t1 =
      (Done (len payload, None, buff2', tun), t1 ++ [Tun.FileRead (Tun.fd tun) room]) /\
    take (length payload) (drop (Z.to_nat offset2) buff2') = payload /\
    take 4 (drop (Z.to_nat (offset2 - 4)) buff2') = [0; 0; 0; tag].
Proof.
  intros Hint Hge Hidx Hslot Hint2 Hge2 Hlen2 payload tag packet t1 room Hroom Hloop.
  split.
  { rewrite (Write_in_bounds K tun buff offset first t Hint Hge Hidx). reflexivity. }
  clearbody payload tag.
  assert (Hpk : len packet = 4 + len payload).
  { unfold packet, len. cbn [app length]. unfold byte. lia. }
  assert (Hroom0 : 0 <= room) by (unfold len in *; lia).
  assert (Hfit : offset2 - 4 <= len buff2) by (unfold room in Hroom0; lia).
  unfold Tun.doRead, Tun.File_Read. rewrite Hslot.
  rewrite (header_slice_Some buff2 offset2 Hint2 Hge2 Hfit). run.
  rewrite len_drop by (unfold byte in *; lia).
  fold room. rewrite Hloop.
  destruct (Z.ltb_spec (len packet) 4) as [Hlt|_]; [unfold len, byte in *; lia|].
  rewrite (int_sub_4_exact (len packet)) by (unfold is_int, room, len, byte in *; lia).
  rewrite ?(int_sub_4_exact offset2) by (unfold is_int in *; lia).
  replace (len packet - 4) with (len payload) by (unfold len, byte in *; lia).
  eexists. split; [reflexivity|].
  assert (Hsub : (length packet <= length (drop (Z.to_nat (offset2 - 4)) buff2))%nat).
  { rewrite length_drop. unfold room, len, byte in *. lia. }
  assert (Hcopy : copy (drop (Z.to_nat (offset2 - 4)) buff2) packet =
                  packet ++ drop (length packet) (drop (Z.to_nat (offset2 - 4)) buff2)).
  { unfold copy. apply take_ge. rewrite length_app, length_drop. unfold byte in *. lia. }
  assert (Hpre : length (slice_to buff2 (offset2 - 4)) = Z.to_nat (offset2 - 4)).
  { unfold slice_to. rewrite length_take. unfold room, len, byte in *. lia. }
  rewrite Hcopy. split.
  - replace (Z.to_nat offset2) with (length (slice_to buff2 (offset2 - 4)) + 4)%nat
      by (rewrite Hpre; lia).
    rewrite <- drop_drop, drop_app_length. unfold packet. cbn [app drop].
    unfold byte in *. apply take_app_length.
  - rewrite <- Hpre, drop_app_length. reflexivity.
Qed.

End Reading.

(** ** MTU and the name of a request *)

Lemma uint32_le_bytes u : 0 <= u < 2 ^ 32 -> Tun.uint32_le (le_bytes32 u) = u.
Proof.
  intros Hu. unfold le_bytes32, Tun.uint32_le.
  change (2 ^ 8) with 256. change (2 ^ 16) with (256 * 256).
  change (2 ^ 24) with (256 * (256 * 256)).
  rewrite <- !Z.div_div by lia.
  pose proof (Z.div_mod u 256 ltac:(lia)) as H0.
  pose proof (Z.div_mod (u / 256) 256 ltac:(lia)) as H1.
  pose proof (Z.div_mod (u / 256 / 256) 256 ltac:(lia)) as H2.
  assert (H3 : u / 256 / 256 / 256 < 256).
  { apply Z.div_lt_upper_bound; [lia|]. apply Z.div_lt_upper_bound; [lia|].
    apply Z.div_lt_upper_bound; [lia|]. change (2 ^ 32) with (256 * (256 * (256 * 256))) in Hu. lia. }
  assert (H4 : 0 <= u / 256 / 256 / 256) by (repeat apply Z.div_pos; lia).
  rewrite (Z.mod_small (u / 256 / 256 / 256) 256) by lia.
  lia.
Qed.

Lemma int32_round_trip n :
  - 2 ^ 31 <= n < 2 ^ 31 -> Tun.int32_of_uint32 (n mod 2 ^ 32) = n.
Proof.
  intros Hn. unfold Tun.int32_of_uint32.
  change (2 ^ 32) with 4294967296 in *. change (2 ^ 31) with 2147483648 in *.
  destruct (Z_lt_le_dec n 0).
  - assert (Hm : n mod 4294967296 = n + 4294967296).
    { replace n with ((n + 4294967296) + (-1) * 4294967296) at 1 by lia.
      rewrite Z.mod_add by lia. apply Z.mod_small. lia. }
    rewrite Hm. destruct (Z.ltb_spec (n + 4294967296) 2147483648); lia.
  - rewrite Z.mod_small by lia. destruct (Z.ltb_spec n 2147483648); lia.
Qed.

(** X17.  [MTU] reads back what [setMTU] wrote: [setMTU n] hands the kernel
    [n] cut to 32 bits, and when the kernel answers the get ioctl with those
    32 bits, [MTU] returns [n] for every [n] that an [int32] holds, negative
    ones included. *)
Theorem MTU_reads_back_setMTU (K : Tun.Kernel) (SIOCGIFMTU : Z) tun n t t' confd confd' :
  - 2 ^ 31 <= n < 2 ^ 31 ->
  Tun.k_Socket K t AF_INET SOCK_DGRAM 0 = (confd, None) ->
  Tun.k_Socket K t' AF_INET SOCK_DGRAM 0 = (confd', None) ->
  Tun.k_Ioctl K (t' ++ [Tun.Socket AF_INET SOCK_DGRAM 0]) confd' SIOCGIFMTU
    (Tun.ArgIfreqMtu (Tun.name_array (Tun.name tun)) 0) = (0, le_bytes32 (n mod 2 ^ 32)) ->
  snd (Tun.setMTU K tun n t) =
    t ++ [Tun.Socket AF_INET SOCK_DGRAM 0;
          Tun.Ioctl confd SIOCSIFMTU (Tun.ArgIfreqMtu (Tun.name_array (Tun.name tun)) (n mod 2 ^ 32));
          Tun.UnixClose confd] /\
  fst (Tun.MTU K SIOCGIFMTU tun t') = Done (n, None).
Proof.
  intros Hn Hsock Hsock' Hget. split.
  - destruct (setMTU_calls K tun n t) as (err & Hset & _). rewrite Hset.
    unfold control_calls. rewrite Hsock. reflexivity.
  - unfold Tun.MTU, Tun.unix_Socket, Tun.ioctl, Tun.unix_Close. run.
    rewrite Hsock', Hget. cbn [Z.eqb negb fst].
    assert (Hcopy : copy [0; 0; 0; 0] (le_bytes32 (n mod 2 ^ 32)) = le_bytes32 (n mod 2 ^ 32))
      by reflexivity.
    rewrite Hcopy, uint32_le_bytes by (apply Z.mod_pos_bound; lia).
    rewrite int32_round_trip by assumption. reflexivity.
Qed.

Lemma bytes_of_string_length str : @length Z (bytes_of_string str) = String.length str.
Proof.
  unfold bytes_of_string. rewrite length_map.
  induction str as [|c str IH]; cbn; [reflexivity|]. rewrite IH. reflexivity.
Qed.

Lemma drop_repeat {A} (x : A) (m : nat) : forall n, drop n (repeat x m) = repeat x (m - n).
Proof.
  induction m as [|m IH]; intros [|n]; cbn; try reflexivity. apply IH.
Qed.

(** X18.  The name field of a request has IFNAMSIZ bytes.  A name shorter
    than IFNAMSIZ, as [CreateTUN] requires, is stored whole and followed by
    NUL bytes; a longer one is cut to its first IFNAMSIZ bytes and has no
    terminator. *)
Theorem name_array_holds_short_names str :
  0 <= IFNAMSIZ ->
  len (Tun.name_array str) = IFNAMSIZ /\
  (Z.of_nat (String.length str) <= IFNAMSIZ - 1 ->
   Tun.name_array str =
     bytes_of_string str ++ repeat 0 (Z.to_nat IFNAMSIZ - String.length str) /\
   index (Tun.name_array str) (Z.of_nat (String.length str)) = Some 0) /\
  (IFNAMSIZ <= Z.of_nat (String.length str) ->
   Tun.name_array str = take (Z.to_nat IFNAMSIZ) (bytes_of_string str)).
Proof.
  intros Hpos. unfold Tun.name_array, copy. rewrite repeat_length.
  pose proof (bytes_of_string_length str) as Hlen.
  split; [|split].
  - unfold len. rewrite length_take, length_app, length_drop, repeat_length. lia.
  - intros Hshort. rewrite drop_repeat, Hlen.
    rewrite take_ge by (rewrite length_app, repeat_length, Hlen; lia).
    split; [reflexivity|].
    rewrite index_lookup by (unfold len; rewrite length_app, repeat_length, Hlen; lia).
    rewrite Nat2Z.id. unfold byte.
    rewrite lookup_app_r by (rewrite Hlen; lia).
    rewrite Hlen, Nat.sub_diag.
    destruct (Z.to_nat IFNAMSIZ - String.length str)%nat eqn:Hz; [lia|reflexivity].
  - intros Hlong. rewrite take_app_le by (rewrite Hlen; lia). reflexivity.
Qed.

(** ** CreateTUN: the run that returns a handle *)

Section Emits.
Variable ok : Tun.Call -> Prop.

Lemma emits_ret {A} (a : A) : emits ok (Tun.ret a).
Proof. intros t. exists []. cbn. rewrite app_nil_r. split; [reflexivity|constructor]. Qed.

Lemma emits_panic {A} : emits ok (@Tun.panic A).
Proof. intros t. exists []. cbn. rewrite app_nil_r. split; [reflexivity|constructor]. Qed.

Lemma emits_out_of_fuel {A} : emits ok (@Tun.out_of_fuel A).
Proof. intros t. exists []. cbn. rewrite app_nil_r. split; [reflexivity|constructor]. Qed.

Lemma emits_must {A} (o : option A) : emits ok (Tun.must o).
Proof. destruct o; [apply emits_ret|apply emits_panic]. Qed.

Lemma emits_call {A} c (answer : Tun.Trace -> A) : ok c -> emits ok (Tun.call c answer).
Proof. intros Hc t. exists [c]. split; [reflexivity|]. constructor; [exact Hc|constructor]. Qed.

Lemma emits_bind {A B} (m : Tun.M A) (f : A -> Tun.M B) :
  emits ok m -> (forall a, emits ok (f a)) -> emits ok (Tun.bind m f).
Proof.
  intros Hm Hf t. unfold Tun.bind. destruct (Hm t) as (new1 & H1 & Hok1).
  destruct (m t) as [[a| |] t1]; cbn [snd] in H1; subst t1.
  - destruct (Hf a (t ++ new1)) as (new2 & H2 & Hok2). exists (new1 ++ new2).
    rewrite H2, app_assoc. split; [reflexivity|]. apply Forall_app. split; assumption.
  - exists new1. split; [reflexivity|assumption].
  - exists new1. split; [reflexivity|assumption].
Qed.

End Emits.

Create HintDb quiet.

Ltac emit :=
  unfold mbind, mret, Tun.M_bind, Tun.M_ret;
  repeat first
    [ solve [auto 1 with quiet nocore]
    | apply emits_ret | apply emits_panic | apply emits_out_of_fuel
    | apply emits_must | apply emits_call; exact I
    | apply emits_bind; [|intros]
    | match goal with
      | |- emits _ (match ?x with _ => _ end) => destruct x
      end ].

Ltac emitted H lemma :=
  let new := fresh "new" in
  let Hn := fresh "Hnew" in
  let Hq := fresh "Hquiet" in
  destruct lemma as (new & Hn & Hq); rewrite H in Hn; cbn [snd] in Hn; subst.

Lemma control_calls_quiet (K : Tun.Kernel) t req arg : Forall keeps_files (control_calls K t req arg).
Proof.
  unfold control_calls. destruct (Tun.k_Socket K t AF_INET SOCK_DGRAM 0) as [confd [e|]];
    repeat constructor.
Qed.

Ltac quiet_list :=
  repeat first
    [ assumption
    | apply control_calls_quiet
    | constructor; [exact I|]
    | solve [constructor]
    | apply Forall_app; split ].

Section Creation.
Variable K : Tun.Kernel.

Lemma tunName_scan_quiet fuel : forall confd procPid i,
  emits keeps_files (Tun.tunName_scan K fuel confd procPid i).
Proof.
  induction fuel as [|fuel IH]; intros confd procPid i; cbn [Tun.tunName_scan].
  - apply emits_out_of_fuel.
  - unfold Tun.net_InterfaceByIndex, Tun.ioctl. emit.
Qed.
Hint Resolve tunName_scan_quiet : quiet.

Lemma tunName_quiet fuel fd : emits keeps_files (Tun.tunName K fuel fd).
Proof.
  unfold Tun.tunName, Tun.ioctl, Tun.unix_Socket, Tun.os_Getpid, Tun.unix_Close. emit.
Qed.
Hint Resolve tunName_quiet : quiet.

Lemma Name_quiet fuel tun : emits keeps_files (Tun.Name K fuel tun).
Proof. unfold Tun.Name. emit. Qed.

Lemma probe_quiet count : forall i tunfile, emits keeps_files (Tun.probe K count i tunfile).
Proof.
  induction count as [|count IH]; intros i tunfile; cbn [Tun.probe].
  - apply emits_ret.
  - unfold Tun.os_OpenFile. emit.
Qed.

Lemma CreateTUNFromFile_quiet fuel file mtu t tun t' :
  Tun.CreateTUNFromFile K fuel file mtu t = (Done (inl tun), t') ->
  exists new, t' = t ++ new /\ Forall keeps_files new.
Proof.
  unfold Tun.CreateTUNFromFile, Tun.File_Close, Tun.net_InterfaceByName,
    Tun.rwcancel_NewRWCancel, Tun.unix_Socket, Tun.go_routineRouteListener.
  run.
  destruct (Tun.Name K fuel _ t) as [[[[n err] tun1]| |] t1] eqn:HN; try discriminate.
  emitted HN (Name_quiet fuel (Tun.mkTun "" "" file None (Some (Tun.make_chan 10)) None 0) t).
  destruct err as [e|]; [discriminate|].
  destruct (Tun.k_InterfaceByName K _ n) as [iface|e]; [|discriminate].
  destruct (Tun.k_NewRWCancel K _ (Fd file)) as [rw|e]; [|discriminate].
  destruct (Tun.k_Socket K _ AF_ROUTE SOCK_RAW AF_UNSPEC) as [sock [e|]]; [discriminate|].
  match goal with
  | |- context [Tun.setMTU K ?tun mtu ?t0] =>
    destruct (setMTU_calls K tun mtu t0) as (err & Hset & _); rewrite Hset;
    set (tn := tun) in *; set (ts := t0 ++ _) in *
  end.
  destruct err as [e|].
  - destruct (Tun.Close K tn ts) as [[c| |] t4]; discriminate.
  - unfold ts. rewrite <- !app_assoc. intros [= <- <-].
    eexists. split; [reflexivity|].
    quiet_list.
Qed.

Lemma CreateTUN_run fuel name mtu t tun t' :
  Tun.CreateTUN K fuel name mtu t = (Done (inl tun), t') ->
  exists pre post confd idx,
    t' = t ++ pre ++
      [Tun.Ioctl (Fd (Tun.fd tun)) _TUNSIFHEAD (Tun.ArgInt 1);
       Tun.Ioctl (Fd (Tun.fd tun)) _TUNSIFMODE (Tun.ArgInt IFF_BROADCAST);
       Tun.Socket AF_INET SOCK_DGRAM 0;
       Tun.Ioctl confd SIOCSIFNAME
         (Tun.ArgIfreqPtr (Tun.name_array (Tun.origName tun)) (Tun.name_array name));
       Tun.UnixClose confd] ++ post /\
    Forall keeps_files pre /\ Forall keeps_files post /\
    Tun.GoRouteListener idx ∈ post /\
    (exists rw, Tun.rwcancel tun = Some rw) /\
    Tun.events tun = Some (Tun.make_chan 10) /\ Tun.errors tun = None.
Proof.
  unfold Tun.CreateTUN, Tun.net_InterfaceByName, Tun.os_OpenFile, Tun.ioctl, Tun.File_Close.
  destruct (Z.of_nat (String.length name) >? IFNAMSIZ - 1); [discriminate|].
  run.
  destruct (Tun.k_InterfaceByName K t name) as [i|e0]; [discriminate|].
  destruct (Tun.probe K 99 0 None _) as [[tunfile| |] t1] eqn:Hprobe; try discriminate.
  emitted Hprobe (probe_quiet 99 0 None (t ++ [Tun.InterfaceByName name])).
  assert (Hfiles : Forall keeps_files ([Tun.InterfaceByName name] ++ new)) by quiet_list.
  assert (Hfiles' : Forall keeps_files
            ([Tun.InterfaceByName name] ++ new ++ [Tun.OpenFile "/dev/tun" O_RDWR 0]))
    by quiet_list.
  clear Hprobe.
  destruct tunfile as [f|]; cbv beta iota;
    [|destruct (Tun.k_OpenFile K _ "/dev/tun" O_RDWR 0) as [f|e]; [|discriminate]];
    rewrite <- ?app_assoc;
    match goal with
    | |- context [Tun.tunName K fuel (Fd f) (t ++ ?o)] =>
      set (opened := o) in *; assert (Hopened : Forall keeps_files opened) by assumption;
      clearbody opened; clear Hfiles Hfiles' Hquiet
    end.
  all: destruct (Tun.tunName K fuel (Fd f) _) as [[[assigned [e|]]| |] t3] eqn:Hname;
    try discriminate.
  all: emitted Hname (tunName_quiet fuel (Fd f) (t ++ opened)).
  all: destruct (Tun.k_Ioctl K _ (Fd f) _TUNSIFHEAD _) as [errno1 out1];
    destruct (negb (errno1 =? 0)); [discriminate|]; cbv beta iota.
  all: destruct (Tun.k_Ioctl K _ (Fd f) _TUNSIFMODE _) as [errno2 out2];
    destruct (negb (errno2 =? 0)); [discriminate|]; cbv beta iota.
  all: match goal with
  | |- context [Tun.renameTun K ?old ?new ?t0] =>
    destruct (renameTun_calls K old new t0) as (err & Hren & Hsock); rewrite Hren;
    revert Hsock; unfold control_calls;
    destruct (Tun.k_Socket K t0 AF_INET SOCK_DGRAM 0) as [confd [e|]]; intros Hsock;
    [rewrite (Hsock e eq_refl); discriminate|]
  end.
  all: destruct err as [e|]; [discriminate|]; clear Hsock Hren.
  all: destruct (Tun.CreateTUNFromFile K fuel f mtu _) as [[[natTun|e]| |] t5] eqn:Hfrom;
    try discriminate.
  all: destruct (CreateTUNFromFile_run K fuel f mtu _ _ _ Hfrom)
    as (Hfd & _ & Hrw & Hev & Herr & idx & pre & post & Ht5).
  all: destruct (CreateTUNFromFile_quiet fuel f mtu _ _ _ Hfrom) as (new5 & Ht5' & Hq).
  all: rewrite Ht5' in Ht5; apply app_inv_head in Ht5.
  all: intros [= <- <-].
  all: cbn [Tun.set_origName Tun.fd Tun.origName Tun.rwcancel Tun.events Tun.errors].
  all: rewrite Hfd.
  all: exists (opened ++ new0), new5, confd, idx.
  all: split; [rewrite Ht5', <- !app_assoc; reflexivity|].
  all: split; [quiet_list|]; split; [exact Hq|].
  all: split; [rewrite Ht5; rewrite elem_of_app, elem_of_cons; auto|].
  all: split; [exact Hrw|]; split; [exact Hev|exact Herr].
Qed.

(** X25.  A handle that [CreateTUN] returns is that of a configured device:
    on its descriptor the run has set the header mode to 1 and then the
    interface mode to IFF_BROADCAST, after that it has renamed the
    interface from the name kept as the handle's original name to the
    requested one, on a control socket that it closed, and later it has
    started the route listener; [Close] on the handle returns, from any
    later point of the run. *)
Theorem CreateTUN_configures_device fuel name mtu t tun t' :
  Tun.CreateTUN K fuel name mtu t = (Done (inl tun), t') ->
  (exists pre post confd idx,
     t' = t ++ pre ++
       [Tun.Ioctl (Fd (Tun.fd tun)) _TUNSIFHEAD (Tun.ArgInt 1);
        Tun.Ioctl (Fd (Tun.fd tun)) _TUNSIFMODE (Tun.ArgInt IFF_BROADCAST);
        Tun.Socket AF_INET SOCK_DGRAM 0;
        Tun.Ioctl confd SIOCSIFNAME
          (Tun.ArgIfreqPtr (Tun.name_array (Tun.origName tun)) (Tun.name_array name));
        Tun.UnixClose confd] ++ post /\
     Tun.GoRouteListener idx ∈ post) /\
  forall t2, exists err, fst (Tun.Close K tun t2) = Done (err, closed_handle tun).
Proof.
  intros Hrun.
  destruct (CreateTUN_run fuel name mtu t tun t' Hrun)
    as (pre & post & confd & idx & Ht' & _ & _ & Hgo & [rw Hrw] & Hev & _).
  split; [exists pre, post, confd, idx; split; assumption|].
  intros t2. destruct (Close_run K tun rw t2 Hrw) as (_ & _ & Hd). apply Hd.
  intros (_ & ch & Hch & Hcl). rewrite Hev in Hch. injection Hch as <-. discriminate.
Qed.

(** X26.  Neither constructor closes the file of a handle it returns: in a
    run of [CreateTUNFromFile] or of [CreateTUN] that returns a handle, no
    file is closed at all. *)
Theorem returned_handle_file_is_open fuel name file mtu t tun t' :
  Tun.CreateTUNFromFile K fuel file mtu t = (Done (inl tun), t') \/
  Tun.CreateTUN K fuel name mtu t = (Done (inl tun), t') ->
  exists new, t' = t ++ new /\ forall f, Tun.FileClose f ∉ new.
Proof.
  assert (Hnot : forall new, Forall keeps_files new -> forall f, Tun.FileClose f ∉ new).
  { intros new Hq f Hin. rewrite Forall_forall in Hq. exact (Hq _ Hin). }
  intros [Hrun|Hrun].
  - destruct (CreateTUNFromFile_quiet fuel file mtu t tun t' Hrun) as (new & Ht' & Hq).
    exists new. split; [exact Ht'|]. apply Hnot, Hq.
  - destruct (CreateTUN_run fuel name mtu t tun t' Hrun)
      as (pre & post & confd & idx & Ht' & Hpre & Hpost & _).
    eexists. split; [exact Ht'|]. apply Hnot. quiet_list.
Qed.

End Creation.

End TunMore.

(** * More of conn.go *)

Section ConnMore.
Context {W B E Key : Type} `{Countable Key}.
Context {network : Conn.Networking W B} {bind_impl : Conn.Bind W B}
        {endpoint_impl : Conn.Endpoint E}.

#[local] Abbreviation Peer := (@Conn.Peer E).
#[local] Abbreviation State := (@Conn.State W B E Key _ _).
#[local] Abbreviation Effect := (@Conn.Effect B Key).

Lemma unsafeCloseBind_run (s : State) :
  exists err w,
    Conn.unsafeCloseBind s =
      (err, Conn.mkState (Conn.set_bind (Conn.device s) None) w (Conn.log s ++ closing s)) /\
    (Conn.net_bind (Conn.device s) = None -> err = None /\ w = Conn.world s).
Proof.
  unfold Conn.unsafeCloseBind, closing.
  destruct s as [[up b port mark peers] w l].
  cbn [Conn.device Conn.net_bind Conn.world Conn.log].
  destruct b as [b|].
  - destruct (Conn.Close b w) as [err w']. exists err, w'. split; [reflexivity|discriminate].
  - exists None, w. rewrite app_nil_r. split; [reflexivity|auto].
Qed.

(** X19.  [BindClose] leaves the device without a bind whether or not
    closing the bind failed, and a second [BindClose] finds nothing to
    close: it returns nil and calls nothing. *)
Theorem BindClose_twice (s : State) :
  let first := Conn.BindClose s in
  let second := Conn.BindClose (snd first) in
  Conn.net_bind (Conn.device (snd first)) = None /\
  Conn.log (snd first) = Conn.log s ++ closing s /\
  second = (None, snd first).
Proof.
  unfold Conn.BindClose. destruct (unsafeCloseBind_run s) as (err & w & Hrun & _).
  rewrite Hrun. cbn [fst snd Conn.device Conn.log Conn.set_bind Conn.net_bind].
  split; [reflexivity|]. split; [reflexivity|]. reflexivity.
Qed.

Lemma marks_app (l1 l2 : list Effect) : marks (l1 ++ l2) = marks l1 ++ marks l2.
Proof. unfold marks. apply omap_app. Qed.

Lemma creations_app (l1 l2 : list Effect) : creations (l1 ++ l2) = creations l1 ++ creations l2.
Proof. unfold creations. apply omap_app. Qed.

Lemma marks_closing (s : State) : marks (closing s) = [].
Proof. unfold closing. destruct (Conn.net_bind _); reflexivity. Qed.

Lemma marks_DidClearSrc (ks : list Key) : marks ((Conn.DidClearSrc <$> ks) : list Effect) = [].
Proof. induction ks as [|k ks IH]; [reflexivity|]. exact IH. Qed.

Lemma creations_DidClearSrc (ks : list Key) :
  creations ((Conn.DidClearSrc <$> ks) : list Effect) = [].
Proof. induction ks as [|k ks IH]; [reflexivity|]. exact IH. Qed.

Lemma clear_peers_dom (kps : list (Key * Peer)) : forall (m : gmap Key Peer) (l : list Effect),
  (forall k p, (k, p) ∈ kps -> is_Some (m !! k)) ->
  dom (fst (fold_left Conn.clear_peer kps (m, l))) = dom m.
Proof.
  induction kps as [|[k p] kps IH]; intros m l Hin; [reflexivity|].
  cbn [fold_left]. unfold Conn.clear_peer at 2. cbn [fst snd].
  destruct (Conn.endpoint p) as [e|].
  - rewrite IH.
    + apply dom_insert_lookup_L. apply (Hin k p). left.
    + intros k' p' Hin'. rewrite lookup_insert_is_Some'. right. apply (Hin k' p'). right. exact Hin'.
  - apply IH. intros k' p' Hin'. apply (Hin k' p'). right. exact Hin'.
Qed.

Section AnyRange.
Variable range : gmap Key Peer -> list (Key * Peer).

(** X20.  When closing the old bind fails, [BindUpdate] stops there: it
    returns that error, does not call [CreateBind] even though the device
    is up, and leaves the device without a bind. *)
Theorem BindUpdate_stops_on_close_error (s : State) e :
  fst (Conn.unsafeCloseBind s) = Some e ->
  let r := Conn.BindUpdate range s in
  fst r = Done (Some e) /\
  Conn.net_bind (Conn.device (snd r)) = None /\
  Conn.net_port (Conn.device (snd r)) = Conn.net_port (Conn.device s) /\
  Conn.log (snd r) = Conn.log s ++ closing s.
Proof.
  intros Hclose r. subst r. unfold Conn.BindUpdate.
  destruct (unsafeCloseBind_run s) as (err & w & Hrun & _).
  rewrite Hrun in *. cbn [fst] in Hclose. subst err. cbn. auto.
Qed.

(** X21.  A [BindUpdate] that succeeds on a device that is up has installed
    the bind and the port that [CreateBind] returned for the stored port,
    has applied the stored mark to that bind if and only if it is not zero,
    and its last acts are to start one receive routine for IPv4 and one for
    IPv6 on the new bind. *)
Theorem BindUpdate_installs_bind (s : State) :
  Conn.isUp (Conn.device s) = true ->
  fst (Conn.BindUpdate range s) = Done None ->
  let s' := snd (Conn.BindUpdate range s) in
  let mark := Conn.net_fwmark (Conn.device s) in
  exists b port w new,
    Conn.CreateBind (Conn.net_port (Conn.device s)) (Conn.world (snd (Conn.unsafeCloseBind s)))
      = (b, port, None, w) /\
    Conn.net_bind (Conn.device s') = b /\
    Conn.net_port (Conn.device s') = port /\
    Conn.log s' = Conn.log s ++ new ++
      [Conn.DidGo Conn.ipv4_Version b; Conn.DidGo Conn.ipv6_Version b;
       Conn.DidLog "UDP bind has been updated"] /\
    creations new = [Conn.net_port (Conn.device s)] /\
    marks new = (if mark =? 0 then [] else [(b, mark)]).
Proof.
  intros Hup. unfold Conn.BindUpdate.
  destruct (unsafeCloseBind_run s) as (err0 & w0 & Hrun & _). rewrite Hrun.
  cbn [fst snd Conn.device Conn.world Conn.log Conn.isUp Conn.set_bind Conn.net_port
       Conn.net_fwmark Conn.peers_keyMap].
  destruct err0 as [e0|]; [discriminate|]. rewrite Hup.
  destruct (Conn.CreateBind (Conn.net_port (Conn.device s)) w0) as [[[b port] err] w1].
  destruct err as [e|]; [discriminate|].
  cbn [Conn.set_port Conn.set_bind Conn.net_fwmark Conn.peers_keyMap Conn.isUp
       Conn.net_bind Conn.net_port].
  unfold Conn.clear_peers.
  destruct (Conn.net_fwmark (Conn.device s) =? 0) eqn:Hmark; cbn [negb].
  - rewrite (surjective_pairing (fold_left _ _ _)), clear_peers_log.
    cbn [fst snd Conn.device Conn.log Conn.net_bind Conn.net_port Conn.set_keyMap].
    match goal with |- context [Conn.DidClearSrc <$> ?k] => set (ks := k) end.
    intros _. exists b, port, w1.
    exists (closing s ++ [Conn.DidCreateBind (Conn.net_port (Conn.device s))] ++
            (Conn.DidClearSrc <$> ks)).
    split; [reflexivity|]. split; [reflexivity|]. split; [reflexivity|].
    split; [rewrite <- !app_assoc; reflexivity|].
    rewrite !creations_app, !marks_app, creations_closing, marks_closing,
      creations_DidClearSrc, marks_DidClearSrc. split; reflexivity.
  - destruct b as [b'|]; [|discriminate].
    destruct (Conn.SetMark b' (Conn.net_fwmark (Conn.device s)) w1) as [[e|] w2];
      [discriminate|].
    rewrite (surjective_pairing (fold_left _ _ _)), clear_peers_log.
    cbn [fst snd Conn.device Conn.log Conn.net_bind Conn.net_port Conn.set_keyMap].
    match goal with |- context [Conn.DidClearSrc <$> ?k] => set (ks := k) end.
    intros _. exists (Some b'), port, w1.
    exists (closing s ++ [Conn.DidCreateBind (Conn.net_port (Conn.device s));
                          Conn.DidSetMark (Some b') (Conn.net_fwmark (Conn.device s))] ++
            (Conn.DidClearSrc <$> ks)).
    split; [reflexivity|]. split; [reflexivity|]. split; [reflexivity|].
    split; [rewrite <- !app_assoc; reflexivity|].
    rewrite !creations_app, !marks_app, creations_closing, marks_closing,
      creations_DidClearSrc, marks_DidClearSrc. split; reflexivity.
Qed.


(** X23.  [BindUpdate] panics in one case only: the device is up, the old
    bind closed without error, the stored mark is not zero, and [CreateBind]
    returned neither a bind nor an error, so that [SetMark] is called on
    the nil bind. *)
Theorem BindUpdate_panics_iff (s : State) :
  fst (Conn.BindUpdate range s) = Panic <->
  Conn.isUp (Conn.device s) = true /\
  fst (Conn.unsafeCloseBind s) = None /\
  Conn.net_fwmark (Conn.device s) <> 0 /\
  exists port w,
    Conn.CreateBind (Conn.net_port (Conn.device s)) (Conn.world (snd (Conn.unsafeCloseBind s)))
      = (None, port, None, w).
Proof.
  unfold Conn.BindUpdate.
  destruct (unsafeCloseBind_run s) as (err0 & w0 & Hrun & _). rewrite Hrun.
  cbn [fst snd Conn.device Conn.world Conn.log Conn.isUp Conn.set_bind Conn.net_port
       Conn.net_fwmark Conn.peers_keyMap].
  destruct err0 as [e0|].
  { cbn [fst]. split; [discriminate|]. intros (_ & Hc & _). discriminate. }
  destruct (Conn.isUp (Conn.device s)).
  2:{ cbn [fst]. split; [discriminate|]. intros (Hu & _). discriminate. }
  destruct (Conn.CreateBind (Conn.net_port (Conn.device s)) w0) as [[[b port] err] w1].
  destruct err as [e|].
  { cbn [fst]. split; [discriminate|]. intros (_ & _ & _ & p & w & Heq). discriminate. }
  cbn [Conn.set_port Conn.set_bind Conn.net_fwmark Conn.peers_keyMap Conn.isUp
       Conn.net_bind Conn.net_port].
  destruct (Z.eqb_spec (Conn.net_fwmark (Conn.device s)) 0) as [Hz|Hnz]; cbn [negb].
  - rewrite (surjective_pairing (Conn.clear_peers _ _ _)). cbn [fst].
    split; [discriminate|]. intros (_ & _ & Hm & _). contradiction.
  - destruct b as [b'|].
    + destruct (Conn.SetMark b' (Conn.net_fwmark (Conn.device s)) w1) as [[e|] w2].
      * cbn [fst]. split; [discriminate|]. intros (_ & _ & _ & p & w & Heq). discriminate.
      * rewrite (surjective_pairing (Conn.clear_peers _ _ _)). cbn [fst].
        split; [discriminate|]. intros (_ & _ & _ & p & w & Heq). discriminate.
    + cbn [fst]. split; [|reflexivity]. intros _.
      split; [reflexivity|]. split; [reflexivity|]. split; [exact Hnz|]. eauto.
Qed.

Ltac framed :=
  repeat split; cbn; first [reflexivity | assumption | symmetry; assumption].

(** X24.  [BindUpdate] never changes the stored mark or the up flag, and it
    never adds or removes a peer, whatever it returns; [BindSetMark] never
    changes the bind, the port, the up flag or the peers. *)
Theorem bind_calls_frame (s : State) mark :
  visits_each_once range ->
  let u := snd (Conn.BindUpdate range s) in
  let m := snd (Conn.BindSetMark mark s) in
  (Conn.net_fwmark (Conn.device u) = Conn.net_fwmark (Conn.device s) /\
   Conn.isUp (Conn.device u) = Conn.isUp (Conn.device s) /\
   dom (Conn.peers_keyMap (Conn.device u)) = dom (Conn.peers_keyMap (Conn.device s))) /\
  (Conn.net_bind (Conn.device m) = Conn.net_bind (Conn.device s) /\
   Conn.net_port (Conn.device m) = Conn.net_port (Conn.device s) /\
   Conn.isUp (Conn.device m) = Conn.isUp (Conn.device s) /\
   Conn.peers_keyMap (Conn.device m) = Conn.peers_keyMap (Conn.device s)).
Proof.
  intros Honce.
  assert (Hdom : forall l : list Effect,
    dom (fst (Conn.clear_peers range (Conn.peers_keyMap (Conn.device s)) l)) =
    dom (Conn.peers_keyMap (Conn.device s))).
  { intros l. unfold Conn.clear_peers. apply clear_peers_dom.
    intros k p Hin. rewrite (Honce _) in Hin. apply elem_of_map_to_list in Hin.
    rewrite Hin. eauto. }
  split.
  - unfold Conn.BindUpdate.
    destruct (unsafeCloseBind_run s) as (err0 & w0 & Hrun & _). rewrite Hrun.
    cbn [fst snd Conn.device Conn.world Conn.log Conn.isUp Conn.set_bind Conn.net_port
         Conn.net_fwmark Conn.peers_keyMap].
    destruct err0 as [e0|]; [framed|].
    destruct (Conn.isUp (Conn.device s)) eqn:Hup; [|framed].
    destruct (Conn.CreateBind (Conn.net_port (Conn.device s)) w0) as [[[b port] err] w1].
    destruct err as [e|]; [framed|].
    cbn [Conn.set_port Conn.set_bind Conn.net_fwmark Conn.peers_keyMap Conn.isUp
         Conn.net_bind Conn.net_port].
    destruct (negb (Conn.net_fwmark (Conn.device s) =? 0)).
    + destruct b as [b'|]; [|framed].
      destruct (Conn.SetMark b' (Conn.net_fwmark (Conn.device s)) w1) as [[e|] w2];
        [framed|].
      rewrite (surjective_pairing (Conn.clear_peers _ _ _)).
      cbn [fst snd Conn.device Conn.net_fwmark Conn.isUp Conn.peers_keyMap Conn.set_keyMap
           Conn.set_port Conn.set_bind].
      split; [reflexivity|]. split; [exact Hup|]. apply Hdom.
    + rewrite (surjective_pairing (Conn.clear_peers _ _ _)).
      cbn [fst snd Conn.device Conn.net_fwmark Conn.isUp Conn.peers_keyMap Conn.set_keyMap
           Conn.set_port Conn.set_bind].
      split; [reflexivity|]. split; [exact Hup|]. apply Hdom.
  - unfold Conn.BindSetMark.
    destruct (Conn.net_fwmark (Conn.device s) =? mark); [framed|].
    cbn [Conn.isUp Conn.net_bind Conn.set_fwmark].
    destruct (Conn.isUp (Conn.device s)) eqn:Hup; [|framed].
    destruct (Conn.net_bind (Conn.device s)) as [b|] eqn:Hb;
      [|framed].
    destruct (Conn.SetMark b mark (Conn.world s)).
    framed.
Qed.

End AnyRange.

End ConnMore.

(** * More runs of package tun on the test machine *)

Section TunMoreRuns.
Import Doubles MoreDoubles.

Ltac evaluated :=
  solve [ reflexivity
        | discriminate
        | unfold is_int; lia
        | vm_compute; repeat split; first [reflexivity | discriminate] ].

(** X3 on a run: the interface comes up, the next read of the routing
    socket fails with EIO, and the message after it is never handled. *)
Lemma route_monitor_stops_on_error_witness :
  let failed := Tun.mkRouteInput 0 (Some (Errno 5)) [] (inr (Errno 5)) in
  Tun.routineRouteListener 1 ([info 1 true 1420] ++ failed :: [info 1 false 1420]) =
    (fst (Tun.routineRouteListener 1 [info 1 true 1420]), Tun.Exited (Errno 5)).
Proof.
  intros failed.
  apply (route_monitor_stops_on_error 1 [info 1 true 1420] failed [info 1 false 1420]
           (Tun.mkStatus true 1420) (Errno 5)).
  - vm_compute. reflexivity.
  - left. split; reflexivity.
Defined.

(** X5 on a run: the kernel stores the 19 bytes of the status text of
    tun0, which names process 100, and no NUL. *)
Lemma tunName_sound_witness :
  exists j t2 iface,
    Tun.k_InterfaceByIndex terse t2 j = inl iface /\ net.Name iface = "tun0"%string /\
    owned_by terse (t2 ++ [Tun.InterfaceByIndex j]) 4 iface 100.
Proof.
  apply (tunName_sound terse 2 3 [] "tun0" (snd (Tun.tunName terse 2 3 []))).
  - vm_compute. reflexivity.
  - discriminate.
Defined.

(** X6 on a run: no interface has index 2, so two turns are enough. *)
Lemma tunName_returns_witness :
  exists r t', Tun.tunName plain 2 3 [] = (Done r, t').
Proof.
  apply (tunName_returns plain 2 1 3 []).
  - lia.
  - lia.
  - intros t'. eexists. reflexivity.
Defined.

(** X7 on a run. *)
Lemma Close_attempts_every_step_witness :
  snd (Tun.Close plain wg0 []) = [] ++ teardown_calls plain wg0 (mkRWCancel 3) [].
Proof. apply (Close_attempts_every_step plain wg0 (mkRWCancel 3) []). reflexivity. Defined.

(** X9 on a run: wg0 is closed, and then closed again. *)
Lemma second_Close_closes_events_twice_witness :
  let tun1 := Tun.set_routeSocket wg0 (-1) in
  let shut := Tun.set_events tun1 (Some (Tun.close_chan (Tun.make_chan 10))) in
  (exists err, Tun.Close plain wg0 [] =
                 (Done (err, tun1), [] ++ teardown_calls plain wg0 (mkRWCancel 3) [])) /\
  (forall t1, Tun.routineRouteListener_deferred tun1 t1 = (Done shut, t1)) /\
  (forall t1, exists err,
     Tun.Close plain tun1 t1 =
       (Done (err, shut), t1 ++ teardown_calls plain tun1 (mkRWCancel 3) t1)) /\
  (forall t2, fst (Tun.Close plain shut t2) = Panic) /\
  (forall t2, fst (Tun.routineRouteListener_deferred shut t2) = Panic).
Proof.
  apply (second_Close_closes_events_twice plain wg0 (mkRWCancel 3) (Tun.make_chan 10) []).
  - reflexivity.
  - reflexivity.
  - reflexivity.
  - vm_compute. discriminate.
Defined.

(** X10 on a run: the ioctl that sets the MTU fails. *)
Lemma CreateTUNFromFile_closes_on_error_witness :
  let K := machine SIOCSIFMTU ["tun0"%string] 0 in
  exists pre post,
    snd (Tun.CreateTUNFromFile K 3 (mkFile 3) 1420 []) =
      [] ++ pre ++ Tun.FileClose (mkFile 3) :: post.
Proof.
  intros K.
  apply (CreateTUNFromFile_closes_on_error K 3 (mkFile 3) 1420 [] (ErrSetMTU "tun0")).
  vm_compute. reflexivity.
Defined.


(** X12 on a run: no node can be opened. *)
Lemma CreateTUN_no_device_witness :
  let probes := [] ++ [Tun.InterfaceByName "wg0"] ++ probed 99 0 in
  exists e,
    Tun.k_OpenFile no_nodes probes "/dev/tun" O_RDWR 0 = inr e /\
    Tun.CreateTUN no_nodes 3 "wg0" 1420 [] =
      (Done (inr e), probes ++ [Tun.OpenFile "/dev/tun" O_RDWR 0]).
Proof.
  apply (CreateTUN_no_device no_nodes 3 "wg0" 1420 [] (ErrLib "no such network interface")).
  - vm_compute. discriminate.
  - reflexivity.
  - intros tr path flag perm. eexists. reflexivity.
Defined.

(** X13 on a run: /dev/tun0 and /dev/tun1 are busy. *)
Lemma CreateTUN_first_free_node_witness :
  let t0 := [] ++ [Tun.InterfaceByName "wg0"] in
  Tun.probe third_node 99 0 None t0 = (Done (Some (mkFile 3)), t0 ++ probed 3 0) /\
  forall tun t',
    Tun.CreateTUN third_node 3 "wg0" 1420 [] = (Done (inl tun), t') -> Tun.fd tun = mkFile 3.
Proof.
  apply (CreateTUN_first_free_node third_node 3 "wg0" 1420 []
           (ErrLib "no such network interface") 2 (mkFile 3)).
  - vm_compute. discriminate.
  - reflexivity.
  - lia.
  - intros j Hj. destruct j as [|[|j]]; [eexists; reflexivity..|lia].
  - reflexivity.
Defined.

(** X14 on a run: the read fails with EAGAIN and the device is not ready. *)
Lemma Read_hides_retry_errors_witness :
  RetryAfterError ErrDeviceClosed = false \/ (ErrDeviceClosed = ErrDeviceClosed /\ 0 = 0).
Proof.
  apply (Read_hides_retry_errors stalled 1 wg0 (repeat 0 100) 4 [] 0 ErrDeviceClosed
           (repeat 0 100) wg0 (snd (Tun.Read stalled 1 wg0 (repeat 0 100) 4 []))).
  vm_compute. reflexivity.
Defined.

(** X15 on a run. *)
Lemma fatal_error_delivered_once_witness :
  let buff := repeat 0 100 in
  Tun.doRead plain wg0_failed buff 4 [] = (Done (0, Some (Errno 5), buff, wg0), []) /\
  exists r, Tun.doRead plain wg0 buff 4 [] =
              (Done r, [] ++ [Tun.FileRead (mkFile 3) (len buff - (4 - 4))]).
Proof.
  intros buff.
  apply (fatal_error_delivered_once plain wg0_failed buff 4 [] (Errno 5)).
  - reflexivity.
  - unfold is_int. lia.
  - lia.
  - vm_compute. discriminate.
Defined.

(** X16 on a run: an IPv4 packet of four bytes, written at offset 4 and read
    back at offset 8 from a device that returns what was written. *)
Lemma Write_then_doRead_witness :
  let buff := [0; 0; 0; 0; 0x45; 1; 2; 3] in
  let buff2 := repeat 0 100 in
  let packet := [0; 0; 0; AF_INET; 0x45; 1; 2; 3] in
  let t1 := [] ++ [Tun.FileWrite (mkFile 3) packet] in
  snd (Tun.Write loopback wg0 buff 4 []) = t1 /\
  exists buff2',
    Tun.doRead loopback wg0 buff2 8 t1 =
      (Done (4, None, buff2', wg0), t1 ++ [Tun.FileRead (mkFile 3) 96]) /\
    take 4 (drop 8 buff2') = [0x45; 1; 2; 3] /\
    take 4 (drop 4 buff2') = [0; 0; 0; AF_INET].
Proof.
  intros buff buff2 packet t1.
  exact (Write_then_doRead loopback wg0 buff buff2 4 8 0x45 []
           ltac:(evaluated) ltac:(evaluated) ltac:(evaluated) ltac:(evaluated)
           ltac:(evaluated) ltac:(evaluated) ltac:(evaluated) ltac:(evaluated)
           ltac:(evaluated)).
Defined.

(** X17 on a run: the kernel keeps the MTU it was given. *)
Lemma MTU_reads_back_setMTU_witness :
  let t' := snd (Tun.setMTU keeps_mtu wg0 1420 []) in
  snd (Tun.setMTU keeps_mtu wg0 1420 []) =
    [] ++ [Tun.Socket AF_INET SOCK_DGRAM 0;
           Tun.Ioctl 4 SIOCSIFMTU (Tun.ArgIfreqMtu (Tun.name_array "wg0") (1420 mod 2 ^ 32));
           Tun.UnixClose 4] /\
  fst (Tun.MTU keeps_mtu SIOCGIFMTU wg0 t') = Done (1420, None).
Proof.
  intros t'.
  apply (MTU_reads_back_setMTU keeps_mtu SIOCGIFMTU wg0 1420 [] t' 4 4).
  - lia.
  - reflexivity.
  - reflexivity.
  - vm_compute. reflexivity.
Defined.

(** X18 on the platform of the test machine, whose IFNAMSIZ is 16. *)
Lemma name_array_holds_short_names_witness :
  len (Tun.name_array "wg0") = IFNAMSIZ /\
  (Z.of_nat (String.length "wg0") <= IFNAMSIZ - 1 ->
   Tun.name_array "wg0" =
     bytes_of_string "wg0" ++ repeat 0 (Z.to_nat IFNAMSIZ - String.length "wg0") /\
   index (Tun.name_array "wg0") (Z.of_nat (String.length "wg0")) = Some 0) /\
  (IFNAMSIZ <= Z.of_nat (String.length "wg0") ->
   Tun.name_array "wg0" = take (Z.to_nat IFNAMSIZ) (bytes_of_string "wg0")).
Proof.
  apply (name_array_holds_short_names "wg0").
  vm_compute. discriminate.
Defined.

(** X25 on a run: the plain machine hands out /dev/tun0 and keeps calling
    the interface tun0. *)
Lemma CreateTUN_configures_device_witness :
  (exists pre post confd idx,
     snd (Tun.CreateTUN plain 3 "wg0" 1420 []) = [] ++ pre ++
       [Tun.Ioctl 3 _TUNSIFHEAD (Tun.ArgInt 1);
        Tun.Ioctl 3 _TUNSIFMODE (Tun.ArgInt IFF_BROADCAST);
        Tun.Socket AF_INET SOCK_DGRAM 0;
        Tun.Ioctl confd SIOCSIFNAME
          (Tun.ArgIfreqPtr (Tun.name_array "tun0") (Tun.name_array "wg0"));
        Tun.UnixClose confd] ++ post /\
     Tun.GoRouteListener idx ∈ post) /\
  forall t2, exists err, fst (Tun.Close plain tun0 t2) = Done (err, closed_handle tun0).
Proof.
  apply (CreateTUN_configures_device plain 3 "wg0" 1420 [] tun0).
  vm_compute. reflexivity.
Defined.

(** X26 on a run. *)
Lemma returned_handle_file_is_open_witness :
  exists new, snd (Tun.CreateTUN plain 3 "wg0" 1420 []) = [] ++ new /\
              forall f, Tun.FileClose f ∉ new.
Proof.
  apply (returned_handle_file_is_open plain 3 "wg0" (mkFile 3) 1420 [] tun0).
  right. vm_compute. reflexivity.
Defined.

End TunMoreRuns.

(** * More runs of conn.go on the test networking *)

Section ConnMoreRuns.
Import Doubles MoreDoubles.

(** X20 on a run: closing bind 0 fails. *)
Lemma BindUpdate_stops_on_close_error_witness :
  let r := Conn.BindUpdate in_map_order (start 7 no_close) in
  fst r = Done (Some (ErrLib "bad file descriptor")) /\
  Conn.net_bind (Conn.device (snd r)) = None /\
  Conn.net_port (Conn.device (snd r)) = 51820 /\
  Conn.log (snd r) = [] ++ closing (start 7 no_close).
Proof.
  apply (BindUpdate_stops_on_close_error in_map_order (start 7 no_close)
           (ErrLib "bad file descriptor")).
  vm_compute. reflexivity.
Defined.

(** X21 on a run: the device is up and every call succeeds. *)
Lemma BindUpdate_installs_bind_witness :
  let s := start 7 working in
  let s' := snd (Conn.BindUpdate in_map_order s) in
  exists b port w new,
    Conn.CreateBind 51820 (Conn.world (snd (Conn.unsafeCloseBind s))) = (b, port, None, w) /\
    Conn.net_bind (Conn.device s') = b /\
    Conn.net_port (Conn.device s') = port /\
    Conn.log s' = [] ++ new ++
      [Conn.DidGo Conn.ipv4_Version b; Conn.DidGo Conn.ipv6_Version b;
       Conn.DidLog "UDP bind has been updated"] /\
    creations new = [51820] /\
    marks new = [(b, 7)].
Proof.
  intros s s'.
  apply (BindUpdate_installs_bind in_map_order s).
  - reflexivity.
  - vm_compute. reflexivity.
Defined.

(** X24 on a run. *)
Lemma bind_calls_frame_witness :
  let s := start 7 working in
  let u := snd (Conn.BindUpdate in_map_order s) in
  let m := snd (Conn.BindSetMark 9 s) in
  (Conn.net_fwmark (Conn.device u) = 7 /\
   Conn.isUp (Conn.device u) = true /\
   dom (Conn.peers_keyMap (Conn.device u)) = dom peers) /\
  (Conn.net_bind (Conn.device m) = Some 0%nat /\
   Conn.net_port (Conn.device m) = 51820 /\
   Conn.isUp (Conn.device m) = true /\
   Conn.peers_keyMap (Conn.device m) = peers).
Proof.
  intros s u m.
  exact (bind_calls_frame in_map_order s 9 map_to_list_once).
Defined.


End ConnMoreRuns.
